(** * nocodb-api: Table and Record

    A shallow embedding of [nocodb/Table.py] and [nocodb/Record.py].

    Python values that travel through the client are JSON documents; they
    are modelled by the inductive [json].  A Python [str] is a [string]
    (code points below 256).  Python exceptions are the constructors of
    [exn]; a computation that can raise returns a [result].  Calls that
    reach the NocoDB service go through the interface [NocoDB], and the
    methods are written in a state monad over the state of that service
    that also keeps the log of the requests passed to [call_noco]. *)

From Stdlib Require Import ZArith List String Ascii Bool Lia Sorted.
From Stdlib Require Import Floats.SpecFloat.
Import ListNotations.
Local Open Scope string_scope.
Local Open Scope Z_scope.
Local Open Scope list_scope.

(** ** Python values *)

(** What [json.loads] builds: [None], [bool], [int], [float], [str],
    [list] and [dict] with [str] keys.  A [dict] keeps its keys in
    insertion order, so it is an association list. *)
#[warnings="-register-all"]
Inductive json : Type :=
| JNull
| JBool (b : bool)
| JInt (z : Z)
| JFloat (f : spec_float)
| JStr (s : string)
| JList (l : list json)
| JDict (d : list (string * json)).

Definition dict (V : Type) : Type := list (string * V).

Inductive exn : Type :=
| TypeError
| KeyError (key : string)
| IndexError
| AttributeError
| ValueError
| OverflowError
| JSONDecodeError
| TransportError (msg : string)
| Exception (msg : string).

(** The outcome of running a piece of Python: a value or a raised
    exception. *)
Inductive result (A : Type) : Type :=
| Ok (a : A)
| Raise (e : exn).
Arguments Ok {A} a.
Arguments Raise {A} e.

Definition bindR {A B : Type} (r : result A) (k : A -> result B) : result B :=
  match r with
  | Ok a => k a
  | Raise e => Raise e
  end.

Notation "'let?' x ':=' c 'in' k" := (bindR c (fun x => k))
  (at level 10, x name, c at level 100, k at level 200).

(** A list comprehension whose element expression can raise. *)
Fixpoint mapR {A B : Type} (f : A -> result B) (l : list A) : result (list B) :=
  match l with
  | [] => Ok []
  | a :: l' =>
      let? b := f a in
      let? bs := mapR f l' in
      Ok (b :: bs)
  end.

(** *** dict *)

Section Dict.
Context {V : Type}.

(** [d.get(k)] as an option; [None] when [k not in d]. *)
Fixpoint dict_get (d : dict V) (k : string) : option V :=
  match d with
  | [] => None
  | (k', v) :: d' => if String.eqb k k' then Some v else dict_get d' k
  end.

(** [k in d] *)
Definition dict_mem (k : string) (d : dict V) : bool :=
  match dict_get d k with Some _ => true | None => false end.

(** [d[k] = v]: an existing key keeps its place. *)
Fixpoint dict_set (d : dict V) (k : string) (v : V) : dict V :=
  match d with
  | [] => [(k, v)]
  | (k', v') :: d' =>
      if String.eqb k k' then (k', v) :: d' else (k', v') :: dict_set d' k v
  end.
End Dict.

(** *** Characters and strings *)

Definition chars (s : string) : list ascii := list_ascii_of_string s.

Definition is_digit (c : ascii) : bool :=
  let n := nat_of_ascii c in (48 <=? n)%nat && (n <=? 57)%nat.

Definition digit_value (c : ascii) : Z := Z.of_nat (nat_of_ascii c) - 48.

(** The white space that [int] strips around a number, for one code
    point below 256: the ASCII characters tab to carriage return and the
    space, and the two white-space characters above 127, which [int] first
    turns into spaces.  The separators 28 to 31 are white space for
    [str.isspace] but not for [int]. *)
Definition is_space (c : ascii) : bool :=
  let n := nat_of_ascii c in
  ((9 <=? n)%nat && (n <=? 13)%nat) || (n =? 32)%nat
  || (n =? 133)%nat || (n =? 160)%nat.

(** [sub in s] for two strings. *)
Fixpoint str_contains (sub s : string) : bool :=
  if String.prefix sub s then true
  else match s with
       | EmptyString => false
       | String _ s' => str_contains sub s'
       end.

(** [s.endswith("s")] *)
Fixpoint endswith_s (s : string) : bool :=
  match s with
  | EmptyString => false
  | String c EmptyString => Ascii.eqb c "s"
  | String _ s' => endswith_s s'
  end.

(** [s[:-1]] *)
Fixpoint drop_last (s : string) : string :=
  match s with
  | EmptyString => EmptyString
  | String _ EmptyString => EmptyString
  | String c s' => String c (drop_last s')
  end.

(** The value of a run of decimal digits, most significant first. *)
Definition digits_value (ds : list ascii) : Z :=
  fold_left (fun acc c => 10 * acc + digit_value c) ds 0.

(** *** Truth value, [in], indexing *)

(** [bool(v)] *)
Definition truthy (v : json) : bool :=
  match v with
  | JNull => false
  | JBool b => b
  | JInt z => negb (z =? 0)
  | JFloat f => match f with S754_zero _ => false | _ => true end
  | JStr s => negb (String.eqb s "")
  | JList l => match l with [] => false | _ => true end
  | JDict d => match d with [] => false | _ => true end
  end.

Definition is_str (k : string) (v : json) : bool :=
  match v with JStr s => String.eqb s k | _ => false end.

(** [k in v] for a [str] [k]: key of a dict, element of a list, substring
    of a str; any other right operand is not a container. *)
Definition py_in (k : string) (v : json) : result bool :=
  match v with
  | JDict d => Ok (dict_mem k d)
  | JList l => Ok (existsb (is_str k) l)
  | JStr s => Ok (str_contains k s)
  | _ => Raise TypeError
  end.

(** [v[k]] for a [str] [k]. *)
Definition getitem (v : json) (k : string) : result json :=
  match v with
  | JDict d => match dict_get d k with Some x => Ok x | None => Raise (KeyError k) end
  | _ => Raise TypeError
  end.

(** [l[i]] for a list and an [int] index, negative indices counting from
    the end. *)
Definition list_index (l : list json) (i : Z) : result json :=
  let n := Z.of_nat (List.length l) in
  let j := if i <? 0 then i + n else i in
  if (j <? 0) || (n <=? j) then Raise IndexError
  else match nth_error l (Z.to_nat j) with
       | Some x => Ok x
       | None => Raise IndexError
       end.

(** [v[field]] where [field] was produced by iterating over [v] itself:
    a key of the dict, an element of the list (an index only when it is an
    [int] or a [bool]), a character of the str. *)
Definition getitem_field (v field : json) : result json :=
  match v with
  | JDict d =>
      match field with
      | JStr k => getitem v k
      | _ => Raise TypeError
      end
  | JList l =>
      match field with
      | JInt i => list_index l i
      | JBool b => list_index l (if b then 1 else 0)
      | _ => Raise TypeError
      end
  | _ => Raise TypeError
  end.

(** [for x in v]: the values the loop variable takes. *)
Definition py_iter (v : json) : result (list json) :=
  match v with
  | JDict d => Ok (map (fun kv => JStr (fst kv)) d)
  | JList l => Ok l
  | JStr s => Ok (map (fun c => JStr (String c EmptyString)) (chars s))
  | _ => Raise TypeError
  end.

(** [isinstance(v, dict) and "Id" in v], with the value under ["Id"]. *)
Definition dict_Id (v : json) : option json :=
  match v with
  | JDict d => dict_get d "Id"
  | _ => None
  end.

(** *** int() *)

(** Digits with single underscores allowed between them, as [int] reads
    them; [prev] tells whether the previous character was a digit. *)
Fixpoint int_digits (prev : bool) (acc : Z) (l : list ascii) : option Z :=
  match l with
  | [] => if prev then Some acc else None
  | c :: l' =>
      if is_digit c then int_digits true (10 * acc + digit_value c) l'
      else if Ascii.eqb c "_" && prev then
             match l' with
             | d :: _ => if is_digit d then int_digits false acc l' else None
             | [] => None
             end
           else None
  end.

Fixpoint lstrip (l : list ascii) : list ascii :=
  match l with
  | c :: l' => if is_space c then lstrip l' else l
  | [] => []
  end.

Definition strip (l : list ascii) : list ascii := rev (lstrip (rev (lstrip l))).

(** [int(s)] for a str, base 10. *)
Definition int_of_str (s : string) : option Z :=
  match strip (chars s) with
  | c :: l' =>
      if Ascii.eqb c "-" then option_map Z.opp (int_digits false 0 l')
      else if Ascii.eqb c "+" then int_digits false 0 l'
      else int_digits false 0 (c :: l')
  | [] => None
  end.

(** [int(x)] for a float: the value [(-1)^s * m * 2^e] truncated towards
    zero. *)
Definition int_of_float (f : spec_float) : result Z :=
  match f with
  | S754_zero _ => Ok 0
  | S754_infinity _ => Raise OverflowError
  | S754_nan => Raise ValueError
  | S754_finite s m e =>
      let a := if 0 <=? e then Z.pos m * 2 ^ e else Z.pos m / 2 ^ (- e) in
      Ok (if s then - a else a)
  end.

(** [int(v)] *)
Definition py_int (v : json) : result Z :=
  match v with
  | JInt z => Ok z
  | JBool b => Ok (if b then 1 else 0)
  | JFloat f => int_of_float f
  | JStr s => match int_of_str s with Some z => Ok z | None => Raise ValueError end
  | JNull | JList _ | JDict _ => Raise TypeError
  end.

Definition is_None (v : json) : bool :=
  match v with JNull => true | _ => false end.

(** ** Objects of the client *)

(** [Table.__init__]: [base_id], [table_id], [title] and the whole
    keyword bag as [metadata]. *)
Record Table : Type := {
  table_id : string;
  base_id : string;
  title : string;
  table_metadata : dict json
}.

(** Modelled from the spec: the class [Column] of [nocodb/Column.py],
    "{id, title, name, system: bool, data_type, linked_table_id:
    optional}".  [linked_table_id] is [Some] exactly when the object has
    the attribute ([hasattr(column, "linked_table_id")]). *)
Record Column : Type := {
  column_id : string;
  column_title : string;
  system : bool;
  linked_table_id : option string
}.

(** [Record.__init__]: [table], [record_id = kwargs["Id"]] and
    [metadata = kwargs]. *)
Record Rec : Type := {
  table : Table;
  record_id : json;
  metadata : dict json
}.

(** [Record(table, **r)]: [r] has to be a mapping, it cannot bind the
    positional parameters again, and it needs the key ["Id"]. *)
Definition new_Record (t : Table) (r : json) : result Rec :=
  match r with
  | JDict kwargs =>
      if dict_mem "self" kwargs || dict_mem "table" kwargs then Raise TypeError
      else match dict_get kwargs "Id" with
           | Some i => Ok {| table := t; record_id := i; metadata := kwargs |}
           | None => Raise (KeyError "Id")
           end
  | _ => Raise TypeError
  end.

(** ** Requests *)

Inductive Method : Type := GET | POST | PATCH | DELETE.

(** The paths the two classes format, kept with their parts:
    [f"tables/{table_id}/records"],
    [f"tables/{table_id}/links/{column_id}/records/{record_id}"],
    [f"meta/tables/{table_id}"] and [f"meta/tables/{table_id}/columns"]. *)
Inductive Path : Type :=
| tables_records (table_id : string)
| tables_links_records (table_id column_id : string) (record_id : json)
| meta_tables (table_id : string)
| meta_tables_columns (table_id : string).

(** A value of the [params] bag: a plain value, or the filter
    [f"(Id,in,{ids_string})"] where [ids_string] joins [str(id)] of the
    identifiers with commas. *)
Inductive param : Type :=
| PV (v : json)
| where_Id_in (record_ids : list json).

Record Request : Type := {
  path : Path;
  method : Method;
  params : option (dict param);
  json_body : option json
}.

(** The object [call_noco] returns; [r.json()] parses its body. *)
Inductive Response : Type :=
| Body (j : json)
| Unparseable.

Definition Response_json (r : Response) : result json :=
  match r with
  | Body j => Ok j
  | Unparseable => Raise JSONDecodeError
  end.

Definition is_POST (r : Request) : bool :=
  match method r with POST => true | _ => false end.

(** What one iteration of [Table.get_records] reads from the response:
    the Records of [r.json()["list"]] and the truth value of
    [r.json()["pageInfo"]["isLastPage"]]. *)
Definition read_page (self : Table) (r : Response) : result (list Rec * bool) :=
  let? j := Response_json r in
  let? l := getitem j "list" in
  let? rows := py_iter l in
  let? recs := mapR (new_Record self) rows in
  let? j' := Response_json r in
  let? pageInfo := getitem j' "pageInfo" in
  let? isLastPage := getitem pageInfo "isLastPage" in
  Ok (recs, truthy isLastPage).


(** ** The connection object

    [NocoDB] ([nocodb/__init__.py]), [Base] ([nocodb/Base.py]) and the
    constructor of [Column] are not part of these two files: they are the
    parameters of the development.  [world] is the state of the transport
    and of the service behind it; every operation may raise and may change
    that state. *)
Record NocoDB : Type := {
  world : Type;
  Base : Type;
  call_noco : Request -> world -> result Response * world;
  get_table : string -> world -> result Table * world;
  get_base : string -> world -> result Base * world;
  get_tables : Base -> world -> result (list Table) * world;
  new_Column : dict json -> result Column
}.

(** ** The two regular expressions of [Table.get_duplicates]

    [get_duplicates] puts [self.title] into a pattern as it is.  The
    definitions below are for a title that the syntax of [re] reads
    character by character, [re_literal]. *)

Definition re_special (c : ascii) : bool :=
  existsb (Ascii.eqb c) (chars ".^$*+?{}[]\|()").

Definition re_literal (s : string) : bool :=
  forallb (fun c => negb (re_special c)) (chars s).

(** The rest of [s] after its prefix [p], when [p] is one. *)
Fixpoint strip_prefix (p s : list ascii) : option (list ascii) :=
  match p, s with
  | [], _ => Some s
  | a :: p', b :: s' => if Ascii.eqb a b then strip_prefix p' s' else None
  | _ :: _, [] => None
  end.

Definition newline : ascii := "010"%char.

(** The subject without the newline that ends it, if there is one. *)
Fixpoint chomp (l : list ascii) : list ascii :=
  match l with
  | [] => []
  | c :: l' =>
      match l' with
      | [] => if Ascii.eqb c newline then [] else [c]
      | _ => c :: chomp l'
      end
  end.

(** [(_\d+)?$] against the rest of the subject: [$] holds at the end and
    just before a newline that ends the subject. *)
Definition copy_tail (rest : list ascii) : bool :=
  match chomp rest with
  | [] => true
  | c :: ds =>
      Ascii.eqb c "_" && match ds with [] => false | _ => forallb is_digit ds end
  end.

(** [re.match(f"^{title} copy(_\\d+)?$", s)] finds a match. *)
Definition re_match_copy (title s : string) : bool :=
  match strip_prefix (chars (title ++ " copy")) (chars s) with
  | Some rest => copy_tail rest
  | None => false
  end.

(** [re.findall("_(\\d+)", s)], read from left to right.  The state is
    the digits read since the last underscore ([None] outside a
    candidate) and the groups found so far. *)
Definition emit (ds : list ascii) (acc : list string) : list string :=
  match ds with
  | [] => acc
  | _ => acc ++ [string_of_list_ascii ds]
  end.

Definition after_char (c : ascii) : option (list ascii) :=
  if Ascii.eqb c "_" then Some [] else None.

Definition findall_step (st : option (list ascii) * list string) (c : ascii)
  : option (list ascii) * list string :=
  match fst st with
  | Some ds =>
      if is_digit c then (Some (ds ++ [c]), snd st)
      else (after_char c, emit ds (snd st))
  | None => (after_char c, snd st)
  end.

Definition findall_end (st : option (list ascii) * list string) : list string :=
  match fst st with
  | Some ds => emit ds (snd st)
  | None => snd st
  end.

Definition findall_underscore_digits (s : string) : list string :=
  findall_end (fold_left findall_step (chars s) (None, [])).

(** What [re.findall] returns here: non-empty runs of digits. *)
Definition is_group (d : string) : Prop :=
  chars d <> [] /\ forallb is_digit (chars d) = true.

(** The key under which [get_duplicates] files a table: [int(nr[0])], or
    [0] when [nr] is empty; [nr[0]] is a run of digits. *)
Definition duplicate_key (t_title : string) : Z :=
  match findall_underscore_digits t_title with
  | d :: _ => digits_value (chars d)
  | [] => 0
  end.

(** A dict with [int] keys: [d[k] = v]. *)
Fixpoint zdict_set {V : Type} (d : list (Z * V)) (k : Z) (v : V) : list (Z * V) :=
  match d with
  | [] => [(k, v)]
  | (k', v') :: d' =>
      if k =? k' then (k', v) :: d' else (k', v') :: zdict_set d' k v
  end.

(** [sorted(items, reverse=True)] on the keys: descending, equal keys in
    their first order. *)
Fixpoint insert_desc {V : Type} (x : Z * V) (l : list (Z * V)) : list (Z * V) :=
  match l with
  | [] => [x]
  | y :: l' => if fst y <=? fst x then x :: y :: l' else y :: insert_desc x l'
  end.

Definition sorted_reverse {V : Type} (l : list (Z * V)) : list (Z * V) :=
  fold_right insert_desc [] l.

(** One turn of the loop of [get_duplicates]. *)
Definition file_table (self_title : string) (duplicates : list (Z * Table)) (t : Table)
  : list (Z * Table) :=
  if re_match_copy self_title (title t)
  then zdict_set duplicates (duplicate_key (title t)) t
  else duplicates.

(** The loop of [get_duplicates] over the tables of the base. *)
Definition collect_duplicates (self_title : string) (ts : list Table)
  : list (Z * Table) :=
  fold_left (file_table self_title) ts [].

Definition duplicates_of (self_title : string) (ts : list Table) : list Table :=
  map snd (sorted_reverse (collect_duplicates self_title ts)).

(** The order of the keys after [sorted(..., reverse=True)]. *)
Definition descending {V : Type} (a b : Z * V) : Prop := fst b < fst a.

(** [d.get(k)] for a dict with [int] keys. *)
Fixpoint zdict_get {V : Type} (d : list (Z * V)) (k : Z) : option V :=
  match d with
  | [] => None
  | (k', v) :: d' => if k =? k' then Some v else zdict_get d' k
  end.

(** The last table of the listing that matches the pattern and is filed
    under [n]. *)
Definition last_with (self_title : string) (n : Z) (ts : list Table) : option Table :=
  find (fun t => re_match_copy self_title (title t) && (duplicate_key (title t) =? n))
       (rev ts).

(** The titles of the duplicates in the words of the specification:
    ["<title> copy"], numbered [0], and ["<title> copy_<n>"], numbered
    [n]; [nl] is empty or the one newline that [$] lets through. *)
Inductive copy_title (self_title : string) : string -> Z -> Prop :=
| copy_plain nl :
    nl = [] \/ nl = [newline] ->
    copy_title self_title (self_title ++ " copy" ++ string_of_list_ascii nl) 0
| copy_numbered ds nl :
    ds <> [] -> forallb is_digit ds = true ->
    nl = [] \/ nl = [newline] ->
    copy_title self_title
      (self_title ++ " copy_" ++ string_of_list_ascii (ds ++ nl))
      (digits_value ds).

(** ** The monad of the methods *)

Section Client.
Context (noco_db : NocoDB).

(** The state of the service and the requests passed to [call_noco] so
    far, oldest first. *)
Definition State : Type := (world noco_db * list Request)%type.

(** A method runs from a state to a result and a new state; [None]
    means that the loop of [Table.get_records] was cut by the bound on
    its number of iterations. *)
Definition M (A : Type) : Type := State -> option (result A * State).

Definition ret {A} (a : A) : M A := fun s => Some (Ok a, s).

Definition bind {A B} (m : M A) (k : A -> M B) : M B :=
  fun s =>
    match m s with
    | Some (Ok a, s') => k a s'
    | Some (Raise e, s') => Some (Raise e, s')
    | None => None
    end.

Definition raise {A} (e : exn) : M A := fun s => Some (Raise e, s).

Definition out_of_fuel {A} : M A := fun _ => None.

(** [try: m  except Exception as e: h e] *)
Definition try_except {A} (m : M A) (h : exn -> M A) : M A :=
  fun s =>
    match m s with
    | Some (Raise e, s') => h e s'
    | r => r
    end.

(** A step that does not talk to the service. *)
Definition lift {A} (r : result A) : M A := fun s => Some (r, s).

(** An operation of the connection object that is not [call_noco]. *)
Definition op {A} (f : world noco_db -> result A * world noco_db) : M A :=
  fun s => let (a, w') := f (fst s) in Some (a, (w', snd s)).

(** [self.noco_db.call_noco(...)] *)
Definition call (req : Request) : M Response :=
  fun s =>
    let (r, w') := call_noco noco_db req (fst s) in
    Some (r, (w', snd s ++ [req])).

Notation "x <- c1 ;; c2" := (bind c1 (fun x => c2))
  (at level 61, c1 at next level, right associativity).

(** ** Table *)

(** [Table.get_base] *)
Definition Table_get_base (self : Table) : M (Base noco_db) :=
  op (get_base noco_db (base_id self)).

(** [Column(noco_db=self.noco_db, **f)] *)
Definition Column_of (f : json) : result Column :=
  match f with
  | JDict kwargs => new_Column noco_db kwargs
  | _ => Raise TypeError
  end.

(** [[Column(noco_db=self.noco_db, **f) for f in r.json()["columns"]]] *)
Definition read_columns (r : Response) : result (list Column) :=
  let? j := Response_json r in
  let? columns := getitem j "columns" in
  let? fs := py_iter columns in
  mapR Column_of fs.

Definition columns_request (self : Table) : Request :=
  {| path := meta_tables (table_id self); method := GET;
     params := None; json_body := None |}.

(** [Table.get_columns] *)
Definition Table_get_columns (self : Table) (include_system : bool) : M (list Column) :=
  r <- call (columns_request self) ;;
  cols <- lift (read_columns r) ;;
  if include_system then ret cols
  else ret (filter (fun c => negb (system c)) cols).

(** [params["offset"] += params["limit"]]; both entries are the integers
    stored at the start of [get_records] when this line is reached. *)
Definition advance_offset (params : dict param) : result (dict param) :=
  match dict_get params "offset", dict_get params "limit" with
  | Some (PV (JInt o)), Some (PV (JInt l)) =>
      Ok (dict_set params "offset" (PV (JInt (o + l))))
  | Some _, Some _ => Raise TypeError
  | None, _ => Raise (KeyError "offset")
  | _, None => Raise (KeyError "limit")
  end.

Definition records_request (self : Table) (params : dict param) : Request :=
  {| path := tables_records (table_id self); method := GET;
     params := Some params; json_body := None |}.

(** The [while True] loop of [Table.get_records]; [fuel] bounds the
    number of iterations. *)
Fixpoint get_records_loop (fuel : nat) (self : Table) (get_all_records : bool)
    (params : dict param) (records : list Rec) : M (list Rec) :=
  match fuel with
  | O => out_of_fuel
  | S fuel' =>
      r <- call (records_request self params) ;;
      p <- lift (read_page self r) ;;
      let records := records ++ fst p in
      if snd p then ret records
      else if negb get_all_records then ret records
      else
        params' <- lift (advance_offset params) ;;
        get_records_loop fuel' self get_all_records params' records
  end%nat.

(** [Table.get_records] *)
Definition Table_get_records (fuel : nat) (self : Table)
    (params : option (dict param)) : M (list Rec) :=
  let params := match params with
                | Some (p :: ps) => p :: ps
                | _ => []
                end in
  if dict_mem "offset" params || dict_mem "limit" params then
    get_records_loop fuel self false params []
  else
    let params := dict_set params "offset" (PV (JInt 0)) in
    let params := dict_set params "limit" (PV (JInt 1000)) in
    get_records_loop fuel self true params [].

(** [Table.get_records_by_id] *)
Definition Table_get_records_by_id (fuel : nat) (self : Table)
    (record_ids : list json) : M (list Rec) :=
  Table_get_records fuel self (Some [("where", where_Id_in record_ids)]).

Definition find_column (name : string) (cols : list Column) : option Column :=
  find (fun col => String.eqb (column_title col) name) cols.

Definition ltar_payload (self : Table) (column_name : string) (target_table : Table)
    (link_type : string) : json :=
  JDict [("title", JStr column_name);
         ("uidt", JStr "Links");
         ("parentId", JStr (table_id self));
         ("childId", JStr (table_id target_table));
         ("type", JStr link_type)].

Definition create_request (self : Table) (payload : json) : Request :=
  {| path := meta_tables_columns (table_id self); method := POST;
     params := None; json_body := Some payload |}.

(** [Table.create_linked_column]; the result is [None] when the method
    returns [None]. *)
Definition Table_create_linked_column (self : Table) (column_name : string)
    (target_table : Table) (link_type : string) : M (option Column) :=
  existing_cols <- Table_get_columns self false ;;
  match find_column column_name existing_cols with
  | Some col => ret (Some col)
  | None =>
      cols1 <- Table_get_columns self true ;;
      let self_id_col := find_column "Id" cols1 in
      cols2 <- Table_get_columns target_table true ;;
      let target_id_col := find_column "Id" cols2 in
      match self_id_col, target_id_col with
      | Some _, Some _ =>
          r <- call (create_request self
                       (ltar_payload self column_name target_table link_type)) ;;
          cols3 <- Table_get_columns self false ;;
          ret (find_column column_name cols3)
      | _, _ => raise (Exception "Could not find ID columns for both tables")
      end
  end.

(** [Table.get_duplicates], for a table whose title the pattern reads
    literally ([re_literal]). *)
Definition Table_get_duplicates (self : Table) : M (list Table) :=
  base <- Table_get_base self ;;
  ts <- op (get_tables noco_db base) ;;
  ret (duplicates_of (title self) ts).

(** ** Record *)

(** [fk_name in self.metadata and self.metadata[fk_name]] for
    [fk_name = f"{column.title}_id"]: the value, when the test holds. *)
Definition foreign_key (self : Rec) (column : Column) : option json :=
  match dict_get (metadata self) (column_title column ++ "_id") with
  | Some v => if truthy v then Some v else None
  | None => None
  end.

(** How the body of the inner [try] of [get_linked_records] ends: it
    runs to its last line, it leaves the method by the [return []] of
    line 67, or it raises. *)
Inductive ending : Type :=
| Completed
| Returned
| Failed (e : exn).

(** [[l.get("Id") for l in v if "Id" in l]] *)
Fixpoint list_Ids (l : list json) : result (list json) :=
  match l with
  | [] => Ok []
  | x :: l' =>
      match py_in "Id" x with
      | Raise e => Raise e
      | Ok false => list_Ids l'
      | Ok true =>
          match x with
          | JDict d =>
              let v := match dict_get d "Id" with Some v => v | None => JNull end in
              match list_Ids l' with
              | Ok ids => Ok (v :: ids)
              | Raise e => Raise e
              end
          | _ => Raise AttributeError
          end
      end
  end.

(** Lines 76-78: [for field in response_data], appending to
    [record_ids]; what was appended stays when a later field raises. *)
Fixpoint scan_fields (response_data : json) (fields : list json)
    (record_ids : list json) : list json * ending :=
  match fields with
  | [] => (record_ids, Completed)
  | field :: fields' =>
      match getitem_field response_data field with
      | Raise e => (record_ids, Failed e)
      | Ok v =>
          match dict_Id v with
          | Some i => scan_fields response_data fields' (record_ids ++ [i])
          | None => scan_fields response_data fields' record_ids
          end
      end
  end.

(** Lines 65-78: the response formats, with [record_ids] at the end. *)
Definition response_formats (response_data : json) : list json * ending :=
  match py_in "list" response_data with
  | Raise e => ([], Failed e)
  | Ok true =>
      match getitem response_data "list" with
      | Raise e => ([], Failed e)
      | Ok v =>
          if negb (truthy v) then ([], Returned)
          else match v with
               | JList l =>
                   match list_Ids l with
                   | Ok ids => (ids, Completed)
                   | Raise e => ([], Failed e)
                   end
               | JDict d =>
                   match dict_get d "Id" with
                   | Some i => ([i], Completed)
                   | None => ([], Completed)
                   end
               | _ => ([], Completed)
               end
      end
  | Ok false =>
      match py_in "Id" response_data with
      | Raise e => ([], Failed e)
      | Ok true =>
          match getitem response_data "Id" with
          | Ok v => ([v], Completed)
          | Raise e => ([], Failed e)
          end
      | Ok false =>
          match py_iter response_data with
          | Ok fields => scan_fields response_data fields []
          | Raise e => ([], Failed e)
          end
      end
  end.

Definition item_Id (item : json) : list json :=
  match dict_Id item with Some i => [i] | None => [] end.

(** Lines 83-89: every field whose value is a list of objects or an
    object. *)
Definition general_scan (d : dict json) : list json :=
  flat_map (fun kv => match snd kv with
                      | JList value => flat_map item_Id value
                      | value => item_Id value
                      end) d.

(** Lines 92-96: the foreign key of the record when [record_ids] is
    empty. *)
Definition direct_foreign_key (self : Rec) (column : Column)
    (record_ids : list json) : list json :=
  match record_ids with
  | [] => match foreign_key self column with Some v => [v] | None => [] end
  | _ => record_ids
  end.

(** Lines 65-89: what the live link endpoint yields, the formats first
    and the general scan when they found nothing in an object. *)
Definition live_link_ids (response_data : json) : list json * ending :=
  match response_formats response_data with
  | (record_ids, Completed) =>
      (match record_ids, response_data with
       | [], JDict d => general_scan d
       | _, _ => record_ids
       end, Completed)
  | r => r
  end.

(** Lines 63-96, after [response_data = r.json()]. *)
Definition parse_response (response_data : json) (self : Rec) (column : Column)
  : list json * ending :=
  match live_link_ids response_data with
  | (record_ids, Completed) => (direct_foreign_key self column record_ids, Completed)
  | r => r
  end.

(** Lines 59-101, the inner [try] with its handler: [None] when line 67
    leaves the method with [[]], else [record_ids]. *)
Definition gather_record_ids (r : Response) (self : Rec) (column : Column)
  : option (list json) :=
  let (record_ids, e) :=
    match Response_json r with
    | Ok response_data => parse_response response_data self column
    | Raise e => ([], Failed e)
    end in
  match e with
  | Completed => Some record_ids
  | Returned => None
  | Failed _ =>
      match foreign_key self column with
      | Some v => Some [v]
      | None => Some record_ids
      end
  end.

(** Line 104: [[int(id) for id in record_ids if id is not None]] *)
Definition coerce_ids (record_ids : list json) : result (list Z) :=
  mapR py_int (filter (fun id => negb (is_None id)) record_ids).

Definition find_table (name : string) (ts : list Table) : option Table :=
  find (fun t => String.eqb (title t) name) ts.

Definition not_determined (column : Column) : exn :=
  Exception ("Could not determine linked table for column " ++ column_title column).

Definition not_found (column : Column) : exn :=
  Exception ("Could not find linked table: " ++ column_title column).

(** Lines 110-133: the linked table. *)
Definition linked_table_of (self : Rec) (column : Column) : M Table :=
  match linked_table_id column with
  | Some id => op (get_table noco_db id)
  | None =>
      let linked_table_name := column_title column in
      base <- Table_get_base (table self) ;;
      ts <- op (get_tables noco_db base) ;;
      match find_table linked_table_name ts with
      | Some linked_table => ret linked_table
      | None =>
          if endswith_s linked_table_name then
            let linked_table_name := drop_last linked_table_name in
            ts' <- op (get_tables noco_db base) ;;
            match find_table linked_table_name ts' with
            | Some linked_table => ret linked_table
            | None => raise (not_determined column)
            end
          else raise (not_determined column)
      end
  end.

Definition links_request (self : Rec) (column : Column) : Request :=
  {| path := tables_links_records (table_id (table self)) (column_id column)
               (record_id self);
     method := GET; params := None; json_body := None |}.

(** Lines 52-136: the body of the outer [try]. *)
Definition linked_records_main (fuel : nat) (self : Rec) (column : Column)
  : M (list Rec) :=
  r <- call (links_request self column) ;;
  match gather_record_ids r self column with
  | None => ret []
  | Some record_ids =>
      record_ids <- lift (coerce_ids record_ids) ;;
      match record_ids with
      | [] => ret []
      | _ =>
          linked_table <- linked_table_of self column ;;
          Table_get_records_by_id fuel linked_table (map JInt record_ids)
      end
  end.

(** Lines 138-161: the handler of the outer [try]. *)
Definition linked_records_recovery (fuel : nat) (self : Rec) (column : Column)
    (e : exn) : M (list Rec) :=
  match foreign_key self column with
  | Some record_id =>
      base <- Table_get_base (table self) ;;
      ts <- op (get_tables noco_db base) ;;
      match find_table (column_title column) ts with
      | Some linked_table => Table_get_records_by_id fuel linked_table [record_id]
      | None => raise (not_found column)
      end
  | None => raise e
  end.

(** [Record.get_linked_records] *)
Definition Record_get_linked_records (fuel : nat) (self : Rec) (column : Column)
  : M (list Rec) :=
  try_except (linked_records_main fuel self column)
             (linked_records_recovery fuel self column).

End Client.

Arguments ret {noco_db A} a.
Arguments raise {noco_db A} e.
Arguments lift {noco_db A} r.

(** ** Services used in the examples *)

(** Modelled from the spec: the constructor of [Column]
    ([nocodb/Column.py]), reading "{id, title, name, system: bool,
    data_type, linked_table_id: optional}" from the keyword bag. *)
Definition column_of_dict (kwargs : dict json) : result Column :=
  match dict_get kwargs "id", dict_get kwargs "title" with
  | Some (JStr i), Some (JStr t) =>
      Ok {| column_id := i;
            column_title := t;
            system := match dict_get kwargs "system" with
                      | Some v => truthy v
                      | None => false
                      end;
            linked_table_id := match dict_get kwargs "linked_table_id" with
                               | Some (JStr l) => Some l
                               | _ => None
                               end |}
  | None, _ => Raise (KeyError "id")
  | _, None => Raise (KeyError "title")
  | _, _ => Raise TypeError
  end.

(** A service that answers the calls of [call_noco] from a fixed list,
    whatever the request, and knows a fixed list of tables. *)
Record Script : Type := {
  answers : list (result Response);
  tables : list Table
}.

Definition scripted : NocoDB := {|
  world := Script;
  Base := string;
  call_noco := fun _ w =>
    match answers w with
    | a :: rest => (a, {| answers := rest; tables := tables w |})
    | [] => (Raise (TransportError "no answer"), w)
    end;
  get_table := fun id w =>
    (match find (fun t => String.eqb (table_id t) id) (tables w) with
     | Some t => Ok t
     | None => Raise (Exception "table not found")
     end, w);
  get_base := fun id w => (Ok id, w);
  get_tables := fun b w =>
    (Ok (filter (fun t => String.eqb (base_id t) b) (tables w)), w);
  new_Column := column_of_dict
|}.

(** Modelled from the spec: the list endpoint of the service, "{ "list":
    [ <row>, ... ], "pageInfo": { "isLastPage": bool } }", for a table
    that holds [rows]: a request gets the rows from [offset] on, at most
    [limit] of them, and the page is the last one when it reaches the end
    of the rows. *)
Definition param_nat (ps : option (dict param)) (k : string) (default : nat) : nat :=
  match ps with
  | Some d =>
      match dict_get d k with
      | Some (PV (JInt z)) => Z.to_nat z
      | _ => default
      end
  | None => default
  end.

Definition page (rows : list json) (offset limit : nat) : json :=
  JDict [("list", JList (firstn limit (skipn offset rows)));
         ("pageInfo",
          JDict [("isLastPage", JBool (List.length rows <=? offset + limit)%nat)])].

Definition paged : NocoDB := {|
  world := list json;
  Base := unit;
  call_noco := fun req rows =>
    (Ok (Body (page rows (param_nat (params req) "offset" 0)
                         (param_nat (params req) "limit" 25))), rows);
  get_table := fun _ w => (Raise (Exception "no tables"), w);
  get_base := fun _ w => (Ok tt, w);
  get_tables := fun _ w => (Ok [], w);
  new_Column := column_of_dict
|}.


Definition seeded (limit : Z) : dict param :=
  [("offset", PV (JInt 0)); ("limit", PV (JInt limit))].

(** The first request of [get_records_by_id]. *)
Definition by_id_request (self : Table) (record_ids : list json) : Request :=
  records_request self
    [("where", where_Id_in record_ids);
     ("offset", PV (JInt 0)); ("limit", PV (JInt 1000))].

Definition mk_table (id t : string) : Table :=
  {| table_id := id; base_id := "b1"; title := t; table_metadata := [] |}.

Definition row (i : Z) : json := JDict [("Id", JInt i)].

Definition last_page (rows : list json) : json :=
  JDict [("list", JList rows); ("pageInfo", JDict [("isLastPage", JBool true)])].

Local Open Scope string_scope.

(** ** Examples *)

Definition orders_base : Script :=
  {| answers := [];
     tables := [mk_table "1" "Orders copy"; mk_table "2" "Orders copy_2";
                mk_table "3" "Orders copy_1"] |}.

Definition equal_numbers : list Table :=
  [mk_table "1" "Orders copy"; mk_table "2" "Orders copy_0"].


Definition column_json (id t : string) (sys : bool) : json :=
  JDict [("id", JStr id); ("title", JStr t); ("system", JBool sys)].

Definition listing (cols : list json) : result Response :=
  Ok (Body (JDict [("columns", JList cols)])).

Definition books : Table := mk_table "t1" "Books".
Definition authors : Table := mk_table "t2" "Authors".

(** The listing shows the new column after the creation request. *)
Definition creating : Script :=
  {| answers := [listing [column_json "c1" "Id" false];
                 listing [column_json "c1" "Id" false];
                 listing [column_json "d1" "Id" false];
                 Ok (Body JNull);
                 listing [column_json "c1" "Id" false; column_json "c9" "Authors" false];
                 listing [column_json "c1" "Id" false; column_json "c9" "Authors" false]];
     tables := [books; authors] |}.

Definition authors_column : Column :=
  {| column_id := "c9"; column_title := "Authors"; system := false;
     linked_table_id := None |}.

Definition created : State scripted :=
  ({| answers := [listing [column_json "c1" "Id" false; column_json "c9" "Authors" false]];
      tables := [books; authors] |},
   [columns_request books; columns_request books; columns_request authors;
    create_request books (ltar_payload books "Authors" authors "hm");
    columns_request books]).

Definition asked_again : State scripted :=
  ({| answers := []; tables := [books; authors] |},
   (snd created ++ [columns_request books])%list).

(** A system column has the requested title: the creation request is sent. *)
Definition with_system_column : Script :=
  {| answers := [listing [column_json "c1" "Id" false; column_json "c2" "CreatedAt" true];
                 listing [column_json "c1" "Id" false; column_json "c2" "CreatedAt" true];
                 listing [column_json "d1" "Id" false];
                 Ok (Body JNull);
                 listing [column_json "c1" "Id" false; column_json "c2" "CreatedAt" true]];
     tables := [books; authors] |}.

Definition people : Table := mk_table "t3" "Author".

Definition book : Rec :=
  {| table := books; record_id := JInt 1;
     metadata := [("Id", JInt 1); ("Author_id", JInt 9)] |}.

Definition plain_book : Rec :=
  {| table := books; record_id := JInt 1; metadata := [("Id", JInt 1)] |}.

(** A link column that carries the identifier of the table [authors]. *)
Definition author_link : Column :=
  {| column_id := "c5"; column_title := "Author"; system := false;
     linked_table_id := Some "t2" |}.

(** A link column without [linked_table_id]. *)
Definition authors_link : Column :=
  {| column_id := "c6"; column_title := "Authors"; system := false;
     linked_table_id := None |}.

Definition library : list Table := [books; authors; people].

Definition record_of (t : Table) (i : Z) : Rec :=
  {| table := t; record_id := JInt i; metadata := [("Id", JInt i)] |}.

(** The fetch of the records of the linked table fails once. *)
Definition flaky : Script :=
  {| answers := [Ok (Body (JDict [("Id", JInt 7)]));
                 Raise (TransportError "timeout");
                 Ok (Body (last_page [row 9]))];
     tables := library |}.

(** The link endpoint answers with an empty ["list"]. *)
Definition empty_list : Script :=
  {| answers := [Ok (Body (JDict [("list", JList [])]));
                 Ok (Body (last_page [row 9]))];
     tables := library |}.

(** The link endpoint answers with an identifier that is not a number. *)
Definition bad_id : Script :=
  {| answers := [Ok (Body (JDict [("Id", JStr "abc")]))]; tables := library |}.

(** The link endpoint answers with one identifier, then the list
    endpoint with that row. *)
Definition one_link : Script :=
  {| answers := [Ok (Body (JDict [("Id", JInt 7)]));
                 Ok (Body (last_page [row 7]))];
     tables := library |}.

(** The body of the answer of the link endpoint cannot be parsed; the
    list endpoint then answers with row 9. *)
Definition garbled : Script :=
  {| answers := [Ok Unparseable; Ok (Body (last_page [row 9]))];
     tables := library |}.

Definition after_timeout : State scripted :=
  ({| answers := [Ok (Body (last_page [row 9]))]; tables := library |},
   [links_request book author_link; by_id_request authors [JInt 7]]).

(** ** The other methods of Table and Record *)

(** [extra_keys] of [Table.get_basic_metadata]. *)
Definition extra_keys : list string := ["columns"; "views"; "columnsById"].

(** [Table.get_basic_metadata] *)
Definition Table_get_basic_metadata (self : Table) : dict json :=
  filter (fun kv => negb (existsb (String.eqb (fst kv)) extra_keys))
         (table_metadata self).

(** [[r_id["Id"] for r_id in r.json()]]: the identifiers that the
    service sends back after a bulk request. *)
Definition echoed_ids (r : Response) : result (list json) :=
  let? j := Response_json r in
  let? items := py_iter j in
  mapR (fun r_id => getitem r_id "Id") items.

(** [[{"Id": r_id} for r_id in record_ids]] *)
Definition ids_body (record_ids : list json) : json :=
  JList (map (fun r_id => JDict [("Id", r_id)]) record_ids).

(** A request to [f"tables/{table_id}/records"] that carries a body. *)
Definition write_request (self : Table) (m : Method) (body : json) : Request :=
  {| path := tables_records (table_id self); method := m;
     params := None; json_body := Some body |}.

(** The request of [Record.link_record] and [Record.link_records]. *)
Definition link_request (self : Rec) (column : Column) (body : json) : Request :=
  {| path := tables_links_records (table_id (table self)) (column_id column)
               (record_id self);
     method := POST; params := None; json_body := Some body |}.

Definition column_not_found (t : string) : exn :=
  Exception ("Column with title " ++ t ++ " not found!").

(** The parameters of [Table.create_column]. *)
Definition create_column_parameters : list string :=
  ["self"; "column_name"; "title"; "data_type"].

(** The keyword bag of [Table.create_column] after the three
    assignments; [uidt] is [str(data_type)], the enumeration [DataType]
    being part of [nocodb/Column.py]. *)
Definition create_column_payload (kwargs : dict json) (column_name t uidt : string)
  : dict json :=
  dict_set (dict_set (dict_set kwargs "column_name" (JStr column_name))
                     "title" (JStr t))
           "uidt" (JStr uidt).

(** What tells a request of [get_records] for the table [self]. *)
Definition is_listing (self : Table) (q : Request) : Prop :=
  path q = tables_records (table_id self) /\ method q = GET /\ json_body q = None.

Definition is_GET (q : Request) : bool :=
  match method q with GET => true | _ => false end.

(** The parameters of the first request of [get_records]. *)
Definition first_params (ps : option (dict param)) : dict param :=
  match ps with
  | Some (p :: d) =>
      if dict_mem "offset" (p :: d) || dict_mem "limit" (p :: d) then p :: d
      else dict_set (dict_set (p :: d) "offset" (PV (JInt 0))) "limit" (PV (JInt 1000))
  | _ => seeded 1000
  end.

(** What every Record built by [Record(table, **r)] satisfies. *)
Definition owned_by (t : Table) (r : Rec) : Prop :=
  table r = t /\ dict_get (metadata r) "Id" = Some (record_id r).

(** The requests and the records of a fetch from some table. *)
Definition fetched (more : list Request) (res : result (list Rec)) : Prop :=
  exists t, Forall (is_listing t) more
            /\ forall recs, res = Ok recs -> Forall (owned_by t) recs.

(** A page that is not the last one. *)
Definition open_page (rows : list json) : json :=
  JDict [("list", JList rows); ("pageInfo", JDict [("isLastPage", JBool false)])].

(** A service whose listings are empty pages that are never the last. *)
Definition empty_pages : NocoDB := {|
  world := unit;
  Base := unit;
  call_noco := fun _ w => (Ok (Body (open_page [])), w);
  get_table := fun _ w => (Raise (Exception "no tables"), w);
  get_base := fun _ w => (Ok tt, w);
  get_tables := fun _ w => (Ok [], w);
  new_Column := column_of_dict
|}.

(** The target table shows no column titled ["Id"]. *)
Definition no_target_id : Script :=
  {| answers := [listing [column_json "c1" "Id" false];
                 listing [column_json "c1" "Id" false];
                 listing [column_json "d2" "Name" false]];
     tables := [books; authors] |}.

(** The transport is down. *)
Definition down : Script :=
  {| answers := [Raise (TransportError "down")]; tables := [books; authors] |}.

(** The service echoes the two identifiers of a bulk write, then lists
    the two rows. *)
Definition echoing : Script :=
  {| answers := [Ok (Body (ids_body [JInt 4; JInt 5]));
                 Ok (Body (last_page [row 4; row 5]))];
     tables := [books; authors] |}.

(** The service answers a bulk write with one object. *)
Definition one_object : Script :=
  {| answers := [Ok (Body (JDict [("Id", JInt 4)]));
                 Ok (Body (last_page [row 4]))];
     tables := [books; authors] |}.

(** A row with a field titled [table]. *)
Definition reserved_field : Script :=
  {| answers := [Ok (Body (last_page [row 1;
                                      JDict [("Id", JInt 2); ("table", JStr "x")]]))];
     tables := [books; authors] |}.

Section Methods.
Context (noco_db : NocoDB).

Notation "x <- c1 ;; c2" := (bind noco_db c1 (fun x => c2))
  (at level 61, c1 at next level, right associativity).

(** [Table.get_column_by_title]: [next] over the generator, the
    [StopIteration] of an exhausted generator turned into the
    exception. *)
Definition Table_get_column_by_title (self : Table) (t : string) : M noco_db Column :=
  cols <- Table_get_columns noco_db self false ;;
  match find_column t cols with
  | Some c => ret c
  | None => raise (column_not_found t)
  end.

(** [Table.create_column]; a keyword named like a parameter cannot be
    passed. *)
Definition Table_create_column (self : Table) (column_name t uidt : string)
    (kwargs : dict json) : M noco_db Column :=
  if existsb (fun p => dict_mem p kwargs) create_column_parameters
  then raise TypeError
  else
    r <- call noco_db (create_request self
                         (JDict (create_column_payload kwargs column_name t uidt))) ;;
    Table_get_column_by_title self t.

(** [Table.create_records] *)
Definition Table_create_records (fuel : nat) (self : Table) (records : list (dict json))
  : M noco_db (list Rec) :=
  r <- call noco_db (write_request self POST (JList (map JDict records))) ;;
  ids <- lift (echoed_ids r) ;;
  Table_get_records_by_id noco_db fuel self ids.

(** [Table.update_records] *)
Definition Table_update_records (fuel : nat) (self : Table) (records : list (dict json))
  : M noco_db (list Rec) :=
  r <- call noco_db (write_request self PATCH (JList (map JDict records))) ;;
  ids <- lift (echoed_ids r) ;;
  Table_get_records_by_id noco_db fuel self ids.

(** [Table.delete_record] *)
Definition Table_delete_record (self : Table) (record_id : json) : M noco_db json :=
  r <- call noco_db (write_request self DELETE (JDict [("Id", record_id)])) ;;
  j <- lift (Response_json r) ;;
  lift (getitem j "Id").

(** [Table.delete_records_by_id] *)
Definition Table_delete_records_by_id (self : Table) (record_ids : list json)
  : M noco_db (list json) :=
  r <- call noco_db (write_request self DELETE (ids_body record_ids)) ;;
  lift (echoed_ids r).

(** [Table.delete_records] *)
Definition Table_delete_records (self : Table) (records : list Rec)
  : M noco_db (list json) :=
  Table_delete_records_by_id self (map record_id records).

(** [Record.link_record] *)
Definition Record_link_record (self : Rec) (column : Column) (link_record : Rec)
  : M noco_db json :=
  r <- call noco_db (link_request self column (JDict [("Id", record_id link_record)])) ;;
  lift (Response_json r).

(** [Record.link_records] *)
Definition Record_link_records (self : Rec) (column : Column) (link_records : list Rec)
  : M noco_db json :=
  r <- call noco_db (link_request self column (ids_body (map record_id link_records))) ;;
  lift (Response_json r).

End Methods.

(** ** The methods that read and write one record

    These methods format paths that the methods above do not use:
    [f"tables/{table_id}/records/{record_id}"].  [Path'] adds it to
    [Path], and [Connection] is the connection object with
    [call_noco] on every path and with the file operations [get_file] and
    [upload_file] of [nocodb/__init__.py], parameters like the rest. *)

Inductive Path' : Type :=
| known (p : Path)
| tables_record (table_id : string) (record_id : json).

Record Request' : Type := {
  path' : Path';
  method' : Method;
  params' : option (dict param);
  json_body' : option json
}.

Definition widen (q : Request) : Request' :=
  {| path' := known (path q); method' := method q;
     params' := params q; json_body' := json_body q |}.

Record Connection : Type := {
  state : Type;
  bases : Type;
  call_noco' : Request' -> state -> result Response * state;
  get_table' : string -> state -> result Table * state;
  get_base' : string -> state -> result bases * state;
  get_tables' : bases -> state -> result (list Table) * state;
  new_Column' : dict json -> result Column;
  get_file : json -> string -> state -> result string * state;
  upload_file : string -> string -> state -> result json * state
}.

(** The connection as the methods above see it. *)
Definition narrow (c : Connection) : NocoDB := {|
  world := state c;
  Base := bases c;
  call_noco := fun q => call_noco' c (widen q);
  get_table := get_table' c;
  get_base := get_base' c;
  get_tables := get_tables' c;
  new_Column := new_Column' c
|}.

Section Records.
Context (c : Connection).

Definition State' : Type := (state c * list Request')%type.

Definition M' (A : Type) : Type := State' -> option (result A * State').

Definition ret' {A} (a : A) : M' A := fun s => Some (Ok a, s).

Definition bind' {A B} (m : M' A) (k : A -> M' B) : M' B :=
  fun s =>
    match m s with
    | Some (Ok a, s') => k a s'
    | Some (Raise e, s') => Some (Raise e, s')
    | None => None
    end.

Definition raise' {A} (e : exn) : M' A := fun s => Some (Raise e, s).

Definition lift' {A} (r : result A) : M' A := fun s => Some (r, s).

Definition op' {A} (f : state c -> result A * state c) : M' A :=
  fun s => let (a, w') := f (fst s) in Some (a, (w', snd s)).

Definition call' (req : Request') : M' Response :=
  fun s =>
    let (r, w') := call_noco' c req (fst s) in
    Some (r, (w', (snd s ++ [req])%list)).

(** A method of the sections above, run on this connection: its requests
    join the log. *)
Definition earlier {A} (m : M (narrow c) A) : M' A :=
  fun s =>
    match m (fst s, []) with
    | Some (r, (w', log)) => Some (r, (w', (snd s ++ map widen log)%list))
    | None => None
    end.

Notation "x <- c1 ;; c2" := (bind' c1 (fun x => c2))
  (at level 61, c1 at next level, right associativity).

Definition record_request (t : Table) (record_id : json) (ps : option (dict param))
  : Request' :=
  {| path' := tables_record (table_id t) record_id; method' := GET;
     params' := ps; json_body' := None |}.

(** [Table.get_record] *)
Definition Table_get_record (self : Table) (record_id : json) : M' Rec :=
  r <- call' (record_request self record_id None) ;;
  j <- lift' (Response_json r) ;;
  lift' (new_Record self j).

(** [Table.create_record]; a keyword named [self] cannot be passed. *)
Definition Table_create_record (self : Table) (kwargs : dict json) : M' Rec :=
  if dict_mem "self" kwargs then raise' TypeError
  else
    r <- call' (widen (write_request self POST (JDict kwargs))) ;;
    j <- lift' (Response_json r) ;;
    i <- lift' (getitem j "Id") ;;
    Table_get_record self i.

(** [",".join(fields) if fields else ""] *)
Definition field_str (fields : option (list string)) : string :=
  match fields with
  | Some (f :: fs) => String.concat "," (f :: fs)
  | _ => ""
  end.

(** The fields that [get_values] asks for when [include_system] is
    false: the requested ones that are titles of [cols], all of [cols]
    when none is requested. *)
Definition user_fields (fields : option (list string)) (cols : list string)
  : list string :=
  match fields with
  | Some (f :: fs) => filter (fun x => existsb (String.eqb x) cols) (f :: fs)
  | _ => cols
  end.

(** The request of [get_values]: the record itself, with the fields
    joined by commas. *)
Definition values_request (self : Rec) (fields : option (list string)) : Request' :=
  record_request (table self) (record_id self)
    (Some [("fields", PV (JStr (field_str fields)))]).

(** [Record.get_values] *)
Definition Record_get_values (self : Rec) (fields : option (list string))
    (include_system : bool) : M' json :=
  fields <- (if negb include_system
             then columns <- earlier (Table_get_columns (narrow c) (table self)
                                        include_system) ;;
                  ret' (Some (user_fields fields (map column_title columns)))
             else ret' fields) ;;
  r <- call' (values_request self fields) ;;
  lift' (Response_json r).

(** [Record.get_value] *)
Definition Record_get_value (self : Rec) (field : string) : M' json :=
  values <- Record_get_values self (Some [field]) true ;;
  lift' (getitem values field).

(** [Record.get_column_value] *)
Definition Record_get_column_value (self : Rec) (column : Column) : M' json :=
  Record_get_value self (column_title column).

(** A comprehension whose element expression talks to the service. *)
Fixpoint mapM' {A B} (f : A -> M' B) (l : list A) : M' (list B) :=
  match l with
  | [] => ret' []
  | a :: l' =>
      b <- f a ;;
      bs <- mapM' f l' ;;
      ret' (b :: bs)
  end.

(** [Record.get_attachments] *)
Definition Record_get_attachments (self : Rec) (field encoding : string)
  : M' (list string) :=
  value_list <- Record_get_value self field ;;
  match value_list with
  | JList l =>
      mapM' (fun p => url <- lift' (getitem p "signedUrl") ;;
                      op' (get_file c url encoding)) l
  | _ => raise' (Exception "Invalid field value")
  end.

(** [Record.update]; a keyword named [self] cannot be passed. *)
Definition Record_update (self : Rec) (kwargs : dict json) : M' Rec :=
  if dict_mem "self" kwargs then raise' TypeError
  else
    let kwargs := dict_set kwargs "Id" (record_id self) in
    r <- call' (widen (write_request (table self) PATCH (JDict kwargs))) ;;
    j <- lift' (Response_json r) ;;
    i <- lift' (getitem j "Id") ;;
    Table_get_record (table self) i.

(** [Record.upload_attachment]: [value.append] is looked up before
    [upload_file] is called. *)
Definition Record_upload_attachment (self : Rec) (field filepath mimetype : string)
  : M' Rec :=
  v <- Record_get_value self field ;;
  let value := if truthy v then v else JList [] in
  match value with
  | JList l =>
      f <- op' (upload_file c filepath mimetype) ;;
      Record_update self [(field, JList (l ++ [f])%list)]
  | _ => raise' AttributeError
  end.

End Records.

Arguments ret' {c A} a.
Arguments raise' {c A} e.
Arguments lift' {c A} r.

(** A connection that answers from a fixed list, like [scripted]; a file
    is what its URL says, and an upload is described by its path. *)
Definition scripted' : Connection := {|
  state := Script;
  bases := string;
  call_noco' := fun _ w =>
    match answers w with
    | a :: rest => (a, {| answers := rest; tables := tables w |})
    | [] => (Raise (TransportError "no answer"), w)
    end;
  get_table' := get_table scripted;
  get_base' := get_base scripted;
  get_tables' := get_tables scripted;
  new_Column' := column_of_dict;
  get_file := fun url _ w =>
    (match url with
     | JStr u => Ok ("file at " ++ u)
     | _ => Raise TypeError
     end, w);
  upload_file := fun filepath _ w => (Ok (JDict [("path", JStr filepath)]), w)
|}.

Definition answering (l : list (result Response)) : Script :=
  {| answers := l; tables := [books; authors] |}.

(** The answers to a write of record 1 of [books] and to the read that
    follows it. *)
Definition dune : json := JDict [("Id", JInt 1); ("Title", JStr "Dune")].

Definition written : Script := answering [Ok (Body (row 1)); Ok (Body dune)].

(** A listing with a system column, then the record. *)
Definition with_timestamp : Script :=
  answering [listing [column_json "c1" "Title" false;
                      column_json "c2" "CreatedAt" true];
             Ok (Body (JDict [("Title", JStr "Dune")]))].

Definition cover (url : string) : json := JDict [("signedUrl", JStr url)].

(** A record with two attachments under ["Covers"], and the answers to a
    write and a read. *)
Definition with_covers : Script :=
  answering [Ok (Body (JDict [("Covers", JList [cover "u1"; cover "u2"])]));
             Ok (Body (row 1)); Ok (Body dune)].

(** ** The connection, observed

    Besides [call_noco], the methods use three lookups of the connection
    object: [get_table], [get_base] and the [get_tables] of a Base.  The
    observed connection keeps, next to the state of the service, every
    operation that a method performs on it, oldest first. *)

Inductive Event : Type :=
| Sent (q : Request)
| Table_lookup (table_id : string)
| Base_lookup (base_id : string)
| Tables_listing.

Definition traced (db : NocoDB) : NocoDB := {|
  world := (world db * list Event)%type;
  Base := Base db;
  call_noco := fun q s =>
    let (r, w') := call_noco db q (fst s) in (r, (w', (snd s ++ [Sent q])%list));
  get_table := fun id s =>
    let (r, w') := get_table db id (fst s) in (r, (w', (snd s ++ [Table_lookup id])%list));
  get_base := fun id s =>
    let (r, w') := get_base db id (fst s) in (r, (w', (snd s ++ [Base_lookup id])%list));
  get_tables := fun b s =>
    let (r, w') := get_tables db b (fst s) in (r, (w', (snd s ++ [Tables_listing])%list));
  new_Column := new_Column db
|}.

(** The requests among the operations. *)
Definition requests_of (evs : list Event) : list Request :=
  flat_map (fun e => match e with Sent q => [q] | _ => [] end) evs.

(** An operation that reads: a lookup, or a GET without body on the
    records of a table. *)
Definition reads (e : Event) : Prop :=
  match e with
  | Sent q => exists t, is_listing t q
  | Table_lookup _ | Base_lookup _ | Tables_listing => True
  end.

(** From [st] to [st'] the operations performed are [evs], and the
    requests logged are the requests among them. *)
Definition performs (db : NocoDB) (st st' : State (traced db)) (evs : list Event) : Prop :=
  snd (fst st') = (snd (fst st) ++ evs)%list
  /\ snd st' = (snd st ++ requests_of evs)%list.

Definition tracked (db : NocoDB) {A} (m : M (traced db) A) : Prop :=
  forall st res st', m st = Some (res, st') -> exists evs, performs db st st' evs.

(** * Properties *)

(** * Strings as lists of characters *)

Lemma chars_app (a b : string) : chars (a ++ b) = (chars a ++ chars b)%list.
Proof.
  unfold chars. induction a as [|c a IH]; simpl; [reflexivity|].
  now rewrite IH.
Qed.

Lemma chars_of_list (l : list ascii) : chars (string_of_list_ascii l) = l.
Proof. apply list_ascii_of_string_of_list_ascii. Qed.

Lemma of_list_chars (s : string) : string_of_list_ascii (chars s) = s.
Proof. apply string_of_list_ascii_of_string. Qed.

Lemma chars_inj (a b : string) : chars a = chars b -> a = b.
Proof.
  intros H. rewrite <- (of_list_chars a), <- (of_list_chars b). now rewrite H.
Qed.

Lemma strip_prefix_app (p r : list ascii) : strip_prefix p (p ++ r) = Some r.
Proof.
  induction p as [|c p IH]; simpl; [reflexivity|].
  now rewrite Ascii.eqb_refl.
Qed.

Lemma strip_prefix_Some (p s r : list ascii) :
  strip_prefix p s = Some r -> s = (p ++ r)%list.
Proof.
  revert s. induction p as [|c p IH]; intros s H; simpl in *.
  - now inversion H.
  - destruct s as [|b s]; [discriminate|].
    destruct (Ascii.eqb c b) eqn:E; [|discriminate].
    apply Ascii.eqb_eq in E. subst b. f_equal. now apply IH.
Qed.

(** * The newline that [$] lets through *)

Lemma chomp_cases (l : list ascii) :
  l = chomp l \/ l = (chomp l ++ [newline])%list.
Proof.
  induction l as [|c l IH]; [now left|].
  destruct l as [|d l].
  - simpl. destruct (Ascii.eqb c newline) eqn:E.
    + apply Ascii.eqb_eq in E. subst. now right.
    + now left.
  - change (chomp (c :: d :: l)) with (c :: chomp (d :: l)).
    destruct IH as [IH|IH]; [left|right].
    + f_equal. exact IH.
    + rewrite <- app_comm_cons. f_equal. exact IH.
Qed.

Lemma chomp_snoc (l : list ascii) : chomp (l ++ [newline]) = l.
Proof.
  induction l as [|c l IH]; [reflexivity|].
  simpl app. destruct (l ++ [newline])%list eqn:E.
  - now destruct l.
  - change (chomp (c :: a :: l0)) with (c :: chomp (a :: l0)). now rewrite IH.
Qed.

Lemma digit_not_newline (c : ascii) : is_digit c = true -> Ascii.eqb c newline = false.
Proof.
  intros H. destruct (Ascii.eqb c newline) eqn:E; [|reflexivity].
  apply Ascii.eqb_eq in E. subst. discriminate.
Qed.

Lemma chomp_digits (c : ascii) (ds : list ascii) :
  forallb is_digit ds = true -> ds <> [] -> chomp (c :: ds) = c :: ds.
Proof.
  revert c. induction ds as [|d ds IH]; intros c Hd Hn; [congruence|].
  simpl in Hd. apply andb_true_iff in Hd as [Hd Hds].
  change (chomp (c :: d :: ds)) with (c :: chomp (d :: ds)). f_equal.
  destruct ds as [|e ds].
  - simpl. now rewrite digit_not_newline.
  - apply IH; [assumption|discriminate].
Qed.

(** * The pattern of [get_duplicates] and the titles of the specification *)

Lemma re_match_copy_split (self_title s : string) :
  re_match_copy self_title s = true ->
  exists rest, s = self_title ++ " copy" ++ string_of_list_ascii rest
               /\ copy_tail rest = true.
Proof.
  unfold re_match_copy. intros H.
  destruct (strip_prefix _ _) as [rest|] eqn:E; [|discriminate].
  exists rest. split; [|assumption].
  apply strip_prefix_Some in E. apply chars_inj.
  rewrite E, !chars_app, chars_of_list. now rewrite app_assoc.
Qed.

Lemma re_match_copy_tail (self_title : string) (rest : list ascii) :
  re_match_copy self_title (self_title ++ " copy" ++ string_of_list_ascii rest)
  = copy_tail rest.
Proof.
  unfold re_match_copy.
  replace (chars (self_title ++ " copy" ++ string_of_list_ascii rest))
    with (chars (self_title ++ " copy") ++ rest)%list.
  - now rewrite strip_prefix_app.
  - rewrite !chars_app, chars_of_list. now rewrite app_assoc.
Qed.

Lemma copy_tail_cases (rest : list ascii) :
  copy_tail rest = true ->
  exists nl, (nl = [] \/ nl = [newline]) /\
    (rest = nl \/
     exists ds, ds <> [] /\ forallb is_digit ds = true
                /\ rest = ("_"%char :: ds ++ nl)%list).
Proof.
  unfold copy_tail. intros H.
  assert (exists nl, (nl = [] \/ nl = [newline]) /\ rest = (chomp rest ++ nl)%list)
    as (nl & Hnl & Hr).
  { destruct (chomp_cases rest) as [E|E].
    - exists []. split; [now left|]. now rewrite app_nil_r.
    - exists [newline]. split; [now right|assumption]. }
  exists nl. split; [assumption|].
  destruct (chomp rest) as [|c ds] eqn:E.
  - left. exact Hr.
  - right. apply andb_true_iff in H as [Hc Hds].
    apply Ascii.eqb_eq in Hc. subst c.
    exists ds. destruct ds as [|d ds]; [discriminate|].
    repeat split; [discriminate|assumption|exact Hr].
Qed.

Lemma copy_tail_nl (nl : list ascii) :
  nl = [] \/ nl = [newline] -> copy_tail nl = true.
Proof. intros [->| ->]; reflexivity. Qed.

Lemma copy_tail_numbered (ds nl : list ascii) :
  ds <> [] -> forallb is_digit ds = true -> nl = [] \/ nl = [newline] ->
  copy_tail ("_"%char :: ds ++ nl) = true.
Proof.
  intros Hn Hd Hnl. unfold copy_tail.
  assert (chomp ("_"%char :: ds ++ nl) = "_"%char :: ds) as ->.
  { destruct Hnl as [->| ->].
    - rewrite app_nil_r. now apply chomp_digits.
    - change ("_"%char :: ds ++ [newline])%list with (("_"%char :: ds) ++ [newline])%list.
      apply chomp_snoc. }
  destruct ds; [congruence|]. exact Hd.
Qed.

Lemma re_match_copy_iff (self_title s : string) :
  re_match_copy self_title s = true <-> exists n, copy_title self_title s n.
Proof.
  split.
  - intros H. apply re_match_copy_split in H as (rest & -> & Ht).
    apply copy_tail_cases in Ht as (nl & Hnl & [-> | (ds & Hn & Hd & ->)]).
    + exists 0. now constructor.
    + exists (digits_value ds).
      change (self_title ++ " copy" ++ string_of_list_ascii ("_"%char :: ds ++ nl))
        with (self_title ++ " copy_" ++ string_of_list_ascii (ds ++ nl)).
      now constructor.
  - intros (n & H). destruct H as [nl Hnl | ds nl Hn Hd Hnl].
    + rewrite re_match_copy_tail. now apply copy_tail_nl.
    + change (self_title ++ " copy_" ++ string_of_list_ascii (ds ++ nl))
        with (self_title ++ " copy" ++ string_of_list_ascii ("_"%char :: ds ++ nl)).
      rewrite re_match_copy_tail. now apply copy_tail_numbered.
Qed.

(** * [re.findall("_(\\d+)", s)] *)

Lemma emit_acc (ds : list ascii) (acc : list string) :
  emit ds acc = (acc ++ emit ds [])%list.
Proof. destruct ds; simpl; [now rewrite app_nil_r|reflexivity]. Qed.

Lemma findall_end_acc (l : list ascii) (cur : option (list ascii)) (acc : list string) :
  findall_end (fold_left findall_step l (cur, acc))
  = (acc ++ findall_end (fold_left findall_step l (cur, [])))%list.
Proof.
  revert cur acc. induction l as [|c l IH]; intros cur acc.
  - destruct cur as [ds|]; simpl; [apply emit_acc|now rewrite app_nil_r].
  - simpl. unfold findall_step at 2 4. simpl.
    destruct cur as [ds|].
    + destruct (is_digit c); [apply IH|].
      rewrite IH, (IH _ (emit ds [])), (emit_acc ds acc). now rewrite app_assoc.
    + apply IH.
Qed.

Lemma findall_app (a b : string) :
  findall_underscore_digits (a ++ b)
  = findall_end (fold_left findall_step (chars b)
                   (fold_left findall_step (chars a) (None, []))).
Proof. unfold findall_underscore_digits. now rewrite chars_app, fold_left_app. Qed.

Lemma digits_run (ds pre : list ascii) (acc : list string) :
  forallb is_digit ds = true ->
  fold_left findall_step ds (Some pre, acc) = (Some (pre ++ ds)%list, acc).
Proof.
  revert pre. induction ds as [|d ds IH]; intros pre H; simpl.
  - now rewrite app_nil_r.
  - simpl in H. apply andb_true_iff in H as [Hd Hds].
    unfold findall_step at 2. simpl. rewrite Hd, IH by assumption.
    now rewrite <- app_assoc.
Qed.

(** A title without a group leaves no group behind and, at most, an
    underscore waiting for its digits. *)
Lemma no_group_state (s : string) :
  findall_underscore_digits s = [] ->
  fold_left findall_step (chars s) (None, []) = (None, [])
  \/ fold_left findall_step (chars s) (None, []) = (Some [], []).
Proof.
  unfold findall_underscore_digits, findall_end.
  destruct (fold_left findall_step (chars s) (None, [])) as [[ds|] acc]; simpl.
  - destruct ds; simpl.
    + intros ->. now right.
    + intros H. now apply app_eq_nil in H as [_ H].
  - intros ->. now left.
Qed.

Lemma after_copy (self_title : string) (x : list ascii) :
  findall_underscore_digits self_title = [] ->
  findall_underscore_digits (self_title ++ " copy" ++ string_of_list_ascii x)
  = findall_end (fold_left findall_step x (None, [])).
Proof.
  intros H. rewrite findall_app, chars_app, fold_left_app, chars_of_list.
  now destruct (no_group_state _ H) as [-> | ->].
Qed.

Lemma duplicate_key_copy_title (self_title s : string) (n : Z) :
  findall_underscore_digits self_title = [] ->
  copy_title self_title s n -> duplicate_key s = n.
Proof.
  intros H Hc. unfold duplicate_key.
  destruct Hc as [nl Hnl | ds nl Hn Hd Hnl].
  - rewrite after_copy by assumption. now destruct Hnl as [-> | ->].
  - change (self_title ++ " copy_" ++ string_of_list_ascii (ds ++ nl))
      with (self_title ++ " copy" ++ string_of_list_ascii ("_"%char :: ds ++ nl)).
    rewrite after_copy by assumption.
    change (fold_left findall_step ("_"%char :: ds ++ nl) (None, []))
      with (fold_left findall_step (ds ++ nl)%list (Some [], [])).
    rewrite fold_left_app, digits_run by assumption. simpl app.
    assert (emit ds [] = [string_of_list_ascii ds]) as He
        by (destruct ds; [congruence|reflexivity]).
    destruct Hnl as [-> | ->]; simpl.
    + unfold findall_end. simpl. rewrite He. now rewrite chars_of_list.
    + unfold findall_step, findall_end. simpl.
      rewrite He. now rewrite chars_of_list.
Qed.

(** The first group of the title stays the first group of every title
    that continues it with [" copy"]. *)
Lemma first_group_kept (self_title d : string) (rest : list string) (sfx : string) :
  findall_underscore_digits self_title = d :: rest ->
  exists rest', findall_underscore_digits (self_title ++ " copy" ++ sfx) = d :: rest'.
Proof.
  intros H. rewrite findall_app.
  unfold findall_underscore_digits in H.
  destruct (fold_left findall_step (chars self_title) (None, [])) as [cur acc].
  rewrite findall_end_acc. unfold findall_end in H. simpl in H.
  destruct acc as [|a acc].
  - destruct cur as [ds|]; [|discriminate].
    destruct ds as [|c ds]; [discriminate|]. simpl in H.
    rewrite chars_app. simpl. unfold findall_step at 2. simpl.
    rewrite findall_end_acc. injection H as <- _. eexists. reflexivity.
  - assert (a = d) as ->.
    { destruct cur as [ds|]; [rewrite emit_acc in H|]; now inversion H. }
    eexists. reflexivity.
Qed.

Lemma duplicate_key_first_group (self_title d : string) (rest : list string) (sfx : string) :
  findall_underscore_digits self_title = d :: rest ->
  duplicate_key (self_title ++ " copy" ++ sfx) = digits_value (chars d).
Proof.
  intros H. unfold duplicate_key.
  now destruct (first_group_kept _ _ _ sfx H) as (rest' & ->).
Qed.

(** * [int] on a group of digits

    The groups that [re.findall] returns are runs of digits, and [int]
    reads such a run as its decimal value: this is the [int(nr[0])] of
    [duplicate_key]. *)

Lemma digit_not_space (c : ascii) : is_digit c = true -> is_space c = false.
Proof.
  destruct c as [[] [] [] [] [] [] [] []]; intros H; try reflexivity; discriminate H.
Qed.

Lemma digit_not_char (c x : ascii) :
  is_digit c = true -> is_digit x = false -> Ascii.eqb c x = false.
Proof.
  intros Hc Hx. destruct (Ascii.eqb c x) eqn:E; [|reflexivity].
  apply Ascii.eqb_eq in E. congruence.
Qed.

Lemma lstrip_digits (l : list ascii) :
  forallb is_digit l = true -> lstrip l = l.
Proof.
  destruct l as [|c l]; [reflexivity|]. simpl. intros H.
  apply andb_true_iff in H as [Hc _]. now rewrite (digit_not_space c Hc).
Qed.

Lemma forallb_rev {A} (p : A -> bool) (l : list A) :
  forallb p l = true -> forallb p (rev l) = true.
Proof.
  rewrite !forallb_forall. intros H x Hx. apply H. now apply in_rev.
Qed.

Lemma strip_digits (l : list ascii) : forallb is_digit l = true -> strip l = l.
Proof.
  intros H. unfold strip. rewrite (lstrip_digits l H).
  rewrite (lstrip_digits (rev l) (forallb_rev _ _ H)). apply rev_involutive.
Qed.

Lemma int_digits_run (ds : list ascii) (prev : bool) (acc : Z) :
  forallb is_digit ds = true -> ds <> [] \/ prev = true ->
  int_digits prev acc ds
  = Some (fold_left (fun a c => 10 * a + digit_value c) ds acc).
Proof.
  revert prev acc. induction ds as [|d ds IH]; intros prev acc H Hp; simpl.
  - destruct Hp as [Hp| ->]; [congruence|reflexivity].
  - simpl in H. apply andb_true_iff in H as [Hd Hds].
    rewrite Hd. apply IH; [assumption|now right].
Qed.

Lemma int_of_str_group (d : string) :
  is_group d -> int_of_str d = Some (digits_value (chars d)).
Proof.
  intros [Hn Hd]. unfold int_of_str. rewrite (strip_digits _ Hd).
  destruct (chars d) as [|c l] eqn:E; [congruence|].
  pose proof Hd as Hc. simpl in Hc. apply andb_true_iff in Hc as [Hc _].
  rewrite (digit_not_char c "-" Hc eq_refl), (digit_not_char c "+" Hc eq_refl).
  apply int_digits_run; [assumption|left; discriminate].
Qed.

Lemma emit_groups (ds : list ascii) (acc : list string) :
  forallb is_digit ds = true -> Forall is_group acc -> Forall is_group (emit ds acc).
Proof.
  intros Hd Ha. destruct ds as [|c ds]; [assumption|].
  unfold emit. apply Forall_app. split; [assumption|].
  constructor; [|constructor]. unfold is_group.
  rewrite chars_of_list. split; [discriminate|assumption].
Qed.

Lemma findall_step_groups (l : list ascii) (cur : option (list ascii)) (acc : list string) :
  match cur with Some ds => forallb is_digit ds = true | None => True end ->
  Forall is_group acc ->
  Forall is_group (findall_end (fold_left findall_step l (cur, acc))).
Proof.
  revert cur acc. induction l as [|c l IH]; intros cur acc Hc Ha; simpl.
  - unfold findall_end. simpl. destruct cur; [now apply emit_groups|assumption].
  - destruct (findall_step (cur, acc) c) as [cur' acc'] eqn:E.
    unfold findall_step in E. simpl in E.
    apply IH; destruct cur as [ds|]; [destruct (is_digit c) eqn:D| |destruct (is_digit c)|];
      inversion E; subst; clear E; unfold after_char.
    + rewrite forallb_app, Hc. simpl. now rewrite D.
    + now destruct (Ascii.eqb c "_").
    + now destruct (Ascii.eqb c "_").
    + assumption.
    + now apply emit_groups.
    + assumption.
Qed.

Lemma findall_groups (s : string) : Forall is_group (findall_underscore_digits s).
Proof. apply findall_step_groups; [exact I|constructor]. Qed.

(** [duplicate_key] is [int(nr[0])]. *)
Lemma duplicate_key_int (s d : string) (rest : list string) :
  findall_underscore_digits s = d :: rest ->
  int_of_str d = Some (duplicate_key s).
Proof.
  intros H. unfold duplicate_key. rewrite H. apply int_of_str_group.
  pose proof (findall_groups s) as G. rewrite H in G. now inversion G.
Qed.

(** * The dict of [get_duplicates] *)

Section ZDict.
Context {V : Type}.
Local Open Scope Z_scope.
Implicit Types (d : list (Z * V)) (k n : Z) (v : V).

Lemma zdict_get_set d k v n :
  zdict_get (zdict_set d k v) n = if k =? n then Some v else zdict_get d n.
Proof.
  induction d as [|[k' v'] d IH]; simpl.
  - now rewrite (Z.eqb_sym n k).
  - destruct (k =? k') eqn:E; simpl.
    + apply Z.eqb_eq in E. subst k'. rewrite (Z.eqb_sym n k).
      now destruct (k =? n).
    + rewrite IH. destruct (n =? k') eqn:E'; [|reflexivity].
      apply Z.eqb_eq in E'. subst k'. now rewrite E.
Qed.

Lemma zdict_set_keys d k v :
  map fst (zdict_set d k v)
  = if existsb (Z.eqb k) (map fst d) then map fst d else (map fst d ++ [k])%list.
Proof.
  induction d as [|[k' v'] d IH]; simpl; [reflexivity|].
  destruct (k =? k') eqn:E; simpl; [reflexivity|].
  rewrite IH. now destruct (existsb _ _).
Qed.

Lemma zdict_set_NoDup d k v :
  NoDup (map fst d) -> NoDup (map fst (zdict_set d k v)).
Proof.
  intros H. rewrite zdict_set_keys.
  destruct (existsb (Z.eqb k) (map fst d)) eqn:E; [assumption|].
  apply NoDup_app; [assumption|repeat constructor; now intros []|].
  intros x Hx [Ek|[]]. subst x.
  assert (existsb (Z.eqb k) (map fst d) = true); [|congruence].
  apply existsb_exists. exists k. split; [assumption|apply Z.eqb_refl].
Qed.

Lemma zdict_get_In d n v :
  NoDup (map fst d) -> (In (n, v) d <-> zdict_get d n = Some v).
Proof.
  induction d as [|[k' v'] d IH]; simpl; intros Hnd.
  - split; [intros []|discriminate].
  - inversion Hnd as [|? ? Hk Hd]; subst.
    destruct (n =? k') eqn:E.
    + apply Z.eqb_eq in E. subst k'. split.
      * intros [H|H]; [now inversion H|].
        exfalso. apply Hk. now apply (in_map fst) in H.
      * intros H. inversion H. now left.
    + apply Z.eqb_neq in E. rewrite <- IH by assumption. split.
      * intros [H|H]; [inversion H; congruence|assumption].
      * now right.
Qed.

Lemma insert_desc_In (x a : Z * V) d :
  In a (insert_desc x d) <-> a = x \/ In a d.
Proof.
  induction d as [|y d IH]; simpl.
  - intuition.
  - destruct (fst y <=? fst x); simpl; [intuition|].
    rewrite IH. intuition.
Qed.

Lemma sorted_reverse_In (a : Z * V) d : In a (sorted_reverse d) <-> In a d.
Proof.
  induction d as [|x d IH]; simpl; [reflexivity|].
  rewrite insert_desc_In, IH. intuition.
Qed.

Lemma insert_desc_length (x : Z * V) d :
  List.length (insert_desc x d) = S (List.length d).
Proof.
  induction d as [|y d IH]; simpl; [reflexivity|].
  destruct (fst y <=? fst x); simpl; [reflexivity|now rewrite IH].
Qed.

Lemma sorted_reverse_length d : List.length (sorted_reverse d) = List.length d.
Proof.
  induction d as [|x d IH]; simpl; [reflexivity|].
  now rewrite insert_desc_length, IH.
Qed.

Lemma insert_desc_sorted (x : Z * V) d :
  ~ In (fst x) (map fst d) ->
  StronglySorted (@descending V) d -> StronglySorted (@descending V) (insert_desc x d).
Proof.
  induction d as [|y d IH]; simpl; intros Hx Hs.
  - repeat constructor.
  - inversion Hs as [|? ? Hd Hy]; subst.
    assert (fst y <> fst x) as Hne by (intros E; apply Hx; now left).
    destruct (fst y <=? fst x) eqn:E.
    + apply Z.leb_le in E. constructor; [assumption|].
      constructor; [unfold descending; lia|].
      eapply Forall_impl; [|exact Hy]. unfold descending. intros; lia.
    + apply Z.leb_gt in E. constructor.
      * apply IH; [intros H; apply Hx; now right|assumption].
      * apply Forall_forall. intros a Ha. apply insert_desc_In in Ha as [->|Ha].
        -- exact E.
        -- rewrite Forall_forall in Hy. now apply Hy.
Qed.

Lemma sorted_reverse_sorted d :
  NoDup (map fst d) -> StronglySorted (@descending V) (sorted_reverse d).
Proof.
  induction d as [|x d IH]; simpl; intros Hnd; [constructor|].
  inversion Hnd as [|? ? Hx Hd]; subst.
  apply insert_desc_sorted; [|now apply IH].
  intros H. apply Hx. apply in_map_iff in H as (a & Ha & Hin).
  apply -> sorted_reverse_In in Hin. rewrite <- Ha. apply in_map. exact Hin.
Qed.
End ZDict.

(** * The loop of [get_duplicates] *)

Lemma collect_duplicates_fold (self_title : string) (ts : list Table) :
  collect_duplicates self_title ts = fold_left (file_table self_title) ts [].
Proof. reflexivity. Qed.

Lemma fold_file_NoDup (self_title : string) (ts : list Table) (d : list (Z * Table)) :
  NoDup (map fst d) -> NoDup (map fst (fold_left (file_table self_title) ts d)).
Proof.
  revert d. induction ts as [|t ts IH]; intros d H; simpl; [assumption|].
  apply IH. unfold file_table. destruct (re_match_copy _ _); [|assumption].
  now apply zdict_set_NoDup.
Qed.

Lemma find_snoc {A} (p : A -> bool) (l : list A) (a : A) :
  find p (l ++ [a]) = match find p l with
                      | Some x => Some x
                      | None => if p a then Some a else None
                      end.
Proof.
  induction l as [|b l IH]; simpl; [reflexivity|].
  destruct (p b); [reflexivity|exact IH].
Qed.

Lemma fold_file_get (self_title : string) (ts : list Table) (d : list (Z * Table)) (n : Z) :
  zdict_get (fold_left (file_table self_title) ts d) n
  = match last_with self_title n ts with
    | Some t => Some t
    | None => zdict_get d n
    end.
Proof.
  revert d. induction ts as [|t ts IH]; intros d; simpl; [reflexivity|].
  rewrite IH. unfold last_with. simpl rev. rewrite find_snoc.
  destruct (find _ (rev ts)); [reflexivity|].
  unfold file_table. destruct (re_match_copy self_title (title t)); simpl; [|reflexivity].
  rewrite zdict_get_set. now destruct (Z.eqb (duplicate_key (title t)) n).
Qed.

Lemma collect_duplicates_In (self_title : string) (ts : list Table) (n : Z) (t : Table) :
  In (n, t) (collect_duplicates self_title ts) <-> last_with self_title n ts = Some t.
Proof.
  rewrite collect_duplicates_fold, zdict_get_In by (apply fold_file_NoDup; constructor).
  rewrite fold_file_get. simpl. now destruct (last_with _ _ _).
Qed.

Lemma last_with_Some (self_title : string) (n : Z) (ts : list Table) (t : Table) :
  last_with self_title n ts = Some t ->
  In t ts /\ re_match_copy self_title (title t) = true /\ duplicate_key (title t) = n.
Proof.
  unfold last_with. intros H. apply find_some in H as [Hin Hp].
  apply andb_true_iff in Hp as [Hm Hk]. apply Z.eqb_eq in Hk.
  split; [now apply in_rev|now split].
Qed.

Lemma duplicates_of_In (self_title : string) (ts : list Table) (t : Table) :
  In t (duplicates_of self_title ts) <-> exists n, last_with self_title n ts = Some t.
Proof.
  unfold duplicates_of. rewrite in_map_iff. split.
  - intros ([n t'] & Ht & Hin). simpl in Ht. subst t'. exists n.
    apply collect_duplicates_In. apply -> (@sorted_reverse_In Table) in Hin. exact Hin.
  - intros (n & H). exists (n, t). split; [reflexivity|].
    apply sorted_reverse_In. apply collect_duplicates_In. exact H.
Qed.

Lemma duplicates_of_sorted (self_title : string) (ts : list Table) :
  StronglySorted (fun a b => duplicate_key (title b) < duplicate_key (title a))
                 (duplicates_of self_title ts).
Proof.
  unfold duplicates_of.
  assert (forall a, In a (sorted_reverse (collect_duplicates self_title ts)) ->
                    fst a = duplicate_key (title (snd a))) as Hk.
  { intros [n t] Hin. apply -> (@sorted_reverse_In Table) in Hin.
    apply -> collect_duplicates_In in Hin.
    apply last_with_Some in Hin. simpl. now destruct Hin as (_ & _ & <-). }
  assert (StronglySorted (@descending Table) (sorted_reverse (collect_duplicates self_title ts)))
    as Hs by (apply sorted_reverse_sorted, fold_file_NoDup; constructor).
  induction Hs as [|a l Hs IH Ha]; simpl; [constructor|].
  constructor.
  - apply IH. intros b Hb. apply Hk. now right.
  - apply Forall_forall. intros t Ht. apply in_map_iff in Ht as (b & <- & Hb).
    rewrite Forall_forall in Ha. specialize (Ha b Hb). unfold descending in Ha.
    rewrite <- (Hk a (or_introl eq_refl)), <- (Hk b (or_intror Hb)). exact Ha.
Qed.

(** When every table that matches is filed under the same key, one
    entry is all the dict ever holds. *)
Lemma fold_file_one_key (self_title : string) (k : Z) (ts : list Table) (d : list (Z * Table)) :
  (forall s, re_match_copy self_title s = true -> duplicate_key s = k) ->
  d = [] \/ (exists t, d = [(k, t)]) ->
  (List.length (fold_left (file_table self_title) ts d) <= 1)%nat.
Proof.
  intros Hk. revert d. induction ts as [|t ts IH]; intros d Hd; simpl.
  - destruct Hd as [-> | (t & ->)]; simpl; lia.
  - apply IH. unfold file_table.
    destruct (re_match_copy self_title (title t)) eqn:E; [|assumption].
    rewrite (Hk _ E). right.
    destruct Hd as [-> | (t' & ->)]; simpl; [|rewrite Z.eqb_refl]; eauto.
Qed.

Lemma duplicates_of_one (self_title d : string) (rest : list string) (ts : list Table) :
  findall_underscore_digits self_title = d :: rest ->
  (List.length (duplicates_of self_title ts) <= 1)%nat.
Proof.
  intros H. unfold duplicates_of.
  rewrite length_map, sorted_reverse_length, collect_duplicates_fold.
  apply fold_file_one_key with (k := digits_value (chars d)); [|now left].
  intros s Hs. apply re_match_copy_split in Hs as (x & -> & _).
  now apply duplicate_key_first_group with (rest := rest).
Qed.

Lemma last_with_exists (self_title : string) (n : Z) (ts : list Table) (t : Table) :
  In t ts -> re_match_copy self_title (title t) = true -> duplicate_key (title t) = n ->
  exists t', last_with self_title n ts = Some t'.
Proof.
  intros Hin Hm Hk. unfold last_with.
  destruct (find _ (rev ts)) as [t'|] eqn:E; [now exists t'|].
  apply find_none with (x := t) in E; [|now apply in_rev in Hin].
  rewrite Hm, Hk, Z.eqb_refl in E. discriminate.
Qed.

Lemma Table_get_duplicates_run (db : NocoDB) (self : Table) (w w1 w2 : world db)
    (log : list Request) (b : Base db) (ts : list Table) :
  get_base db (base_id self) w = (Ok b, w1) ->
  get_tables db b w1 = (Ok ts, w2) ->
  Table_get_duplicates db self (w, log)
  = Some (Ok (duplicates_of (title self) ts), (w2, log)).
Proof.
  intros Hb Ht. unfold Table_get_duplicates, Table_get_base, bind, op. simpl.
  rewrite Hb. simpl. rewrite Ht. reflexivity.
Qed.

(** C9 (amended).  For a title that the pattern reads literally and that
    holds no underscore-digit group, [get_duplicates] returns tables of the
    Base titled ["<title> copy"] (number 0) or ["<title> copy_<n>"]
    (number [n]), one for each number that occurs, namely the last table of
    the listing with that number, in strictly descending order of the
    numbers; the tables titled ["Orders copy"], ["Orders copy_2"],
    ["Orders copy_1"] come back as [copy_2, copy_1, copy]. *)
Theorem get_duplicates_one_per_number :
  forall (db : NocoDB) (self : Table) (w w1 w2 : world db) (log : list Request)
         (b : Base db) (ts : list Table),
    re_literal (title self) = true ->
    findall_underscore_digits (title self) = [] ->
    get_base db (base_id self) w = (Ok b, w1) ->
    get_tables db b w1 = (Ok ts, w2) ->
    exists res,
      Table_get_duplicates db self (w, log) = Some (Ok res, (w2, log))
      /\ (forall t, In t res ->
            In t ts /\ copy_title (title self) (title t) (duplicate_key (title t)))
      /\ (forall t n, In t ts -> copy_title (title self) (title t) n ->
            exists t', last_with (title self) n ts = Some t' /\ In t' res
                       /\ copy_title (title self) (title t') n)
      /\ StronglySorted
           (fun x y => duplicate_key (title y) < duplicate_key (title x)) res
      /\ duplicates_of "Orders"
           [mk_table "1" "Orders copy"; mk_table "2" "Orders copy_2";
            mk_table "3" "Orders copy_1"]
         = [mk_table "2" "Orders copy_2"; mk_table "3" "Orders copy_1";
            mk_table "1" "Orders copy"].
Proof.
  intros db self w w1 w2 log b ts _ Hng Hb Ht.
  exists (duplicates_of (title self) ts).
  assert (forall t n, last_with (title self) n ts = Some t ->
                      In t ts /\ copy_title (title self) (title t) n) as Hlast.
  { intros t n H. apply last_with_Some in H as (Hin & Hm & Hk).
    split; [assumption|].
    apply re_match_copy_iff in Hm as (m & Hm).
    now rewrite <- Hk, (duplicate_key_copy_title _ _ _ Hng Hm). }
  split; [now apply Table_get_duplicates_run with (b := b) (w1 := w1)|].
  split; [|split; [|split]].
  - intros t Hin. apply duplicates_of_In in Hin as (n & Hn).
    destruct (Hlast _ _ Hn) as [Hin Hc]. split; [assumption|].
    now rewrite (duplicate_key_copy_title _ _ _ Hng Hc).
  - intros t n Hin Hc.
    destruct (last_with_exists (title self) n ts t Hin) as (t' & Ht').
    + apply re_match_copy_iff. now exists n.
    + now apply duplicate_key_copy_title with (self_title := title self).
    + exists t'. split; [assumption|]. split.
      * apply duplicates_of_In. now exists n.
      * now apply Hlast.
  - apply duplicates_of_sorted.
  - reflexivity.
Qed.

(** C10.  The key of a table is the first underscore-digit group of its
    whole title: when the title of [self] itself holds such a group, every
    title that continues it with [" copy"] is filed under the number of
    that group, ["<title> copy"] included, so that all duplicates share one
    key and only one of them is returned; for ["Report_2"] the table
    ["Report_2 copy"] takes the place of ["Report_2 copy_2"]. *)
Theorem get_duplicates_key_from_whole_title :
  forall (self_title d : string) (rest : list string),
    re_literal self_title = true ->
    findall_underscore_digits self_title = d :: rest ->
    (forall sfx, duplicate_key (self_title ++ " copy" ++ sfx) = digits_value (chars d))
    /\ (forall ts, (List.length (duplicates_of self_title ts) <= 1)%nat)
    /\ duplicate_key "Report_2 copy" = 2
    /\ duplicates_of "Report_2"
         [mk_table "1" "Report_2 copy_2"; mk_table "2" "Report_2 copy"]
       = [mk_table "2" "Report_2 copy"]
    /\ duplicates_of "Report_2"
         [mk_table "1" "Report_2 copy"; mk_table "2" "Report_2 copy_3";
          mk_table "3" "Report_2 copy_1"]
       = [mk_table "3" "Report_2 copy_1"].
Proof.
  intros self_title d rest _ H. split; [|split].
  - intros sfx. now apply duplicate_key_first_group with (rest := rest).
  - intros ts. now apply duplicates_of_one with (d := d) (rest := rest).
  - repeat split; reflexivity.
Qed.

Lemma get_duplicates_key_from_whole_title_witness :
  duplicate_key ("Report_2" ++ " copy" ++ "") = 2
  /\ (List.length (duplicates_of "Report_2"
        [mk_table "1" "Report_2 copy_2"; mk_table "2" "Report_2 copy"]) <= 1)%nat.
Proof.
  destruct (get_duplicates_key_from_whole_title "Report_2" "2" []
              eq_refl eq_refl) as (Hk & Hl & _).
  split; [exact (Hk "")|exact (Hl _)].
Defined.

Lemma get_duplicates_one_per_number_witness :
  exists res,
    Table_get_duplicates scripted (mk_table "0" "Orders") (orders_base, [])
    = Some (Ok res, (orders_base, []))
    /\ StronglySorted
         (fun x y => duplicate_key (title y) < duplicate_key (title x)) res.
Proof.
  destruct (get_duplicates_one_per_number scripted (mk_table "0" "Orders")
              orders_base orders_base orders_base [] "b1" (tables orders_base)
              eq_refl eq_refl eq_refl eq_refl) as (res & Hr & _ & _ & Hs & _).
  exists res. split; assumption.
Defined.

(** Two tables numbered alike: both match, one is returned. *)
Lemma get_duplicates_drops_equal_number :
  Table_get_duplicates scripted (mk_table "0" "Orders")
    ({| answers := []; tables := equal_numbers |}, [])
  = Some (Ok [mk_table "2" "Orders copy_0"],
          ({| answers := []; tables := equal_numbers |}, []))
  /\ ~ (forall t, In t equal_numbers ->
                  re_match_copy "Orders" (title t) = true ->
                  In t (duplicates_of "Orders" equal_numbers)).
Proof.
  split; [reflexivity|].
  intros H. specialize (H (mk_table "1" "Orders copy") (or_introl eq_refl) eq_refl).
  destruct H as [H|[]]. discriminate.
Qed.

(** * Running the methods *)

Section Run.
Context (db : NocoDB).

Lemma call_run (req : Request) (w w' : world db) (log : list Request) (r : result Response) :
  call_noco db req w = (r, w') ->
  call db req (w, log) = Some (r, (w', (log ++ [req])%list)).
Proof. intros H. unfold call. simpl. now rewrite H. Qed.



End Run.

(** * Lists and dicts *)




Lemma dict_get_set_eq {V} (d : dict V) (k : string) (v : V) :
  dict_get (dict_set d k v) k = Some v.
Proof.
  induction d as [|[k' v'] d IH]; simpl.
  - now rewrite String.eqb_refl.
  - destruct (String.eqb k k') eqn:E; simpl; rewrite E; [reflexivity|exact IH].
Qed.

Lemma dict_get_set_neq {V} (d : dict V) (k k' : string) (v : V) :
  k <> k' -> dict_get (dict_set d k v) k' = dict_get d k'.
Proof.
  intros Hne. induction d as [|[k0 v0] d IH]; simpl.
  - destruct (String.eqb k' k) eqn:E; [|reflexivity].
    apply String.eqb_eq in E. congruence.
  - destruct (String.eqb k k0) eqn:E; simpl.
    + apply String.eqb_eq in E. subst k0.
      destruct (String.eqb k' k) eqn:E'; [|reflexivity].
      apply String.eqb_eq in E'. congruence.
    + now rewrite IH.
Qed.

(** * The paged service *)












(** * [Table.create_linked_column] *)

Section Columns.
Context (db : NocoDB).

(** [get_columns] always ends, after one request. *)
Lemma get_columns_total (self : Table) (include_system : bool) (st : State db) :
  exists res w',
    Table_get_columns db self include_system st
    = Some (res, (w', (snd st ++ [columns_request self])%list)).
Proof.
  unfold Table_get_columns, bind, call, lift, ret.
  destruct (call_noco db (columns_request self) (fst st)) as [[r|e] w'].
  - destruct (read_columns db r) as [cols|e].
    + destruct include_system; eauto.
    + eauto.
  - eauto.
Qed.

Lemma get_columns_log (self : Table) (include_system : bool) (st st' : State db)
    (res : result (list Column)) :
  Table_get_columns db self include_system st = Some (res, st') ->
  snd st' = (snd st ++ [columns_request self])%list.
Proof.
  intros H. destruct (get_columns_total self include_system st) as (res' & w' & E).
  rewrite E in H. now inversion H.
Qed.

Lemma filter_POST_columns (self : Table) (log : list Request) :
  filter is_POST (log ++ [columns_request self])%list = filter is_POST log.
Proof. rewrite filter_app. simpl. apply app_nil_r. Qed.

Lemma create_listed (self : Table) (name : string) (target : Table) (lt : string)
    (st st1 : State db) (cols : list Column) (col : Column) :
  Table_get_columns db self false st = Some (Ok cols, st1) ->
  find_column name cols = Some col ->
  Table_create_linked_column db self name target lt st = Some (Ok (Some col), st1)
  /\ filter is_POST (snd st1) = filter is_POST (snd st).
Proof.
  intros Hg Hf. split.
  - unfold Table_create_linked_column, bind at 1. rewrite Hg, Hf. reflexivity.
  - rewrite (get_columns_log _ _ _ _ _ Hg). apply filter_POST_columns.
Qed.

Lemma create_posts (self : Table) (name : string) (target : Table) (lt : string)
    (st st1 : State db) (res : result (option Column)) :
  Table_create_linked_column db self name target lt st = Some (res, st1) ->
  (filter is_POST (snd st1) = filter is_POST (snd st)
   /\ (forall cols s, Table_get_columns db self false st = Some (Ok cols, s) ->
                      find_column name cols = None ->
                      exists e, res = Raise e))
  \/ filter is_POST (snd st1)
     = (filter is_POST (snd st) ++ [create_request self (ltar_payload self name target lt)])%list.
Proof.
  unfold Table_create_linked_column, bind at 1.
  destruct (get_columns_total self false st) as (r0 & w0 & E0). rewrite E0.
  destruct r0 as [cols0|e0].
  2:{ intros H. inversion H; subst. left. cbn [snd]. split; [apply filter_POST_columns|].
      intros cols s Hc. discriminate. }
  destruct (find_column name cols0) as [col|] eqn:F0.
  { intros H. inversion H; subst. left. cbn [snd]. split; [apply filter_POST_columns|].
    intros cols s Hc Hn. inversion Hc; subst. congruence. }
  unfold bind at 1.
  destruct (get_columns_total self true (w0, (snd st ++ [columns_request self])%list))
    as (r1 & w1 & E1). rewrite E1. simpl snd.
  destruct r1 as [cols1|e1].
  2:{ intros H. inversion H; subst. left. cbn [snd].
      rewrite !filter_POST_columns. split; [reflexivity|eauto]. }
  unfold bind at 1.
  destruct (get_columns_total target true
              (w1, ((snd st ++ [columns_request self]) ++ [columns_request self])%list))
    as (r2 & w2 & E2). rewrite E2. simpl snd.
  destruct r2 as [cols2|e2].
  2:{ intros H. inversion H; subst. left. cbn [snd].
      rewrite !filter_POST_columns. split; [reflexivity|eauto]. }
  destruct (find_column "Id" cols1), (find_column "Id" cols2);
    try (intros H; inversion H; subst; left; cbn [snd];
         rewrite !filter_POST_columns; split; [reflexivity|eauto]).
  unfold bind at 1, call. simpl fst. simpl snd.
  destruct (call_noco db (create_request self (ltar_payload self name target lt)) w2)
    as [[r|e] w3].
  2:{ intros H. inversion H; subst. right. cbn [snd].
      rewrite filter_app, !filter_POST_columns. reflexivity. }
  unfold bind at 1.
  match goal with
  | |- context [Table_get_columns db self false ?s] =>
      destruct (get_columns_total self false s) as (r4 & w4 & E4); rewrite E4
  end.
  simpl snd. intros H. right.
  destruct r4; inversion H; subst; cbn [snd];
    rewrite filter_POST_columns, filter_app, !filter_POST_columns; reflexivity.
Qed.
End Columns.

(** X24.  Over the columns that [get_columns()] lists,
    [create_linked_column] is idempotent: a listed column with the
    requested title is returned as it is and no creation request is sent.
    A second call with the same title, made when the listing still shows
    the column that the first call returned, returns that column again and
    sends no creation request; the two calls together send at most one, and
    exactly one when the title was not listed before the first call. *)
Theorem create_linked_column_idempotent :
  forall (db : NocoDB) (self : Table) (name : string) (target : Table) (lt : string)
         (st : State db),
    (forall cols st1 col,
        Table_get_columns db self false st = Some (Ok cols, st1) ->
        find_column name cols = Some col ->
        Table_create_linked_column db self name target lt st = Some (Ok (Some col), st1)
        /\ filter is_POST (snd st1) = filter is_POST (snd st))
    /\ (forall c st1 cols1 st2,
           Table_create_linked_column db self name target lt st = Some (Ok (Some c), st1) ->
           Table_get_columns db self false st1 = Some (Ok cols1, st2) ->
           find_column name cols1 = Some c ->
           Table_create_linked_column db self name target lt st1 = Some (Ok (Some c), st2)
           /\ (filter is_POST (snd st2) = filter is_POST (snd st)
               \/ filter is_POST (snd st2)
                  = (filter is_POST (snd st)
                     ++ [create_request self (ltar_payload self name target lt)])%list)
           /\ (forall cols0 s,
                  Table_get_columns db self false st = Some (Ok cols0, s) ->
                  find_column name cols0 = None ->
                  filter is_POST (snd st2)
                  = (filter is_POST (snd st)
                     ++ [create_request self (ltar_payload self name target lt)])%list)).
Proof.
  intros db self name target lt st. split.
  - intros cols st1 col Hg Hf. now apply create_listed with (cols := cols).
  - intros c st1 cols1 st2 H1 Hg Hf.
    destruct (create_listed db self name target lt st1 st2 cols1 c Hg Hf) as [H2 Hp].
    split; [exact H2|]. rewrite Hp.
    destruct (create_posts db self name target lt st st1 _ H1) as [[Hn Hr]|Hy].
    + split; [now left|]. intros cols0 s Hc Hnone.
      destruct (Hr cols0 s Hc Hnone) as (e & He). discriminate.
    + split; [now right|]. intros; exact Hy.
Qed.

Lemma create_linked_column_idempotent_witness :
  Table_create_linked_column scripted books "Authors" authors "hm" (creating, [])
  = Some (Ok (Some authors_column), created)
  /\ Table_create_linked_column scripted books "Authors" authors "hm" created
     = Some (Ok (Some authors_column), asked_again)
  /\ filter is_POST (snd asked_again)
     = [create_request books (ltar_payload books "Authors" authors "hm")].
Proof.
  destruct (proj2 (create_linked_column_idempotent scripted books "Authors" authors "hm"
                     (creating, []))
              authors_column created
              [ {| column_id := "c1"; column_title := "Id"; system := false;
                   linked_table_id := None |}; authors_column ]
              asked_again eq_refl eq_refl eq_refl) as (H2 & _ & H3).
  split; [reflexivity|]. split; [exact H2|].
  exact (H3 [ {| column_id := "c1"; column_title := "Id"; system := false;
                 linked_table_id := None |} ]
            ({| answers := [listing [column_json "c1" "Id" false];
                            listing [column_json "d1" "Id" false];
                            Ok (Body JNull);
                            listing [column_json "c1" "Id" false;
                                     column_json "c9" "Authors" false];
                            listing [column_json "c1" "Id" false;
                                     column_json "c9" "Authors" false]];
                tables := [books; authors] |}, [columns_request books])
            eq_refl eq_refl).
Defined.

(** C8.  The check for an existing column reads the listing without the
    system columns, unlike the two lookups of ["Id"] that follow it: for a
    table that has the system column [CreatedAt], a call with that title
    does not return the column, sends the creation request for a title that
    exists, and returns [None]. *)
Lemma create_linked_column_system_title :
  read_columns scripted
    (Body (JDict [("columns",
                   JList [column_json "c1" "Id" false;
                          column_json "c2" "CreatedAt" true])]))
  = Ok [ {| column_id := "c1"; column_title := "Id"; system := false;
            linked_table_id := None |};
         {| column_id := "c2"; column_title := "CreatedAt"; system := true;
            linked_table_id := None |} ]
  /\ (exists st1,
        Table_create_linked_column scripted books "CreatedAt" authors "hm"
          (with_system_column, [])
        = Some (Ok None, st1)
        /\ filter is_POST (snd st1)
           = [create_request books (ltar_payload books "CreatedAt" authors "hm")]).
Proof.
  split; [reflexivity|].
  exists ({| answers := []; tables := [books; authors] |},
          [columns_request books; columns_request books; columns_request authors;
           create_request books (ltar_payload books "CreatedAt" authors "hm");
           columns_request books]).
  split; reflexivity.
Qed.

(** * [Record.get_linked_records] *)

(** ** The identifiers *)

Lemma list_Ids_rows (zs : list Z) : list_Ids (map row zs) = Ok (map JInt zs).
Proof.
  induction zs as [|z zs IH]; [reflexivity|].
  simpl. now rewrite IH.
Qed.

Lemma coerce_ids_ints (zs : list Z) : coerce_ids (map JInt zs) = Ok zs.
Proof.
  unfold coerce_ids. induction zs as [|z zs IH]; [reflexivity|].
  simpl. simpl in IH. now rewrite IH.
Qed.

Lemma gather_unparseable (self : Rec) (column : Column) :
  gather_record_ids Unparseable self column
  = Some match foreign_key self column with Some v => [v] | None => [] end.
Proof. unfold gather_record_ids. simpl. now destruct (foreign_key self column). Qed.

Lemma gather_parsed (response_data : json) (self : Rec) (column : Column) :
  gather_record_ids (Body response_data) self column
  = match live_link_ids response_data with
    | (record_ids, Completed) => Some (direct_foreign_key self column record_ids)
    | (_, Returned) => None
    | (record_ids, Failed _) =>
        Some match foreign_key self column with Some v => [v] | None => record_ids end
    end.
Proof.
  unfold gather_record_ids, parse_response. simpl.
  destruct (live_link_ids response_data) as [ids [| |e]]; try reflexivity.
  now destruct (foreign_key self column).
Qed.

(** The loop over the fields never leaves the method. *)
Lemma scan_fields_not_Returned (response_data : json) (fields acc ids : list json) :
  scan_fields response_data fields acc <> (ids, Returned).
Proof.
  revert acc. induction fields as [|f fields IH]; intros acc; simpl; [discriminate|].
  destruct (getitem_field response_data f) as [v|e]; [|discriminate].
  destruct (dict_Id v); apply IH.
Qed.

(** Line 67 is reached exactly for an object whose ["list"] is falsy. *)
Lemma response_formats_Returned (response_data : json) (ids : list json) :
  response_formats response_data = (ids, Returned) <->
  ids = [] /\ exists d v, response_data = JDict d /\ dict_get d "list" = Some v
                          /\ truthy v = false.
Proof.
  unfold response_formats. split.
  - intros H. destruct response_data as [| | | | s|l|d]; simpl in H; try discriminate.
    + destruct (str_contains "list" s); [discriminate|].
      destruct (str_contains "Id" s); [discriminate|].
      now apply scan_fields_not_Returned in H.
    + destruct (existsb (is_str "list") l); [discriminate|].
      destruct (existsb (is_str "Id") l); [discriminate|].
      now apply scan_fields_not_Returned in H.
    + unfold dict_mem in H. destruct (dict_get d "list") as [v|] eqn:E.
      * destruct (truthy v) eqn:T; simpl in H.
        -- destruct v; try discriminate.
           ++ destruct (list_Ids l); discriminate.
           ++ destruct (dict_get d0 "Id"); discriminate.
        -- inversion H. split; [reflexivity|]. now exists d, v.
      * destruct (dict_get d "Id"); [discriminate|].
        now apply scan_fields_not_Returned in H.
  - intros (-> & d & v & -> & Hd & Ht). simpl. unfold dict_mem. now rewrite Hd, Ht.
Qed.

Lemma live_link_ids_Returned (response_data : json) (ids : list json) :
  live_link_ids response_data = (ids, Returned) <->
  ids = [] /\ exists d v, response_data = JDict d /\ dict_get d "list" = Some v
                          /\ truthy v = false.
Proof.
  rewrite <- response_formats_Returned. unfold live_link_ids.
  destruct (response_formats response_data) as [x [| |e]]; split; intros H;
    try discriminate; assumption.
Qed.

Lemma coerce_ids_Ok (ids : list json) (zs : list Z) :
  coerce_ids ids = Ok zs ->
  Forall2 (fun id z => py_int id = Ok z)
          (filter (fun id => negb (is_None id)) ids) zs.
Proof.
  unfold coerce_ids. generalize (filter (fun id => negb (is_None id)) ids).
  intros l. revert zs. induction l as [|a l IH]; intros zs H; simpl in H.
  - inversion H. constructor.
  - destruct (py_int a) as [z|e] eqn:E; [|discriminate]. simpl in H.
    destruct (mapR py_int l) as [zs'|e]; [|discriminate]. simpl in H.
    inversion H; subst. constructor; [assumption|now apply IH].
Qed.

Lemma mapR_Raise {A B} (f : A -> result B) (l : list A) (a : A) (e : exn) :
  In a l -> f a = Raise e -> exists e', mapR f l = Raise e'.
Proof.
  induction l as [|b l IH]; intros Hin He; [destruct Hin|].
  simpl. destruct Hin as [->|Hin].
  - rewrite He. simpl. eauto.
  - destruct (f b); simpl; [|eauto].
    destruct (IH Hin He) as (e' & ->). simpl. eauto.
Qed.

Lemma coerce_ids_Raise (ids : list json) (id : json) (e : exn) :
  In id ids -> is_None id = false -> py_int id = Raise e ->
  exists e', coerce_ids ids = Raise e'.
Proof.
  intros Hin Hn He. unfold coerce_ids.
  apply mapR_Raise with (a := id) (e := e); [|assumption].
  apply filter_In. split; [assumption|now rewrite Hn].
Qed.

Lemma response_formats_list (l : list json) :
  l <> [] ->
  response_formats (JDict [("list", JList l)])
  = match list_Ids l with
    | Ok ids => (ids, Completed)
    | Raise e => ([], Failed e)
    end.
Proof. destruct l; [congruence|reflexivity]. Qed.

(** ** The method *)

Section Linked.
Context (db : NocoDB).

Lemma main_call_raises (fuel : nat) (self : Rec) (column : Column)
    (w w' : world db) (log : list Request) (e : exn) :
  call_noco db (links_request self column) w = (Raise e, w') ->
  linked_records_main db fuel self column (w, log)
  = Some (Raise e, (w', (log ++ [links_request self column])%list)).
Proof.
  intros H. unfold linked_records_main, bind at 1.
  now rewrite (call_run db _ _ _ _ _ H).
Qed.

Lemma main_after_call (fuel : nat) (self : Rec) (column : Column)
    (w w' : world db) (log : list Request) (r : Response) :
  call_noco db (links_request self column) w = (Ok r, w') ->
  linked_records_main db fuel self column (w, log)
  = match gather_record_ids r self column with
    | None => Some (Ok [], (w', (log ++ [links_request self column])%list))
    | Some record_ids =>
        match coerce_ids record_ids with
        | Raise e => Some (Raise e, (w', (log ++ [links_request self column])%list))
        | Ok [] => Some (Ok [], (w', (log ++ [links_request self column])%list))
        | Ok zs =>
            bind db (linked_table_of db self column)
              (fun linked_table =>
                 Table_get_records_by_id db fuel linked_table (map JInt zs))
              (w', (log ++ [links_request self column])%list)
        end
    end.
Proof.
  intros H. unfold linked_records_main, bind at 1.
  rewrite (call_run db _ _ _ _ _ H).
  destruct (gather_record_ids r self column) as [ids|]; [|reflexivity].
  unfold bind at 1, lift. destruct (coerce_ids ids) as [[|z zs]|e]; reflexivity.
Qed.

Lemma get_linked_records_not_raised (fuel : nat) (self : Rec) (column : Column)
    (st st1 : State db) (recs : list Rec) :
  linked_records_main db fuel self column st = Some (Ok recs, st1) ->
  Record_get_linked_records db fuel self column st = Some (Ok recs, st1).
Proof. intros H. unfold Record_get_linked_records, try_except. now rewrite H. Qed.

Lemma get_linked_records_raised (fuel : nat) (self : Rec) (column : Column)
    (st st1 : State db) (e : exn) :
  linked_records_main db fuel self column st = Some (Raise e, st1) ->
  Record_get_linked_records db fuel self column st
  = linked_records_recovery db fuel self column e st1.
Proof. intros H. unfold Record_get_linked_records, try_except. now rewrite H. Qed.

Lemma recovery_run (fuel : nat) (self : Rec) (column : Column) (e : exn)
    (st1 : State db) :
  (foreign_key self column = None ->
   linked_records_recovery db fuel self column e st1 = Some (Raise e, st1))
  /\ (forall v b w2 ts w3,
         foreign_key self column = Some v ->
         get_base db (base_id (table self)) (fst st1) = (Ok b, w2) ->
         get_tables db b w2 = (Ok ts, w3) ->
         linked_records_recovery db fuel self column e st1
         = match find_table (column_title column) ts with
           | Some linked_table =>
               Table_get_records_by_id db fuel linked_table [v] (w3, snd st1)
           | None => Some (Raise (not_found column), (w3, snd st1))
           end).
Proof.
  unfold linked_records_recovery. split.
  - intros ->. reflexivity.
  - intros v b w2 ts w3 -> Hb Ht.
    unfold bind at 1, Table_get_base, op at 1. rewrite Hb.
    unfold bind at 1, op at 1. simpl fst. rewrite Ht. simpl snd.
    now destruct (find_table (column_title column) ts).
Qed.

Lemma linked_table_of_id (self : Rec) (column : Column) (id : string) (st : State db) :
  linked_table_id column = Some id ->
  linked_table_of db self column st = op db (get_table db id) st.
Proof. intros H. unfold linked_table_of. now rewrite H. Qed.

Lemma linked_table_of_listing (self : Rec) (column : Column) (st : State db)
    (b : Base db) (w1 w2 : world db) (ts : list Table) :
  linked_table_id column = None ->
  get_base db (base_id (table self)) (fst st) = (Ok b, w1) ->
  get_tables db b w1 = (Ok ts, w2) ->
  linked_table_of db self column st
  = match find_table (column_title column) ts with
    | Some t => Some (Ok t, (w2, snd st))
    | None =>
        if endswith_s (column_title column)
        then bind db (op db (get_tables db b))
               (fun ts' =>
                  match find_table (drop_last (column_title column)) ts' with
                  | Some t => ret t
                  | None => raise (not_determined column)
                  end) (w2, snd st)
        else Some (Raise (not_determined column), (w2, snd st))
    end.
Proof.
  intros Hn Hb Ht. unfold linked_table_of. rewrite Hn.
  unfold bind at 1, Table_get_base, op at 1. rewrite Hb.
  unfold bind at 1, op at 1. simpl fst. rewrite Ht. simpl snd.
  destruct (find_table (column_title column) ts); [reflexivity|].
  now destruct (endswith_s (column_title column)).
Qed.

Lemma linked_table_of_title (self : Rec) (column : Column) (st : State db)
    (b : Base db) (w1 w2 : world db) (ts : list Table) :
  linked_table_id column = None ->
  get_base db (base_id (table self)) (fst st) = (Ok b, w1) ->
  get_tables db b w1 = (Ok ts, w2) ->
  match find_table (column_title column) ts with
  | Some t => linked_table_of db self column st = Some (Ok t, (w2, snd st))
  | None =>
      if endswith_s (column_title column)
      then forall ts' w3,
          get_tables db b w2 = (Ok ts', w3) ->
          linked_table_of db self column st
          = Some (match find_table (drop_last (column_title column)) ts' with
                  | Some t => Ok t
                  | None => Raise (not_determined column)
                  end, (w3, snd st))
      else linked_table_of db self column st
           = Some (Raise (not_determined column), (w2, snd st))
  end.
Proof.
  intros Hn Hb Ht.
  pose proof (linked_table_of_listing self column st b w1 w2 ts Hn Hb Ht) as E.
  destruct (find_table (column_title column) ts); [exact E|].
  destruct (endswith_s (column_title column)); [|exact E].
  intros ts' w3 Ht'. rewrite E. unfold bind, op. simpl fst. rewrite Ht'. simpl snd.
  now destruct (find_table _ ts').
Qed.
End Linked.

(** ** Example records *)

(** ** The claims *)

(** C2.  The response of the link endpoint is read by its format:
    [{"list": [{"Id": 3}, {"Id": 5}]}] gives the identifiers 3 and 5,
    [{"Id": 7}] gives 7, and a body that cannot be parsed gives 9 when the
    attributes of the record hold ["<ColumnTitle>_id": 9]; a ["list"] of
    objects with an ["Id"] gives those identifiers in order, and they are
    what the batch-by-id call receives. *)
Theorem link_response_formats :
  forall (self : Rec) (column : Column),
    gather_record_ids
      (Body (JDict [("list", JList [JDict [("Id", JInt 3)]; JDict [("Id", JInt 5)]])]))
      self column = Some [JInt 3; JInt 5]
    /\ coerce_ids [JInt 3; JInt 5] = Ok [3; 5]
    /\ gather_record_ids (Body (JDict [("Id", JInt 7)])) self column = Some [JInt 7]
    /\ coerce_ids [JInt 7] = Ok [7]
    /\ (dict_get (metadata self) (column_title column ++ "_id") = Some (JInt 9) ->
        gather_record_ids Unparseable self column = Some [JInt 9]
        /\ coerce_ids [JInt 9] = Ok [9])
    /\ (forall z zs,
           gather_record_ids
             (Body (JDict [("list", JList (map row (z :: zs)))])) self column
           = Some (map JInt (z :: zs))
           /\ coerce_ids (map JInt (z :: zs)) = Ok (z :: zs))
    /\ (forall (db : NocoDB) (fuel : nat) (w w' : world db) (log : list Request)
               (r : Response) (z : Z) (zs : list Z),
           call_noco db (links_request self column) w = (Ok r, w') ->
           gather_record_ids r self column = Some (map JInt (z :: zs)) ->
           linked_records_main db fuel self column (w, log)
           = bind db (linked_table_of db self column)
               (fun linked_table =>
                  Table_get_records_by_id db fuel linked_table (map JInt (z :: zs)))
               (w', (log ++ [links_request self column])%list)).
Proof.
  intros self column.
  assert (forall z zs,
             gather_record_ids
               (Body (JDict [("list", JList (map row (z :: zs)))])) self column
             = Some (map JInt (z :: zs))) as Hlist.
  { intros z zs. rewrite gather_parsed. unfold live_link_ids.
    rewrite response_formats_list by discriminate.
    rewrite list_Ids_rows. reflexivity. }
  split; [exact (Hlist 3 [5])|]. split; [reflexivity|].
  split; [reflexivity|]. split; [reflexivity|]. split; [|split].
  - intros H. rewrite gather_unparseable. unfold foreign_key. rewrite H.
    split; reflexivity.
  - intros z zs. split; [apply Hlist|apply coerce_ids_ints].
  - intros db fuel w w' log r z zs Hc Hg.
    rewrite (main_after_call db fuel self column w w' log r Hc), Hg.
    now rewrite coerce_ids_ints.
Qed.

Lemma link_response_formats_witness :
  gather_record_ids Unparseable book author_link = Some [JInt 9]
  /\ coerce_ids [JInt 9] = Ok [9].
Proof.
  destruct (link_response_formats book author_link) as (_ & _ & _ & _ & H & _).
  apply H. reflexivity.
Defined.

(** C3 (amended).  When the live link endpoint ends without identifiers
    and without leaving the method, or when reading it raises, the
    attribute [{column.title}_id] of the record, present and truthy, becomes
    the only identifier.  An object whose ["list"] field is empty (or has
    any other falsy value) makes the method return [[]] at once, and the
    attribute is not looked at. *)
Theorem foreign_key_fallback :
  forall (self : Rec) (column : Column) (v : json),
    foreign_key self column = Some v ->
    (forall response_data,
        live_link_ids response_data = ([], Completed) ->
        gather_record_ids (Body response_data) self column = Some [v])
    /\ (forall response_data record_ids e,
           live_link_ids response_data = (record_ids, Failed e) ->
           gather_record_ids (Body response_data) self column = Some [v])
    /\ gather_record_ids Unparseable self column = Some [v]
    /\ (forall d x,
           dict_get d "list" = Some x -> truthy x = false ->
           gather_record_ids (Body (JDict d)) self column = None)
    /\ (forall (db : NocoDB) (fuel : nat) (w w' : world db) (log : list Request)
               (r : Response),
           call_noco db (links_request self column) w = (Ok r, w') ->
           gather_record_ids r self column = None ->
           Record_get_linked_records db fuel self column (w, log)
           = Some (Ok [], (w', (log ++ [links_request self column])%list))).
Proof.
  intros self column v Hfk. split; [|split; [|split; [|split]]].
  - intros rd H. rewrite gather_parsed, H. unfold direct_foreign_key. now rewrite Hfk.
  - intros rd ids e H. rewrite gather_parsed, H. now rewrite Hfk.
  - rewrite gather_unparseable. now rewrite Hfk.
  - intros d x Hd Hx. rewrite gather_parsed.
    assert (live_link_ids (JDict d) = ([], Returned)) as ->; [|reflexivity].
    apply live_link_ids_Returned. split; [reflexivity|]. now exists d, x.
  - intros db fuel w w' log r Hc Hg. apply get_linked_records_not_raised.
    now rewrite (main_after_call db fuel self column w w' log r Hc), Hg.
Qed.

Lemma foreign_key_fallback_witness :
  gather_record_ids (Body (JDict [("count", JInt 0)])) book author_link = Some [JInt 9]
  /\ gather_record_ids (Body (JDict [("list", JList [])])) book author_link = None.
Proof.
  destruct (foreign_key_fallback book author_link (JInt 9) eq_refl)
    as (H1 & _ & _ & H4 & _).
  split; [apply H1; reflexivity|].
  apply (H4 [("list", JList [])] (JList [])); reflexivity.
Defined.

(** An empty ["list"]: the record holds the foreign key 9, and the method
    returns [[]] after the one request to the link endpoint. *)
Lemma empty_list_skips_foreign_key :
  foreign_key book author_link = Some (JInt 9)
  /\ live_link_ids (JDict [("list", JList [])]) = ([], Returned)
  /\ gather_record_ids (Body (JDict [("list", JList [])])) book author_link
     <> Some [JInt 9]
  /\ Record_get_linked_records scripted 1 book author_link (empty_list, [])
     = Some (Ok [],
             ({| answers := [Ok (Body (last_page [row 9]))]; tables := library |},
              [links_request book author_link])).
Proof.
  split; [reflexivity|]. split; [reflexivity|]. split; [discriminate|reflexivity].
Qed.

(** C4 (amended).  [None] entries are dropped and every other candidate
    goes through [int]: the result holds the integers of the remaining
    candidates in order, and one candidate that [int] rejects makes the
    whole step raise, which hands the call to the handler of the outer
    [try].  When no identifier is left the call returns [[]]. *)
Theorem identifiers_coerced :
  forall (record_ids : list json),
    (forall zs,
        coerce_ids record_ids = Ok zs ->
        Forall2 (fun id z => py_int id = Ok z)
                (filter (fun id => negb (is_None id)) record_ids) zs)
    /\ (forall id e,
           In id record_ids -> is_None id = false -> py_int id = Raise e ->
           exists e', coerce_ids record_ids = Raise e')
    /\ (forall (db : NocoDB) (fuel : nat) (self : Rec) (column : Column)
               (w w' : world db) (log : list Request) (r : Response),
           call_noco db (links_request self column) w = (Ok r, w') ->
           gather_record_ids r self column = Some record_ids ->
           (coerce_ids record_ids = Ok [] ->
            Record_get_linked_records db fuel self column (w, log)
            = Some (Ok [], (w', (log ++ [links_request self column])%list)))
           /\ (forall e,
                  coerce_ids record_ids = Raise e ->
                  Record_get_linked_records db fuel self column (w, log)
                  = linked_records_recovery db fuel self column e
                      (w', (log ++ [links_request self column])%list))).
Proof.
  intros record_ids. split; [|split].
  - apply coerce_ids_Ok.
  - apply coerce_ids_Raise.
  - intros db fuel self column w w' log r Hc Hg. split.
    + intros H0. apply get_linked_records_not_raised.
      now rewrite (main_after_call db fuel self column w w' log r Hc), Hg, H0.
    + intros e He. apply get_linked_records_raised.
      now rewrite (main_after_call db fuel self column w w' log r Hc), Hg, He.
Qed.

Lemma identifiers_coerced_witness :
  Forall2 (fun id z => py_int id = Ok z)
          (filter (fun id => negb (is_None id)) [JNull; JInt 3; JStr " 5 "]) [3; 5]
  /\ exists e', coerce_ids [JInt 3; JStr "abc"] = Raise e'.
Proof.
  split.
  - apply (proj1 (identifiers_coerced [JNull; JInt 3; JStr " 5 "])). reflexivity.
  - apply (proj1 (proj2 (identifiers_coerced [JInt 3; JStr "abc"])) (JStr "abc") ValueError).
    + right. left. reflexivity.
    + reflexivity.
    + reflexivity.
Defined.

(** An identifier that is not a number: the call raises. *)
Lemma unparseable_identifier_raises :
  gather_record_ids (Body (JDict [("Id", JStr "abc")])) plain_book author_link
  = Some [JStr "abc"]
  /\ coerce_ids [JStr "abc"] = Raise ValueError
  /\ Record_get_linked_records scripted 1 plain_book author_link (bad_id, [])
     = Some (Raise ValueError,
             ({| answers := []; tables := library |},
              [links_request plain_book author_link])).
Proof. repeat split; reflexivity. Qed.

(** C5 (amended).  When an exception leaves the body of the outer [try],
    the handler looks only at the attribute [{column.title}_id]: absent or
    falsy, the exception is raised again; present, the tables of the Base
    are searched for the title of the column, the batch-by-id call goes to
    the table found with that one identifier, and without such a table the
    call fails with "Could not find linked table".  An exception raised
    while the response is read does not leave that body: the inner handler
    takes the attribute, present and truthy, as the only identifier, keeps
    the identifiers gathered so far otherwise, and the call goes on as
    without the exception, the linked table taken from [linked_table_id]
    when the column carries it; a body that cannot be parsed and no
    attribute give [[]]. *)
Theorem recovery_path :
  forall (db : NocoDB) (fuel : nat) (self : Rec) (column : Column) (st : State db),
    (forall st1 e,
        linked_records_main db fuel self column st = Some (Raise e, st1) ->
        (foreign_key self column = None ->
         Record_get_linked_records db fuel self column st = Some (Raise e, st1))
        /\ (forall v b w2 ts w3,
               foreign_key self column = Some v ->
               get_base db (base_id (table self)) (fst st1) = (Ok b, w2) ->
               get_tables db b w2 = (Ok ts, w3) ->
               Record_get_linked_records db fuel self column st
               = match find_table (column_title column) ts with
                 | Some linked_table =>
                     Table_get_records_by_id db fuel linked_table [v] (w3, snd st1)
                 | None =>
                     Some (Raise (Exception ("Could not find linked table: "
                                             ++ column_title column)),
                           (w3, snd st1))
                 end))
    /\ (forall r e,
           Response_json r = Raise e ->
           gather_record_ids r self column
           = Some match foreign_key self column with Some v => [v] | None => [] end)
    /\ (forall response_data record_ids e,
           live_link_ids response_data = (record_ids, Failed e) ->
           gather_record_ids (Body response_data) self column
           = Some match foreign_key self column with
                  | Some v => [v]
                  | None => record_ids
                  end)
    /\ (forall r e w',
           Response_json r = Raise e ->
           call_noco db (links_request self column) (fst st) = (Ok r, w') ->
           foreign_key self column = None ->
           Record_get_linked_records db fuel self column st
           = Some (Ok [], (w', (snd st ++ [links_request self column])%list)))
    /\ (forall r w' v z,
           call_noco db (links_request self column) (fst st) = (Ok r, w') ->
           (exists e, Response_json r = Raise e)
           \/ (exists response_data record_ids e,
                  r = Body response_data
                  /\ live_link_ids response_data = (record_ids, Failed e)) ->
           foreign_key self column = Some v ->
           py_int v = Ok z ->
           linked_records_main db fuel self column st
           = bind db (linked_table_of db self column)
               (fun linked_table =>
                  Table_get_records_by_id db fuel linked_table [JInt z])
               (w', (snd st ++ [links_request self column])%list)
           /\ (forall id,
                  linked_table_id column = Some id ->
                  linked_table_of db self column
                    (w', (snd st ++ [links_request self column])%list)
                  = op db (get_table db id)
                      (w', (snd st ++ [links_request self column])%list))
           /\ (forall recs st2,
                  linked_records_main db fuel self column st = Some (Ok recs, st2) ->
                  Record_get_linked_records db fuel self column st
                  = Some (Ok recs, st2))).
Proof.
  intros db fuel self column st.
  assert (forall r e,
             Response_json r = Raise e ->
             gather_record_ids r self column
             = Some match foreign_key self column with Some v => [v] | None => [] end)
    as Hunread.
  { intros r e Hr. destruct r as [j|]; [discriminate|]. apply gather_unparseable. }
  assert (forall response_data record_ids e,
             live_link_ids response_data = (record_ids, Failed e) ->
             gather_record_ids (Body response_data) self column
             = Some match foreign_key self column with
                    | Some v => [v]
                    | None => record_ids
                    end) as Hfailed.
  { intros response_data record_ids e H. now rewrite gather_parsed, H. }
  split; [|split; [|split; [|split]]].
  - intros st1 e Hm.
    rewrite (get_linked_records_raised db fuel self column st st1 e Hm).
    apply recovery_run.
  - exact Hunread.
  - exact Hfailed.
  - intros r e w' Hr Hc Hfk. destruct st as [w log]. simpl fst in Hc. simpl snd.
    pose proof (main_after_call db fuel self column w w' log r Hc) as Hm.
    rewrite (Hunread r e Hr), Hfk in Hm. apply get_linked_records_not_raised.
    exact Hm.
  - intros r w' v z Hc Hr Hfk Hz. destruct st as [w log]. simpl fst in Hc. simpl snd.
    pose proof (main_after_call db fuel self column w w' log r Hc) as Hm.
    assert (gather_record_ids r self column = Some [v]) as Hg.
    { destruct Hr as [(e & Hr)|(response_data & record_ids & e & -> & Hr)].
      - rewrite (Hunread r e Hr). now rewrite Hfk.
      - rewrite (Hfailed response_data record_ids e Hr). now rewrite Hfk. }
    rewrite Hg in Hm.
    assert (coerce_ids [v] = Ok [z]) as Hco.
    { unfold coerce_ids. unfold foreign_key in Hfk.
      destruct (dict_get (metadata self) (column_title column ++ "_id")) as [x|];
        [|discriminate].
      destruct (truthy x) eqn:Ht; [|discriminate]. inversion Hfk; subst x.
      assert (is_None v = false) as Hn by (now destruct v).
      cbn [filter]. rewrite Hn. cbn [negb mapR]. now rewrite Hz. }
    rewrite Hco in Hm. split; [exact Hm|]. split.
    + intros id Hid. now apply linked_table_of_id.
    + intros recs st2. apply get_linked_records_not_raised.
Qed.

Lemma recovery_path_witness :
  Record_get_linked_records scripted 1 book author_link (flaky, [])
  = Table_get_records_by_id scripted 1 people [JInt 9] after_timeout
  /\ Record_get_linked_records scripted 1 plain_book author_link (flaky, [])
     = Some (Raise (TransportError "timeout"), after_timeout)
  /\ Record_get_linked_records scripted 1 plain_book author_link (garbled, [])
     = Some (Ok [],
             ({| answers := [Ok (Body (last_page [row 9]))]; tables := library |},
              ([] ++ [links_request plain_book author_link])%list)).
Proof.
  split; [|split].
  - exact (proj2 (proj1 (recovery_path scripted 1 book author_link (flaky, []))
                    after_timeout (TransportError "timeout") eq_refl)
             (JInt 9) "b1" (fst after_timeout) library (fst after_timeout)
             eq_refl eq_refl eq_refl).
  - exact (proj1 (proj1 (recovery_path scripted 1 plain_book author_link (flaky, []))
                    after_timeout (TransportError "timeout") eq_refl) eq_refl).
  - destruct (recovery_path scripted 1 plain_book author_link (garbled, []))
      as (_ & _ & _ & H).
    destruct H as (H & _).
    exact (H Unparseable JSONDecodeError
             {| answers := [Ok (Body (last_page [row 9]))]; tables := library |}
             eq_refl eq_refl eq_refl).
Defined.

(** A body that cannot be parsed: [r.json()] raises inside the call, and
    yet nothing is raised again and no table is looked up by title.
    Without the attribute the call returns [[]]; with it, the records come
    from the table that [linked_table_id] names, not from the table titled
    like the column. *)
Lemma unreadable_response_skips_recovery :
  Response_json Unparseable = Raise JSONDecodeError
  /\ foreign_key plain_book author_link = None
  /\ Record_get_linked_records scripted 1 plain_book author_link (garbled, [])
     = Some (Ok [],
             ({| answers := [Ok (Body (last_page [row 9]))]; tables := library |},
              [links_request plain_book author_link]))
  /\ foreign_key book author_link = Some (JInt 9)
  /\ linked_table_id author_link = Some (table_id authors)
  /\ title people = column_title author_link
  /\ Record_get_linked_records scripted 1 book author_link (garbled, [])
     = Some (Ok [record_of authors 9],
             ({| answers := []; tables := library |},
              [links_request book author_link; by_id_request authors [JInt 9]])).
Proof. repeat split; reflexivity. Qed.

Lemma find_table_first (name : string) (ts : list Table) (t : Table) :
  find_table name ts = Some t ->
  exists before after,
    ts = (before ++ t :: after)%list /\ title t = name
    /\ Forall (fun x => title x <> name) before.
Proof.
  unfold find_table. induction ts as [|a ts IH]; simpl; [discriminate|].
  destruct (String.eqb (title a) name) eqn:E.
  - intros H. inversion H; subst. exists [], ts.
    apply String.eqb_eq in E. now repeat split.
  - intros H. destruct (IH H) as (before & after & -> & Ht & Hb).
    exists (a :: before), after. repeat split; [assumption|].
    constructor; [now apply String.eqb_neq|assumption].
Qed.

Lemma find_table_None (name : string) (ts : list Table) :
  find_table name ts = None -> Forall (fun x => title x <> name) ts.
Proof.
  unfold find_table. intros H. apply Forall_forall. intros x Hx.
  apply (find_none _ _ H) in Hx. now apply String.eqb_neq.
Qed.

(** C1 (amended).  In the body of the outer [try], a Column that carries
    [linked_table_id] gets its table from [get_table] with that identifier
    and the tables of the Base are not listed; a Column without it gets the
    first table of the Base whose title is the title of the column, else,
    when that title ends in [s], the first table whose title is the title
    without its last character, and when no table is found the body raises
    "Could not determine linked table for column <title>".  The result of the
    body is the result of the call unless the body raises; an exception of
    the body goes to the handler of C5, and with the attribute
    [{column.title}_id] absent the error that names the column is the error
    of the call. *)
Theorem linked_table_resolution :
  forall (db : NocoDB) (self : Rec) (column : Column) (st : State db),
    (forall id,
        linked_table_id column = Some id ->
        linked_table_of db self column st = op db (get_table db id) st)
    /\ (forall id fuel w' w'' r record_ids z zs t,
           linked_table_id column = Some id ->
           call_noco db (links_request self column) (fst st) = (Ok r, w') ->
           gather_record_ids r self column = Some record_ids ->
           coerce_ids record_ids = Ok (z :: zs) ->
           get_table db id w' = (Ok t, w'') ->
           linked_records_main db fuel self column st
           = Table_get_records_by_id db fuel t (map JInt (z :: zs))
               (w'', (snd st ++ [links_request self column])%list))
    /\ (forall b w1 ts w2,
           linked_table_id column = None ->
           get_base db (base_id (table self)) (fst st) = (Ok b, w1) ->
           get_tables db b w1 = (Ok ts, w2) ->
           match find_table (column_title column) ts with
           | Some t => linked_table_of db self column st = Some (Ok t, (w2, snd st))
           | None =>
               if endswith_s (column_title column)
               then forall ts' w3,
                   get_tables db b w2 = (Ok ts', w3) ->
                   linked_table_of db self column st
                   = Some (match find_table (drop_last (column_title column)) ts' with
                           | Some t => Ok t
                           | None =>
                               Raise (Exception
                                        ("Could not determine linked table for column "
                                         ++ column_title column))
                           end, (w3, snd st))
               else linked_table_of db self column st
                    = Some (Raise (Exception
                                     ("Could not determine linked table for column "
                                      ++ column_title column)), (w2, snd st))
           end)
    /\ (forall name ts t,
           find_table name ts = Some t ->
           exists before after,
             ts = (before ++ t :: after)%list /\ title t = name
             /\ Forall (fun x => title x <> name) before)
    /\ (forall fuel recs st1,
           linked_records_main db fuel self column st = Some (Ok recs, st1) ->
           Record_get_linked_records db fuel self column st = Some (Ok recs, st1))
    /\ (forall fuel e st1,
           linked_records_main db fuel self column st = Some (Raise e, st1) ->
           foreign_key self column = None ->
           Record_get_linked_records db fuel self column st = Some (Raise e, st1)).
Proof.
  intros db self column st. split; [|split; [|split; [|split; [|split]]]].
  - intros id. apply linked_table_of_id.
  - intros id fuel w' w'' r ids z zs t Hid Hc Hg Hz Ht. destruct st as [w log].
    rewrite (main_after_call db fuel self column w w' log r Hc), Hg, Hz.
    unfold bind. rewrite (linked_table_of_id db self column id _ Hid).
    unfold op. simpl fst. now rewrite Ht.
  - intros b w1 ts w2. apply linked_table_of_title.
  - apply find_table_first.
  - intros fuel recs st1. apply get_linked_records_not_raised.
  - intros fuel e st1 Hm Hfk.
    rewrite (get_linked_records_raised db fuel self column st st1 e Hm).
    now apply recovery_run.
Qed.

Lemma linked_table_resolution_witness :
  linked_table_of scripted book authors_link (one_link, [])
  = Some (Ok authors, (one_link, []))
  /\ linked_records_main scripted 1 book author_link (one_link, [])
     = Table_get_records_by_id scripted 1 authors [JInt 7]
         ({| answers := [Ok (Body (last_page [row 7]))]; tables := library |},
          [links_request book author_link]).
Proof.
  destruct (linked_table_resolution scripted book authors_link (one_link, []))
    as (_ & _ & H & _).
  destruct (linked_table_resolution scripted book author_link (one_link, []))
    as (_ & H' & _).
  split.
  - exact (H "b1" one_link library one_link eq_refl eq_refl eq_refl).
  - exact (H' "t2" 1%nat
              {| answers := [Ok (Body (last_page [row 7]))]; tables := library |}
              {| answers := [Ok (Body (last_page [row 7]))]; tables := library |}
              (Body (JDict [("Id", JInt 7)])) [JInt 7] 7 [] authors
              eq_refl eq_refl eq_refl eq_refl eq_refl).
Defined.

(** The column carries the identifier of [authors]; the fetch of its
    records fails once, and the records come from the table that has the
    title of the column. *)
Lemma title_match_replaces_linked_table_id :
  linked_table_id author_link = Some "t2"
  /\ get_table scripted "t2" flaky = (Ok authors, flaky)
  /\ find_table (column_title author_link) library = Some people
  /\ Record_get_linked_records scripted 1 book author_link (flaky, [])
     = Some (Ok [record_of people 9],
             ({| answers := []; tables := library |},
              [links_request book author_link;
               by_id_request authors [JInt 7];
               by_id_request people [JInt 9]]))
  /\ table (record_of people 9) <> authors.
Proof.
  repeat split; try reflexivity. discriminate.
Qed.

(** * Further properties *)

(** * The other methods *)

(** ** [Table.get_basic_metadata] *)

Lemma dict_get_filter_keys {V} (p : string -> bool) (d : dict V) (k : string) :
  dict_get (filter (fun kv => negb (p (fst kv))) d) k
  = if p k then None else dict_get d k.
Proof.
  induction d as [|[k' v] d IH]; simpl.
  - now destruct (p k).
  - destruct (p k') eqn:E'; simpl.
    + rewrite IH. destruct (String.eqb k k') eqn:E; [|reflexivity].
      apply String.eqb_eq in E. subst k'. now rewrite E'.
    + destruct (String.eqb k k') eqn:E; [|exact IH].
      apply String.eqb_eq in E. subst k'. now rewrite E'.
Qed.

(** X1.  The basic metadata answer every key like the metadata of the
    table, except for the keys [columns], [views] and [columnsById], which
    they do not hold. *)
Theorem basic_metadata_lookup :
  forall (self : Table) (k : string),
    dict_get (Table_get_basic_metadata self) k
    = if existsb (String.eqb k) extra_keys then None
      else dict_get (table_metadata self) k.
Proof.
  intros self k. unfold Table_get_basic_metadata.
  apply (dict_get_filter_keys (fun x => existsb (String.eqb x) extra_keys)).
Qed.

(** ** The loop of [Table.get_records] *)

Lemma new_Record_owned (t : Table) (j : json) (r : Rec) :
  new_Record t j = Ok r -> owned_by t r.
Proof.
  unfold new_Record, owned_by. destruct j; try discriminate.
  destruct (dict_mem "self" d || dict_mem "table" d); [discriminate|].
  destruct (dict_get d "Id") as [i|] eqn:E; [|discriminate].
  intros H. inversion H; subst. simpl. now split.
Qed.

Lemma mapR_Forall {A B} (f : A -> result B) (P : B -> Prop) (l : list A) (r : list B) :
  (forall a b, f a = Ok b -> P b) -> mapR f l = Ok r -> Forall P r.
Proof.
  intros Hf. revert r. induction l as [|a l IH]; intros r H; simpl in H.
  - inversion H. constructor.
  - destruct (f a) as [b|e] eqn:E; [|discriminate]. simpl in H.
    destruct (mapR f l) as [bs|e]; [|discriminate]. simpl in H.
    inversion H; subst. constructor; [now apply (Hf a)|now apply IH].
Qed.

Lemma read_page_owned (self : Table) (r : Response) (recs : list Rec) (last : bool) :
  read_page self r = Ok (recs, last) -> Forall (owned_by self) recs.
Proof.
  unfold read_page. intros H.
  destruct (Response_json r) as [j|e]; [|discriminate]. simpl in H.
  destruct (getitem j "list") as [l|e]; [|discriminate]. simpl in H.
  destruct (py_iter l) as [rows|e]; [|discriminate]. simpl in H.
  destruct (mapR (new_Record self) rows) as [rs|e] eqn:E; [|discriminate]. simpl in H.
  destruct (getitem j "pageInfo") as [p|e]; [|discriminate]. simpl in H.
  destruct (getitem p "isLastPage") as [x|e]; [|discriminate]. simpl in H.
  inversion H; subst. eapply mapR_Forall; [|exact E]. apply new_Record_owned.
Qed.

Section Loop.
Context (db : NocoDB).

(** What one run of the loop keeps: the records it returns are those it
    was given and those of the pages, and the requests it adds are
    listings of [self]. *)
Lemma get_records_loop_inv (fuel : nat) (self : Table) (g : bool) :
  forall (ps : dict param) (records : list Rec) (st st' : State db)
         (res : result (list Rec)),
    get_records_loop db fuel self g ps records st = Some (res, st') ->
    (exists more, snd st' = (snd st ++ more)%list /\ more <> []
                  /\ Forall (is_listing self) more)
    /\ (forall recs, res = Ok recs ->
                     Forall (owned_by self) records -> Forall (owned_by self) recs).
Proof.
  induction fuel as [|fuel IH]; intros ps records st st' res H; [discriminate|].
  simpl in H. unfold bind at 1, call in H.
  destruct (call_noco db (records_request self ps) (fst st)) as [[r|e] w1].
  2:{ inversion H; subst. split.
      - exists [records_request self ps]. simpl.
        repeat split; [discriminate|repeat constructor].
      - discriminate. }
  unfold bind at 1, lift at 1 in H.
  destruct (read_page self r) as [[recs last]|e] eqn:Hp.
  2:{ inversion H; subst. split.
      - exists [records_request self ps]. simpl.
        repeat split; [discriminate|repeat constructor].
      - discriminate. }
  simpl in H.
  assert (forall x : unit, Some (Ok (records ++ recs)%list,
                          (w1, (snd st ++ [records_request self ps])%list))
                    = Some (res, st') ->
                    (exists more, snd st' = (snd st ++ more)%list /\ more <> []
                                  /\ Forall (is_listing self) more)
                    /\ (forall recs0, res = Ok recs0 ->
                                      Forall (owned_by self) records ->
                                      Forall (owned_by self) recs0)) as Hend.
  { intros _ E. inversion E; subst. split.
    - exists [records_request self ps]. simpl.
      repeat split; [discriminate|repeat constructor].
    - intros recs0 E0 Ho. inversion E0; subst. apply Forall_app. split; [assumption|].
      now apply read_page_owned in Hp. }
  destruct last; [now apply (Hend tt)|].
  destruct g; simpl in H; [|now apply (Hend tt)].
  unfold bind at 1, lift at 1 in H.
  destruct (advance_offset ps) as [ps'|e].
  2:{ inversion H; subst. split.
      - exists [records_request self ps]. simpl.
        repeat split; [discriminate|repeat constructor].
      - discriminate. }
  apply IH in H as [(more & Hl & _ & Hm) Hr]. simpl in Hl. split.
  - exists (records_request self ps :: more). rewrite Hl, <- app_assoc. simpl.
    repeat split; [discriminate|].
    constructor; [repeat constructor|assumption].
  - intros recs0 E0 Ho. apply (Hr recs0 E0). apply Forall_app. split; [assumption|].
    now apply read_page_owned in Hp.
Qed.

Lemma get_records_inv (fuel : nat) (self : Table) (ps : option (dict param))
    (st st' : State db) (res : result (list Rec)) :
  Table_get_records db fuel self ps st = Some (res, st') ->
  (exists more, snd st' = (snd st ++ more)%list /\ more <> []
                /\ Forall (is_listing self) more)
  /\ (forall recs, res = Ok recs -> Forall (owned_by self) recs).
Proof.
  unfold Table_get_records. intros H.
  destruct (dict_mem "offset" _ || dict_mem "limit" _);
    apply get_records_loop_inv in H as [Hl Hr]; (split; [exact Hl|]);
    intros recs E; apply (Hr recs E); constructor.
Qed.
End Loop.

(** X2.  Every Record that [get_records] returns belongs to the table it
    was asked of, and its [record_id] is the ["Id"] of its attributes,
    whatever the service answered. *)
Theorem get_records_owned :
  forall (db : NocoDB) (fuel : nat) (self : Table) (ps : option (dict param))
         (st st' : State db) (recs : list Rec),
    Table_get_records db fuel self ps st = Some (Ok recs, st') ->
    Forall (owned_by self) recs.
Proof.
  intros db fuel self ps st st' recs H.
  now apply (proj2 (get_records_inv db fuel self ps st st' _ H)).
Qed.

Lemma get_records_owned_witness :
  Forall (owned_by (mk_table "t" "T")) [record_of (mk_table "t" "T") 1;
                                         record_of (mk_table "t" "T") 2].
Proof.
  apply (get_records_owned paged 1 (mk_table "t" "T") None
           ([row 1; row 2], []) ([row 1; row 2], [records_request (mk_table "t" "T")
                                                   (seeded 1000)])).
  reflexivity.
Defined.

(** X3.  [get_records] only reads: whenever it ends, with a result or
    with an exception, it has sent at least one request, and every request
    it has sent is a GET without body on the records of its own table. *)
Theorem get_records_reads_only :
  forall (db : NocoDB) (fuel : nat) (self : Table) (ps : option (dict param))
         (st st' : State db) (res : result (list Rec)),
    Table_get_records db fuel self ps st = Some (res, st') ->
    exists more,
      snd st' = (snd st ++ more)%list /\ more <> []
      /\ Forall (is_listing self) more.
Proof.
  intros db fuel self ps st st' res H.
  exact (proj1 (get_records_inv db fuel self ps st st' res H)).
Qed.

Lemma get_records_reads_only_witness :
  exists more,
    [records_request (mk_table "t" "T") (seeded 1000)] = ([] ++ more)%list
    /\ more <> [] /\ Forall (is_listing (mk_table "t" "T")) more.
Proof.
  apply (get_records_reads_only paged 1 (mk_table "t" "T") None
           ([row 1], []) ([row 1], [records_request (mk_table "t" "T") (seeded 1000)])
           (Ok [record_of (mk_table "t" "T") 1])).
  reflexivity.
Defined.

(** ** A listing that is never told to stop *)

Section Endless.
Context (db : NocoDB) (self : Table).

(** Every answer of the service to a listing of [self] reads as a page
    that is not the last one. *)
Hypothesis never_last :
  forall (ps : dict param) (w : world db),
  exists r w' recs,
    call_noco db (records_request self ps) w = (Ok r, w')
    /\ read_page self r = Ok (recs, false).

Lemma endless_loop (fuel : nat) :
  forall (ps : dict param) (records : list Rec) (st : State db) (o l : Z),
    dict_get ps "offset" = Some (PV (JInt o)) ->
    dict_get ps "limit" = Some (PV (JInt l)) ->
    get_records_loop db fuel self true ps records st = None.
Proof.
  induction fuel as [|fuel IH]; intros ps records st o l Ho Hl; [reflexivity|].
  destruct (never_last ps (fst st)) as (r & w' & recs & Hc & Hp).
  simpl. unfold bind at 1, call. rewrite Hc.
  unfold bind at 1, lift at 1. rewrite Hp. simpl.
  unfold bind at 1, lift at 1, advance_offset. rewrite Ho, Hl.
  apply (IH _ _ _ (o + l) l).
  - apply dict_get_set_eq.
  - rewrite dict_get_set_neq by discriminate. exact Hl.
Qed.

Lemma endless_get_records (fuel : nat) (ps : option (dict param)) (st : State db) :
  match ps with
  | Some d => dict_mem "offset" d || dict_mem "limit" d
  | None => false
  end = false ->
  Table_get_records db fuel self ps st = None.
Proof.
  intros H. unfold Table_get_records.
  assert (forall d : dict param,
             dict_mem "offset" d || dict_mem "limit" d = false ->
             get_records_loop db fuel self true
               (dict_set (dict_set d "offset" (PV (JInt 0))) "limit" (PV (JInt 1000)))
               [] st = None) as Hd.
  { intros d Hm. apply (endless_loop fuel _ _ _ 0 1000).
    - rewrite dict_get_set_neq by discriminate. apply dict_get_set_eq.
    - apply dict_get_set_eq. }
  destruct ps as [[|p d]|].
  - apply (Hd []). reflexivity.
  - rewrite H. now apply Hd.
  - apply (Hd []). reflexivity.
Qed.
End Endless.

(** X4.  Without [offset] and [limit], [get_records] stops on nothing but
    a true [isLastPage]: against a service whose pages never say so, empty
    pages included, the loop does not end, whatever the number of turns it
    is given. *)
Theorem get_records_needs_last_page :
  forall (db : NocoDB) (self : Table),
    (forall (ps : dict param) (w : world db),
        exists r w' recs,
          call_noco db (records_request self ps) w = (Ok r, w')
          /\ read_page self r = Ok (recs, false)) ->
    forall (fuel : nat) (ps : option (dict param)) (st : State db),
      match ps with
      | Some d => dict_mem "offset" d || dict_mem "limit" d
      | None => false
      end = false ->
      Table_get_records db fuel self ps st = None.
Proof.
  intros db self H fuel ps st Hps. now apply endless_get_records.
Qed.

Lemma get_records_needs_last_page_witness :
  Table_get_records empty_pages 50 (mk_table "t" "T") None (tt, []) = None
  /\ Table_get_records_by_id empty_pages 50 (mk_table "t" "T") [JInt 1] (tt, []) = None.
Proof.
  assert (forall (ps : dict param) (w : world empty_pages),
             exists r w' recs,
               call_noco empty_pages (records_request (mk_table "t" "T") ps) w = (Ok r, w')
               /\ read_page (mk_table "t" "T") r = Ok (recs, false)) as H.
  { intros ps w. exists (Body (open_page [])), w, []. split; reflexivity. }
  split.
  - apply (get_records_needs_last_page empty_pages (mk_table "t" "T") H). reflexivity.
  - apply (get_records_needs_last_page empty_pages (mk_table "t" "T") H). reflexivity.
Defined.

(** X5.  With [offset] or [limit] among the parameters, [get_records]
    always ends after exactly one request, whether the service answers
    with a page, with something else or with an error. *)
Theorem get_records_bounded_one_request :
  forall (db : NocoDB) (fuel : nat) (self : Table) (ps : dict param)
         (w : world db) (log : list Request),
    dict_mem "offset" ps || dict_mem "limit" ps = true ->
    exists res w',
      Table_get_records db (S fuel) self (Some ps) (w, log)
      = Some (res, (w', (log ++ [records_request self ps])%list)).
Proof.
  intros db fuel self ps w log H. unfold Table_get_records.
  destruct ps as [|p ps]; [discriminate|]. rewrite H.
  simpl. unfold bind at 1, call. simpl fst. simpl snd.
  destruct (call_noco db (records_request self (p :: ps)) w) as [[r|e] w1]; [|eauto].
  unfold bind at 1, lift at 1.
  destruct (read_page self r) as [[recs last]|e]; [|eauto].
  simpl. destruct last; unfold ret; eauto.
Qed.

Lemma get_records_bounded_one_request_witness :
  exists res w',
    Table_get_records empty_pages 1 (mk_table "t" "T")
      (Some [("limit", PV (JInt 10))]) (tt, [])
    = Some (res, (w', ([] ++ [records_request (mk_table "t" "T")
                                 [("limit", PV (JInt 10))]])%list)).
Proof.
  apply (get_records_bounded_one_request empty_pages 0 (mk_table "t" "T")
           [("limit", PV (JInt 10))] tt []).
  reflexivity.
Defined.

(** ** Rows that cannot become Records *)

Lemma get_records_first_turn (db : NocoDB) (fuel : nat) (self : Table)
    (ps : option (dict param)) (st : State db) :
  exists g,
    Table_get_records db (S fuel) self ps st
    = get_records_loop db (S fuel) self g (first_params ps) [] st.
Proof.
  unfold Table_get_records, first_params.
  destruct ps as [[|p d]|]; [now exists true| |now exists true].
  destruct (dict_mem "offset" (p :: d) || dict_mem "limit" (p :: d));
    [now exists false|now exists true].
Qed.

(** X17.  A row that holds a field titled [table] or [self] cannot be
    wrapped in a Record, since [Record(table, **r)] would bind a parameter
    twice: a page with such a row makes [get_records] raise after the
    request that brought it. *)
Theorem get_records_reserved_field :
  forall (db : NocoDB) (fuel : nat) (self : Table) (ps : option (dict param))
         (w w' : world db) (log : list Request) (j : json) (rows : list json)
         (d : dict json),
    call_noco db (records_request self (first_params ps)) w = (Ok (Body j), w') ->
    getitem j "list" = Ok (JList rows) ->
    In (JDict d) rows ->
    dict_mem "self" d || dict_mem "table" d = true ->
    new_Record self (JDict d) = Raise TypeError
    /\ exists e,
        Table_get_records db (S fuel) self ps (w, log)
        = Some (Raise e,
                (w', (log ++ [records_request self (first_params ps)])%list)).
Proof.
  intros db fuel self ps w w' log j rows d Hc Hl Hin Hd.
  assert (new_Record self (JDict d) = Raise TypeError) as Hn
      by (unfold new_Record; now rewrite Hd).
  split; [exact Hn|].
  destruct (mapR_Raise (new_Record self) rows (JDict d) TypeError Hin Hn) as (e & He).
  exists e. destruct (get_records_first_turn db fuel self ps (w, log)) as (g & ->).
  simpl. unfold bind at 1, call. simpl fst. rewrite Hc.
  unfold bind at 1, lift at 1, read_page. simpl Response_json. simpl bindR.
  rewrite Hl. simpl. now rewrite He.
Qed.

Lemma get_records_reserved_field_witness :
  new_Record books (JDict [("Id", JInt 2); ("table", JStr "x")]) = Raise TypeError
  /\ exists e,
      Table_get_records scripted 1 books None (reserved_field, [])
      = Some (Raise e,
              ({| answers := []; tables := [books; authors] |},
               ([] ++ [records_request books (first_params None)])%list)).
Proof.
  apply (get_records_reserved_field scripted 0 books None reserved_field
           {| answers := []; tables := [books; authors] |} []
           (last_page [row 1; JDict [("Id", JInt 2); ("table", JStr "x")]])
           [row 1; JDict [("Id", JInt 2); ("table", JStr "x")]]
           [("Id", JInt 2); ("table", JStr "x")]).
  - reflexivity.
  - reflexivity.
  - right. left. reflexivity.
  - reflexivity.
Defined.

(** ** Columns looked up by title *)

Lemma find_column_Some (t : string) (cols : list Column) (c : Column) :
  find_column t cols = Some c -> In c cols /\ column_title c = t.
Proof.
  unfold find_column. intros H. apply find_some in H as [Hin Ht].
  split; [assumption|now apply String.eqb_eq].
Qed.

Lemma find_column_None (t : string) (cols : list Column) :
  (forall c, In c cols -> column_title c <> t) -> find_column t cols = None.
Proof.
  unfold find_column. induction cols as [|c cols IH]; intros H; [reflexivity|].
  simpl. destruct (String.eqb (column_title c) t) eqn:E.
  - apply String.eqb_eq in E. exfalso. apply (H c); [now left|assumption].
  - apply IH. intros c' Hc'. apply H. now right.
Qed.

Section Titles.
Context (db : NocoDB).

(** [get_columns] after its request: the columns of the answer, the
    system columns left out unless asked for. *)
Lemma get_columns_answer (self : Table) (include_system : bool) (st : State db) :
  Table_get_columns db self include_system st
  = let (a, w') := call_noco db (columns_request self) (fst st) in
    Some (match a with
          | Ok r =>
              match read_columns db r with
              | Ok cols =>
                  Ok (if include_system then cols
                      else filter (fun c => negb (system c)) cols)
              | Raise e => Raise e
              end
          | Raise e => Raise e
          end, (w', (snd st ++ [columns_request self])%list)).
Proof.
  unfold Table_get_columns, bind, call, lift, ret.
  destruct (call_noco db (columns_request self) (fst st)) as [[r|e] w']; [|reflexivity].
  destruct (read_columns db r) as [cols|e]; [|reflexivity].
  now destruct include_system.
Qed.

Lemma get_columns_user_columns (self : Table) (st st' : State db) (cols : list Column) :
  Table_get_columns db self false st = Some (Ok cols, st') ->
  Forall (fun c => system c = false) cols.
Proof.
  rewrite get_columns_answer.
  destruct (call_noco db (columns_request self) (fst st)) as [[r|e] w']; [|discriminate].
  destruct (read_columns db r) as [all|e]; [|discriminate].
  intros H. inversion H; subst. apply Forall_forall. intros c Hc.
  apply filter_In in Hc as [_ Hc]. now apply negb_true_iff in Hc.
Qed.

Lemma get_column_by_title_answer (self : Table) (t : string) (st : State db) :
  Table_get_column_by_title db self t st
  = match Table_get_columns db self false st with
    | Some (Ok cols, st') =>
        Some (match find_column t cols with
              | Some c => Ok c
              | None => Raise (column_not_found t)
              end, st')
    | Some (Raise e, st') => Some (Raise e, st')
    | None => None
    end.
Proof.
  unfold Table_get_column_by_title, bind.
  destruct (Table_get_columns db self false st) as [[[cols|e] st']|]; try reflexivity.
  now destruct (find_column t cols).
Qed.

Lemma get_column_by_title_inv (self : Table) (t : string) (st : State db) :
  exists res w',
    Table_get_column_by_title db self t st
    = Some (res, (w', (snd st ++ [columns_request self])%list))
    /\ (forall c, res = Ok c -> column_title c = t /\ system c = false).
Proof.
  rewrite get_column_by_title_answer.
  destruct (get_columns_total db self false st) as (r0 & w' & E). rewrite E.
  destruct r0 as [cols|e].
  - eexists. exists w'. split; [reflexivity|].
    intros c Hc. destruct (find_column t cols) as [c'|] eqn:F; [|discriminate].
    inversion Hc; subst. apply find_column_Some in F as [Hin Ht].
    split; [assumption|].
    apply get_columns_user_columns in E. rewrite Forall_forall in E. now apply E.
  - exists (Raise e), w'. split; [reflexivity|discriminate].
Qed.
End Titles.

(** X6.  [get_column_by_title] always ends after one request; a column
    it returns has the title asked for and is not a system column; and when
    every column of that title in the answer of the service is a system
    column, or there is none, it raises "Column with title <title> not
    found!". *)
Theorem get_column_by_title_user_column :
  forall (db : NocoDB) (self : Table) (t : string) (st : State db),
    (exists res w',
        Table_get_column_by_title db self t st
        = Some (res, (w', (snd st ++ [columns_request self])%list))
        /\ (forall c, res = Ok c -> column_title c = t /\ system c = false))
    /\ (forall r w' cols,
           call_noco db (columns_request self) (fst st) = (Ok r, w') ->
           read_columns db r = Ok cols ->
           (forall c, In c cols -> column_title c = t -> system c = true) ->
           Table_get_column_by_title db self t st
           = Some (Raise (Exception ("Column with title " ++ t ++ " not found!")),
                   (w', (snd st ++ [columns_request self])%list))).
Proof.
  intros db self t st. split; [apply get_column_by_title_inv|].
  intros r w' cols Hc Hr Hs.
  rewrite get_column_by_title_answer, get_columns_answer, Hc, Hr.
  rewrite find_column_None; [reflexivity|].
  intros c Hin Ht. apply filter_In in Hin as [Hin Hn].
  rewrite (Hs c Hin Ht) in Hn. discriminate.
Qed.

Lemma get_column_by_title_user_column_witness :
  Table_get_column_by_title scripted books "CreatedAt" (with_system_column, [])
  = Some (Raise (Exception "Column with title CreatedAt not found!"),
          ({| answers := [listing [column_json "c1" "Id" false;
                                   column_json "c2" "CreatedAt" true];
                          listing [column_json "d1" "Id" false];
                          Ok (Body JNull);
                          listing [column_json "c1" "Id" false;
                                   column_json "c2" "CreatedAt" true]];
              tables := [books; authors] |},
           ([] ++ [columns_request books])%list)).
Proof.
  apply (proj2 (get_column_by_title_user_column scripted books "CreatedAt"
                  (with_system_column, []))
           (Body (JDict [("columns", JList [column_json "c1" "Id" false;
                                            column_json "c2" "CreatedAt" true])]))
           _
           [ {| column_id := "c1"; column_title := "Id"; system := false;
                linked_table_id := None |};
             {| column_id := "c2"; column_title := "CreatedAt"; system := true;
                linked_table_id := None |} ]).
  - reflexivity.
  - reflexivity.
  - intros c [<-|[<-|[]]]; [discriminate|reflexivity].
Defined.

(** ** [Table.create_column] *)

Lemma create_column_payload_lookup (kwargs : dict json) (name t uidt k : string) :
  dict_get (create_column_payload kwargs name t uidt) k
  = if String.eqb k "uidt" then Some (JStr uidt)
    else if String.eqb k "title" then Some (JStr t)
    else if String.eqb k "column_name" then Some (JStr name)
    else dict_get kwargs k.
Proof.
  unfold create_column_payload.
  destruct (String.eqb k "uidt") eqn:E1.
  { apply String.eqb_eq in E1. subst. apply dict_get_set_eq. }
  apply String.eqb_neq in E1. rewrite dict_get_set_neq by congruence.
  destruct (String.eqb k "title") eqn:E2.
  { apply String.eqb_eq in E2. subst. apply dict_get_set_eq. }
  apply String.eqb_neq in E2. rewrite dict_get_set_neq by congruence.
  destruct (String.eqb k "column_name") eqn:E3.
  { apply String.eqb_eq in E3. subst. apply dict_get_set_eq. }
  apply String.eqb_neq in E3. now rewrite dict_get_set_neq by congruence.
Qed.

(** X7.  With keywords that repeat none of its parameters,
    [create_column] sends the creation request first, with a body that
    holds the name, the title and the type given and otherwise the keyword
    arguments; when that request raises nothing else is sent; when it is
    answered, whatever the answer, exactly one listing of the columns
    follows and the call ends like [get_column_by_title] on the state
    after the request; and a column it returns has the title asked for and
    is not a system column. *)
Theorem create_column_then_lookup :
  forall (db : NocoDB) (self : Table) (name t uidt : string) (kwargs : dict json)
         (st : State db),
    existsb (fun p => dict_mem p kwargs) create_column_parameters = false ->
    (exists res w' more,
        Table_create_column db self name t uidt kwargs st
        = Some (res,
                (w', (snd st
                      ++ create_request self
                           (JDict (create_column_payload kwargs name t uidt))
                      :: more)%list))
        /\ (more = [] \/ more = [columns_request self])
        /\ (forall c, res = Ok c -> column_title c = t /\ system c = false))
    /\ (forall e w1,
           call_noco db (create_request self
                           (JDict (create_column_payload kwargs name t uidt)))
             (fst st) = (Raise e, w1) ->
           Table_create_column db self name t uidt kwargs st
           = Some (Raise e,
                   (w1, (snd st
                         ++ [create_request self
                               (JDict (create_column_payload kwargs name t uidt))])%list)))
    /\ (forall r w1,
           call_noco db (create_request self
                           (JDict (create_column_payload kwargs name t uidt)))
             (fst st) = (Ok r, w1) ->
           Table_create_column db self name t uidt kwargs st
           = Table_get_column_by_title db self t
               (w1, (snd st
                     ++ [create_request self
                           (JDict (create_column_payload kwargs name t uidt))])%list)
           /\ exists res w',
               Table_create_column db self name t uidt kwargs st
               = Some (res,
                       (w', (snd st
                             ++ [create_request self
                                   (JDict (create_column_payload kwargs name t uidt));
                                 columns_request self])%list)))
    /\ (forall k,
           dict_get (create_column_payload kwargs name t uidt) k
           = if String.eqb k "uidt" then Some (JStr uidt)
             else if String.eqb k "title" then Some (JStr t)
             else if String.eqb k "column_name" then Some (JStr name)
             else dict_get kwargs k).
Proof.
  intros db self name t uidt kwargs st Hk. split; [|split; [|split]].
  - unfold Table_create_column. rewrite Hk. unfold bind at 1, call.
    destruct (call_noco db _ (fst st)) as [[r|e] w1].
    + destruct (get_column_by_title_inv db self t
                  (w1, (snd st ++ [create_request self
                          (JDict (create_column_payload kwargs name t uidt))])%list))
        as (res & w' & E & Hc).
      exists res, w', [columns_request self]. rewrite E. simpl snd.
      rewrite <- app_assoc. split; [reflexivity|]. split; [now right|exact Hc].
    + exists (Raise e), w1, []. split; [reflexivity|]. split; [now left|discriminate].
  - intros e w1 Hc. unfold Table_create_column. rewrite Hk.
    unfold bind at 1, call. now rewrite Hc.
  - intros r w1 Hc.
    assert (Table_create_column db self name t uidt kwargs st
            = Table_get_column_by_title db self t
                (w1, (snd st
                      ++ [create_request self
                            (JDict (create_column_payload kwargs name t uidt))])%list))
      as E.
    { unfold Table_create_column. rewrite Hk. unfold bind at 1, call. now rewrite Hc. }
    split; [exact E|]. rewrite E.
    destruct (get_column_by_title_inv db self t
                (w1, (snd st ++ [create_request self
                        (JDict (create_column_payload kwargs name t uidt))])%list))
      as (res & w' & E' & _).
    exists res, w'. rewrite E'. simpl snd. now rewrite <- app_assoc.
  - apply create_column_payload_lookup.
Qed.

(** ** [Table.create_linked_column], once more *)

Section Linking.
Context (db : NocoDB).

Lemma create_linked_column_cases (self : Table) (name : string) (target : Table)
    (lt : string) (st : State db) :
  exists r0 s0,
    Table_get_columns db self false st = Some (r0, s0)
    /\ match r0 with
       | Raise e => Table_create_linked_column db self name target lt st
                    = Some (Raise e, s0)
       | Ok cols0 =>
           match find_column name cols0 with
           | Some c => Table_create_linked_column db self name target lt st
                       = Some (Ok (Some c), s0)
           | None =>
               exists r1 s1 r2 s2,
               Table_get_columns db self true s0 = Some (r1, s1)
               /\ match r1 with
                  | Raise e => Table_create_linked_column db self name target lt st
                               = Some (Raise e, s1)
                  | Ok cols1 =>
                      Table_get_columns db target true s1 = Some (r2, s2)
                      /\ match r2 with
                         | Raise e =>
                             Table_create_linked_column db self name target lt st
                             = Some (Raise e, s2)
                         | Ok cols2 =>
                             match find_column "Id" cols1, find_column "Id" cols2 with
                             | Some _, Some _ =>
                                 Table_create_linked_column db self name target lt st
                                 = bind db (call db (create_request self
                                              (ltar_payload self name target lt)))
                                     (fun _ =>
                                        bind db (Table_get_columns db self false)
                                          (fun cols3 => ret (find_column name cols3)))
                                     s2
                             | _, _ =>
                                 Table_create_linked_column db self name target lt st
                                 = Some (Raise (Exception
                                           "Could not find ID columns for both tables"),
                                         s2)
                             end
                         end
                  end
           end
       end.
Proof.
  destruct (get_columns_total db self false st) as (r0 & w0 & E0).
  exists r0. eexists. split; [exact E0|].
  assert (Table_create_linked_column db self name target lt st
          = match r0 with
            | Ok cols0 =>
                match find_column name cols0 with
                | Some c => ret (Some c)
                | None =>
                    bind db (Table_get_columns db self true)
                      (fun cols1 =>
                         bind db (Table_get_columns db target true)
                           (fun cols2 =>
                              match find_column "Id" cols1, find_column "Id" cols2 with
                              | Some _, Some _ =>
                                  bind db (call db (create_request self
                                             (ltar_payload self name target lt)))
                                    (fun _ =>
                                       bind db (Table_get_columns db self false)
                                         (fun cols3 => ret (find_column name cols3)))
                              | _, _ =>
                                  raise (Exception
                                           "Could not find ID columns for both tables")
                              end))
                end (w0, (snd st ++ [columns_request self])%list)
            | Raise e => Some (Raise e, (w0, (snd st ++ [columns_request self])%list))
            end) as E.
  { unfold Table_create_linked_column, bind at 1. rewrite E0.
    destruct r0 as [cols0|e0]; [|reflexivity].
    destruct (find_column name cols0); reflexivity. }
  destruct r0 as [cols0|e0]; [|exact E].
  destruct (find_column name cols0); [exact E|].
  destruct (get_columns_total db self true (w0, (snd st ++ [columns_request self])%list))
    as (r1 & w1 & E1).
  match type of E1 with
  | _ = Some (_, ?s1) =>
      destruct (get_columns_total db target true s1) as (r2 & w2 & E2)
  end.
  exists r1. eexists. exists r2. eexists. split; [exact E1|].
  unfold bind at 1 in E. rewrite E1 in E.
  destruct r1 as [cols1|e1]; [|exact E].
  split; [exact E2|]. unfold bind at 1 in E. rewrite E2 in E.
  destruct r2 as [cols2|e2]; [|exact E].
  destruct (find_column "Id" cols1), (find_column "Id" cols2); exact E.
Qed.
End Linking.

(** X8.  A column that [create_linked_column] returns, found at once or
    after the creation request, has the title asked for and is not a system
    column. *)
Theorem create_linked_column_returns_title :
  forall (db : NocoDB) (self : Table) (name : string) (target : Table) (lt : string)
         (st st' : State db) (c : Column),
    Table_create_linked_column db self name target lt st = Some (Ok (Some c), st') ->
    column_title c = name /\ system c = false.
Proof.
  intros db self name target lt st st' c H.
  assert (forall s s1 cols, Table_get_columns db self false s = Some (Ok cols, s1) ->
                            find_column name cols = Some c ->
                            column_title c = name /\ system c = false) as Hfound.
  { intros s s1 cols Hg Hf. apply find_column_Some in Hf as [Hin Ht].
    split; [assumption|]. apply get_columns_user_columns in Hg.
    rewrite Forall_forall in Hg. now apply Hg. }
  destruct (create_linked_column_cases db self name target lt st) as (r0 & s0 & E0 & Hc).
  destruct r0 as [cols0|e0]; [|rewrite Hc in H; discriminate].
  destruct (find_column name cols0) as [c0|] eqn:F0.
  { rewrite Hc in H. inversion H; subst. eapply Hfound; [exact E0|exact F0]. }
  destruct Hc as (r1 & s1 & r2 & s2 & E1 & Hc).
  destruct r1 as [cols1|e1]; [|rewrite Hc in H; discriminate].
  destruct Hc as [E2 Hc].
  destruct r2 as [cols2|e2]; [|rewrite Hc in H; discriminate].
  destruct (find_column "Id" cols1), (find_column "Id" cols2);
    rewrite Hc in H; try discriminate.
  unfold bind at 1 in H.
  destruct (call db _ s2) as [[[r|e] s3]|]; try discriminate.
  unfold bind at 1 in H.
  destruct (Table_get_columns db self false s3) as [[[cols3|e] s4]|] eqn:E3;
    try discriminate.
  unfold ret in H. inversion H as [[Hf Hs]]. exact (Hfound s3 s4 cols3 E3 Hf).
Qed.

Lemma create_linked_column_returns_title_witness :
  column_title authors_column = "Authors" /\ system authors_column = false.
Proof.
  apply (create_linked_column_returns_title scripted books "Authors" authors "hm"
           (creating, []) created authors_column).
  reflexivity.
Defined.

(** X9.  [create_linked_column] sends no creation request when the
    column is not listed and one of the two tables shows no column titled
    ["Id"]: it raises "Could not find ID columns for both tables" after its
    three listings. *)
Theorem create_linked_column_needs_Id_columns :
  forall (db : NocoDB) (self : Table) (name : string) (target : Table) (lt : string)
         (st s0 s1 s2 : State db) (cols0 cols1 cols2 : list Column),
    Table_get_columns db self false st = Some (Ok cols0, s0) ->
    find_column name cols0 = None ->
    Table_get_columns db self true s0 = Some (Ok cols1, s1) ->
    Table_get_columns db target true s1 = Some (Ok cols2, s2) ->
    find_column "Id" cols1 = None \/ find_column "Id" cols2 = None ->
    Table_create_linked_column db self name target lt st
    = Some (Raise (Exception "Could not find ID columns for both tables"), s2)
    /\ snd s2 = (snd st ++ [columns_request self; columns_request self;
                            columns_request target])%list.
Proof.
  intros db self name target lt st s0 s1 s2 cols0 cols1 cols2 E0 F0 E1 E2 Hid.
  split.
  - destruct (create_linked_column_cases db self name target lt st)
      as (r0 & s0' & E0' & Hc).
    rewrite E0 in E0'. inversion E0'; subst r0 s0'. rewrite F0 in Hc.
    destruct Hc as (r1 & s1' & r2 & s2' & E1' & Hc).
    rewrite E1 in E1'. inversion E1'; subst r1 s1'. destruct Hc as [E2' Hc].
    rewrite E2 in E2'. inversion E2'; subst r2 s2'.
    destruct Hid as [Hid|Hid]; rewrite Hid in Hc; [exact Hc|].
    now destruct (find_column "Id" cols1).
  - rewrite (get_columns_log db _ _ _ _ _ E2), (get_columns_log db _ _ _ _ _ E1),
      (get_columns_log db _ _ _ _ _ E0).
    now rewrite <- !app_assoc.
Qed.

Lemma create_linked_column_needs_Id_columns_witness :
  Table_create_linked_column scripted books "Authors" authors "hm" (no_target_id, [])
  = Some (Raise (Exception "Could not find ID columns for both tables"),
          ({| answers := []; tables := [books; authors] |},
           [columns_request books; columns_request books; columns_request authors]))
  /\ [columns_request books; columns_request books; columns_request authors]
     = ([] ++ [columns_request books; columns_request books;
               columns_request authors])%list.
Proof.
  apply (create_linked_column_needs_Id_columns scripted books "Authors" authors "hm"
           (no_target_id, [])
           ({| answers := [listing [column_json "c1" "Id" false];
                           listing [column_json "d2" "Name" false]];
               tables := [books; authors] |}, [columns_request books])
           ({| answers := [listing [column_json "d2" "Name" false]];
               tables := [books; authors] |},
            [columns_request books; columns_request books])
           ({| answers := []; tables := [books; authors] |},
            [columns_request books; columns_request books; columns_request authors])
           [ {| column_id := "c1"; column_title := "Id"; system := false;
                linked_table_id := None |} ]
           [ {| column_id := "c1"; column_title := "Id"; system := false;
                linked_table_id := None |} ]
           [ {| column_id := "d2"; column_title := "Name"; system := false;
                linked_table_id := None |} ]);
    try reflexivity.
  right. reflexivity.
Defined.

Lemma create_column_then_lookup_witness :
  Table_create_column scripted books "authors" "Authors" "Links" [] (down, [])
  = Some (Raise (TransportError "down"),
          ({| answers := []; tables := [books; authors] |},
           ([] ++ [create_request books
                           (JDict (create_column_payload [] "authors" "Authors"
                                     "Links"))])%list)).
Proof.
  apply (proj1 (proj2 (create_column_then_lookup scripted books "authors" "Authors"
                         "Links" [] (down, []) eq_refl))).
  reflexivity.
Defined.

(** ** Bulk requests and their echo *)

Lemma echoed_ids_body (record_ids : list json) :
  echoed_ids (Body (ids_body record_ids)) = Ok record_ids.
Proof.
  unfold echoed_ids, ids_body. simpl.
  induction record_ids as [|i ids IH]; [reflexivity|].
  simpl. simpl in IH. now rewrite IH.
Qed.

Section Bulk.
Context (db : NocoDB).

(** A bulk write followed by the fetch of the records it names. *)
Lemma write_then_fetch (fuel : nat) (self : Table) (m : Method) (body : json)
    (st st' : State db) (res : result (list Rec)) :
  bind db (call db (write_request self m body))
    (fun r => bind db (lift (echoed_ids r))
                (fun ids => Table_get_records_by_id db fuel self ids)) st
  = Some (res, st') ->
  exists more,
    snd st' = (snd st ++ write_request self m body :: more)%list
    /\ Forall (is_listing self) more
    /\ (forall recs, res = Ok recs -> more <> [] /\ Forall (owned_by self) recs).
Proof.
  unfold bind at 1, call.
  destruct (call_noco db (write_request self m body) (fst st)) as [[r|e] w1].
  2:{ intros H. inversion H; subst. exists []. simpl.
      repeat split; [constructor|discriminate|discriminate]. }
  unfold bind at 1, lift at 1. destruct (echoed_ids r) as [ids|e].
  2:{ intros H. inversion H; subst. exists []. simpl.
      repeat split; [constructor|discriminate|discriminate]. }
  intros H. unfold Table_get_records_by_id in H.
  apply get_records_inv in H as [(more & Hl & Hn & Hm) Hr]. simpl in Hl.
  exists more. rewrite Hl, <- app_assoc. repeat split; try assumption.
  now apply Hr.
Qed.

Lemma write_raises (fuel : nat) (self : Table) (m : Method) (body : json)
    (st : State db) (e : exn) (w1 : world db) :
  call_noco db (write_request self m body) (fst st) = (Raise e, w1) ->
  bind db (call db (write_request self m body))
    (fun r => bind db (lift (echoed_ids r))
                (fun ids => Table_get_records_by_id db fuel self ids)) st
  = Some (Raise e, (w1, (snd st ++ [write_request self m body])%list)).
Proof. intros H. unfold bind at 1, call. now rewrite H. Qed.
End Bulk.

(** X10.  [create_records] and [update_records] write once and first,
    with POST and with PATCH: every later request is a listing of the
    table, there is at least one when records come back, the records that
    come back belong to the table, and when the write raises nothing else
    is sent. *)
Theorem bulk_write_then_read :
  forall (db : NocoDB) (fuel : nat) (self : Table) (records : list (dict json))
         (st : State db),
    (forall res st',
        Table_create_records db fuel self records st = Some (res, st') ->
        exists more,
          snd st' = (snd st ++ write_request self POST (JList (map JDict records))
                            :: more)%list
          /\ Forall (is_listing self) more
          /\ (forall recs, res = Ok recs -> more <> [] /\ Forall (owned_by self) recs))
    /\ (forall res st',
           Table_update_records db fuel self records st = Some (res, st') ->
           exists more,
             snd st' = (snd st ++ write_request self PATCH (JList (map JDict records))
                               :: more)%list
             /\ Forall (is_listing self) more
             /\ (forall recs, res = Ok recs ->
                              more <> [] /\ Forall (owned_by self) recs))
    /\ (forall e w1,
           call_noco db (write_request self POST (JList (map JDict records))) (fst st)
           = (Raise e, w1) ->
           Table_create_records db fuel self records st
           = Some (Raise e,
                   (w1, (snd st ++ [write_request self POST
                                      (JList (map JDict records))])%list)))
    /\ (forall e w1,
           call_noco db (write_request self PATCH (JList (map JDict records))) (fst st)
           = (Raise e, w1) ->
           Table_update_records db fuel self records st
           = Some (Raise e,
                   (w1, (snd st ++ [write_request self PATCH
                                      (JList (map JDict records))])%list))).
Proof.
  intros db fuel self records st. repeat split.
  - intros res st'. apply write_then_fetch.
  - intros res st'. apply write_then_fetch.
  - intros e w1. apply write_raises.
  - intros e w1. apply write_raises.
Qed.

(** X11.  [delete_records_by_id] always ends after one DELETE request
    that lists the identifiers as [{"Id": ...}] objects, and decodes the
    echo of such a list to the identifiers themselves; [delete_records]
    does so with the identifiers of the records, and [delete_record] with
    one. *)
Theorem delete_echo :
  forall (db : NocoDB) (self : Table) (record_ids : list json) (records : list Rec)
         (record_id0 : json) (st : State db),
    (exists res w',
        Table_delete_records_by_id db self record_ids st
        = Some (res, (w', (snd st ++ [write_request self DELETE
                                        (ids_body record_ids)])%list)))
    /\ (forall w',
           call_noco db (write_request self DELETE (ids_body record_ids)) (fst st)
           = (Ok (Body (ids_body record_ids)), w') ->
           Table_delete_records_by_id db self record_ids st
           = Some (Ok record_ids,
                   (w', (snd st ++ [write_request self DELETE
                                      (ids_body record_ids)])%list)))
    /\ (forall w',
           call_noco db (write_request self DELETE
                           (ids_body (map record_id records))) (fst st)
           = (Ok (Body (ids_body (map record_id records))), w') ->
           Table_delete_records db self records st
           = Some (Ok (map record_id records),
                   (w', (snd st ++ [write_request self DELETE
                                      (ids_body (map record_id records))])%list)))
    /\ (forall w',
           call_noco db (write_request self DELETE (JDict [("Id", record_id0)])) (fst st)
           = (Ok (Body (JDict [("Id", record_id0)])), w') ->
           Table_delete_record db self record_id0 st
           = Some (Ok record_id0,
                   (w', (snd st ++ [write_request self DELETE
                                      (JDict [("Id", record_id0)])])%list))).
Proof.
  intros db self record_ids records record_id0 st.
  assert (forall ids w',
             call_noco db (write_request self DELETE (ids_body ids)) (fst st)
             = (Ok (Body (ids_body ids)), w') ->
             Table_delete_records_by_id db self ids st
             = Some (Ok ids,
                     (w', (snd st ++ [write_request self DELETE (ids_body ids)])%list)))
    as Hecho.
  { intros ids w' H. unfold Table_delete_records_by_id, bind, call, lift.
    now rewrite H, echoed_ids_body. }
  split; [|split; [|split]].
  - unfold Table_delete_records_by_id, bind, call, lift.
    destruct (call_noco db _ (fst st)) as [[r|e] w']; eauto.
  - apply Hecho.
  - intros w' H. unfold Table_delete_records. now apply Hecho.
  - intros w' H. unfold Table_delete_record, bind, call, lift. rewrite H. simpl.
    reflexivity.
Qed.

Lemma bulk_write_then_read_witness :
  exists more,
    [write_request books POST (JList (map JDict [[("Title", JStr "A")];
                                                 [("Title", JStr "B")]]));
     by_id_request books [JInt 4; JInt 5]]
    = ([] ++ write_request books POST (JList (map JDict [[("Title", JStr "A")];
                                                         [("Title", JStr "B")]]))
          :: more)%list
    /\ Forall (is_listing books) more
    /\ (forall recs, Ok [record_of books 4; record_of books 5] = Ok recs ->
                     more <> [] /\ Forall (owned_by books) recs).
Proof.
  apply (proj1 (bulk_write_then_read scripted 1 books
                  [[("Title", JStr "A")]; [("Title", JStr "B")]] (echoing, []))
           (Ok [record_of books 4; record_of books 5])
           ({| answers := []; tables := [books; authors] |},
            [write_request books POST (JList (map JDict [[("Title", JStr "A")];
                                                         [("Title", JStr "B")]]));
             by_id_request books [JInt 4; JInt 5]])).
  reflexivity.
Defined.

Lemma delete_echo_witness :
  Table_delete_records scripted books [record_of books 4; record_of books 5]
    (echoing, [])
  = Some (Ok [JInt 4; JInt 5],
          ({| answers := [Ok (Body (last_page [row 4; row 5]))];
              tables := [books; authors] |},
           ([] ++ [write_request books DELETE (ids_body [JInt 4; JInt 5])])%list)).
Proof.
  apply (proj1 (proj2 (proj2 (delete_echo scripted books []
                                [record_of books 4; record_of books 5] JNull
                                (echoing, []))))).
  reflexivity.
Defined.

(** X12.  When the service answers a bulk write with one object instead
    of a list, [create_records] and [update_records] raise [TypeError]
    after the write has been sent, and no read follows. *)
Theorem bulk_write_single_object_echo :
  forall (db : NocoDB) (fuel : nat) (self : Table) (records : list (dict json))
         (st : State db) (k : string) (v : json) (d : dict json),
    (forall w1,
        call_noco db (write_request self POST (JList (map JDict records))) (fst st)
        = (Ok (Body (JDict ((k, v) :: d))), w1) ->
        Table_create_records db fuel self records st
        = Some (Raise TypeError,
                (w1, (snd st ++ [write_request self POST
                                   (JList (map JDict records))])%list)))
    /\ (forall w1,
           call_noco db (write_request self PATCH (JList (map JDict records))) (fst st)
           = (Ok (Body (JDict ((k, v) :: d))), w1) ->
           Table_update_records db fuel self records st
           = Some (Raise TypeError,
                   (w1, (snd st ++ [write_request self PATCH
                                      (JList (map JDict records))])%list))).
Proof.
  intros db fuel self records st k v d. split; intros w1 H.
  - unfold Table_create_records, bind at 1, call. rewrite H. reflexivity.
  - unfold Table_update_records, bind at 1, call. rewrite H. reflexivity.
Qed.

Lemma bulk_write_single_object_echo_witness :
  Table_create_records scripted 1 books [[("Title", JStr "A")]] (one_object, [])
  = Some (Raise TypeError,
          ({| answers := [Ok (Body (last_page [row 4]))]; tables := [books; authors] |},
           ([] ++ [write_request books POST
                     (JList (map JDict [[("Title", JStr "A")]]))])%list)).
Proof.
  apply (proj1 (bulk_write_single_object_echo scripted 1 books [[("Title", JStr "A")]]
                  (one_object, []) "Id" (JInt 4) [])).
  reflexivity.
Defined.

(** ** What [Record.get_linked_records] sends and returns *)

Section LinkedInv.
Context (db : NocoDB).

Lemma op_log {A} (f : world db -> result A * world db) (st st' : State db)
    (res : result A) :
  op db f st = Some (res, st') -> snd st' = snd st.
Proof.
  unfold op. destruct (f (fst st)) as [a w']. intros H. now inversion H.
Qed.

Lemma bind_op_log {A B} (f : world db -> result A * world db) (k : A -> M db B)
    (st st' : State db) (res : result B) :
  bind db (op db f) k st = Some (res, st') ->
  (exists e, res = Raise e /\ snd st' = snd st)
  \/ (exists a w', k a (w', snd st) = Some (res, st')).
Proof.
  unfold bind, op. destruct (f (fst st)) as [[a|e] w'].
  - intros H. right. now exists a, w'.
  - intros H. inversion H; subst. left. now exists e.
Qed.

Lemma linked_table_of_log (self : Rec) (column : Column) (st st' : State db)
    (res : result Table) :
  linked_table_of db self column st = Some (res, st') -> snd st' = snd st.
Proof.
  unfold linked_table_of. destruct (linked_table_id column) as [id|].
  - apply op_log.
  - unfold Table_get_base. intros H.
    apply bind_op_log in H as [(e & _ & Hl)|(b & w1 & H)]; [exact Hl|].
    apply bind_op_log in H as [(e & _ & Hl)|(ts & w2 & H)]; [exact Hl|].
    destruct (find_table (column_title column) ts).
    + now inversion H.
    + destruct (endswith_s (column_title column)); [|now inversion H].
      apply bind_op_log in H as [(e & _ & Hl)|(ts' & w3 & H)]; [exact Hl|].
      destruct (find_table _ ts'); now inversion H.
Qed.

Lemma fetched_nothing (res : result (list Rec)) :
  (forall recs, res = Ok recs -> recs = []) -> fetched [] res.
Proof.
  intros H. exists (mk_table "" ""). split; [constructor|].
  intros recs E. rewrite (H recs E). constructor.
Qed.

Lemma fetched_by_id (fuel : nat) (t : Table) (ids : list json) (st st' : State db)
    (res : result (list Rec)) :
  Table_get_records_by_id db fuel t ids st = Some (res, st') ->
  exists more, snd st' = (snd st ++ more)%list /\ fetched more res.
Proof.
  unfold Table_get_records_by_id. intros H.
  apply get_records_inv in H as [(more & Hl & _ & Hm) Hr].
  exists more. split; [assumption|]. exists t. now split.
Qed.

Lemma main_inv (fuel : nat) (self : Rec) (column : Column) (st st' : State db)
    (res : result (list Rec)) :
  linked_records_main db fuel self column st = Some (res, st') ->
  exists more,
    snd st' = (snd st ++ links_request self column :: more)%list /\ fetched more res.
Proof.
  destruct st as [w log]. simpl snd.
  destruct (call_noco db (links_request self column) w) as [[r|e] w'] eqn:Hc.
  2:{ rewrite (main_call_raises db fuel self column w w' log e Hc).
      intros H. inversion H; subst. exists []. split; [reflexivity|].
      apply fetched_nothing. discriminate. }
  rewrite (main_after_call db fuel self column w w' log r Hc).
  destruct (gather_record_ids r self column) as [ids|].
  2:{ intros H. inversion H; subst. exists []. split; [reflexivity|].
      apply fetched_nothing. intros recs E. now inversion E. }
  destruct (coerce_ids ids) as [[|z zs]|e].
  - intros H. inversion H; subst. exists []. split; [reflexivity|].
    apply fetched_nothing. intros recs E. now inversion E.
  - unfold bind.
    destruct (linked_table_of db self column _) as [[[t|e] s1]|] eqn:Hl;
      [| |discriminate].
    + apply linked_table_of_log in Hl. simpl in Hl. intros H.
      apply fetched_by_id in H as (more & Hm & Hf). exists more.
      rewrite Hm, Hl, <- app_assoc. now split.
    + apply linked_table_of_log in Hl. simpl in Hl. intros H.
      inversion H; subst. exists []. rewrite Hl. split; [reflexivity|].
      apply fetched_nothing. discriminate.
  - intros H. inversion H; subst. exists []. split; [reflexivity|].
    apply fetched_nothing. discriminate.
Qed.

Lemma recovery_inv (fuel : nat) (self : Rec) (column : Column) (e : exn)
    (st st' : State db) (res : result (list Rec)) :
  linked_records_recovery db fuel self column e st = Some (res, st') ->
  exists more, snd st' = (snd st ++ more)%list /\ fetched more res.
Proof.
  unfold linked_records_recovery.
  assert (forall s : State db, Some (res, st') = Some (res, s) -> snd s = snd st ->
                               (forall recs, res = Ok recs -> recs = []) ->
                               exists more, snd st' = (snd st ++ more)%list
                                            /\ fetched more res) as Hnone.
  { intros s E Hs Hr. inversion E; subst. exists []. rewrite Hs, app_nil_r.
    split; [reflexivity|now apply fetched_nothing]. }
  destruct (foreign_key self column) as [v|].
  - unfold Table_get_base. intros H.
    apply bind_op_log in H as [(e' & -> & Hl)|(b & w1 & H)].
    { apply (Hnone st'); [reflexivity|assumption|discriminate]. }
    apply bind_op_log in H as [(e' & -> & Hl)|(ts & w2 & H)].
    { apply (Hnone st'); [reflexivity|assumption|discriminate]. }
    destruct (find_table (column_title column) ts) as [t|].
    + apply fetched_by_id in H as (more & Hm & Hf). exists more. now split.
    + inversion H; subst. apply (Hnone (w2, snd st)); [reflexivity|reflexivity|].
      discriminate.
  - intros H. inversion H; subst.
    apply (Hnone st'); [reflexivity|reflexivity|discriminate].
Qed.
End LinkedInv.

Lemma get_linked_records_inv (db : NocoDB) (fuel : nat) (self : Rec) (column : Column)
    (st st' : State db) (res : result (list Rec)) :
  Record_get_linked_records db fuel self column st = Some (res, st') ->
  exists more,
    snd st' = (snd st ++ links_request self column :: more)%list
    /\ Forall (fun q => exists t, is_listing t q) more
    /\ (forall recs, res = Ok recs -> exists t, Forall (owned_by t) recs).
Proof.
  assert (forall more r, fetched more r ->
                         Forall (fun q => exists t, is_listing t q) more) as Hq.
  { intros more r (t & Hm & _). eapply Forall_impl; [|exact Hm]. intros q Hl. now exists t. }
  unfold Record_get_linked_records, try_except.
  destruct (linked_records_main db fuel self column st) as [[[recs|e] s1]|] eqn:Hm;
    [| |discriminate].
  - intros H. inversion H; subst. apply main_inv in Hm as (more & Hl & Hf).
    exists more. split; [assumption|]. split; [now apply (Hq more (Ok recs))|].
    destruct Hf as (t & _ & Hr). intros recs0 E. exists t. now apply Hr.
  - intros H. apply main_inv in Hm as (more1 & Hl1 & Hf1).
    apply recovery_inv in H as (more2 & Hl2 & Hf2).
    exists (more1 ++ more2)%list. split; [|split].
    + rewrite Hl2, Hl1, <- app_assoc. reflexivity.
    + apply Forall_app. split; [now apply (Hq more1 (Raise e))|now apply (Hq more2 res)].
    + destruct Hf2 as (t & _ & Hr). intros recs0 E. exists t. now apply Hr.
Qed.

(** ** The operations of [Record.get_linked_records] *)

Section Observed.
Context (db : NocoDB).

Lemma requests_of_app (a b : list Event) :
  requests_of (a ++ b) = (requests_of a ++ requests_of b)%list.
Proof. apply flat_map_app. Qed.

Lemma performs_nothing (st : State (traced db)) : performs db st st [].
Proof. unfold performs. simpl. now rewrite !app_nil_r. Qed.

Lemma performs_trans (st st1 st2 : State (traced db)) (a b : list Event) :
  performs db st st1 a -> performs db st1 st2 b -> performs db st st2 (a ++ b).
Proof.
  intros [Ha1 Ha2] [Hb1 Hb2]. unfold performs.
  rewrite Hb1, Ha1, Hb2, Ha2, requests_of_app, !app_assoc. now split.
Qed.

Lemma tracked_ret {A} (a : A) : tracked db (@ret (traced db) A a).
Proof.
  intros st res st' H. inversion H; subst. exists []. apply performs_nothing.
Qed.

Lemma tracked_raise {A} (e : exn) : tracked db (@raise (traced db) A e).
Proof.
  intros st res st' H. inversion H; subst. exists []. apply performs_nothing.
Qed.

Lemma tracked_lift {A} (r : result A) : tracked db (@lift (traced db) A r).
Proof.
  intros st res st' H. inversion H; subst. exists []. apply performs_nothing.
Qed.

Lemma tracked_bind {A B} (m : M (traced db) A) (k : A -> M (traced db) B) :
  tracked db m -> (forall a, tracked db (k a)) -> tracked db (bind (traced db) m k).
Proof.
  intros Hm Hk st res st' H. unfold bind in H.
  destruct (m st) as [[[a|e] s1]|] eqn:E; [| |discriminate].
  - destruct (Hm _ _ _ E) as (evs1 & H1). destruct (Hk a _ _ _ H) as (evs2 & H2).
    exists (evs1 ++ evs2)%list. now apply performs_trans with (st1 := s1).
  - inversion H; subst. now apply (Hm _ _ _ E).
Qed.

Lemma tracked_try {A} (m : M (traced db) A) (h : exn -> M (traced db) A) :
  tracked db m -> (forall e, tracked db (h e)) -> tracked db (try_except (traced db) m h).
Proof.
  intros Hm Hh st res st' H. unfold try_except in H.
  destruct (m st) as [[[a|e] s1]|] eqn:E; [| |discriminate].
  - inversion H; subst. now apply (Hm _ _ _ E).
  - destruct (Hm _ _ _ E) as (evs1 & H1). destruct (Hh e _ _ _ H) as (evs2 & H2).
    exists (evs1 ++ evs2)%list. now apply performs_trans with (st1 := s1).
Qed.

Lemma call_performs (q : Request) (st : State (traced db)) (res : result Response)
    (st' : State (traced db)) :
  call (traced db) q st = Some (res, st') -> performs db st st' [Sent q].
Proof.
  destruct st as [[w tr] log]. unfold call. simpl.
  destruct (call_noco db q w) as [r w']. intros H. inversion H; subst.
  split; reflexivity.
Qed.

Lemma tracked_call (q : Request) : tracked db (call (traced db) q).
Proof. intros st res st' H. exists [Sent q]. now apply call_performs in H. Qed.

Lemma tracked_get_table (id : string) :
  tracked db (op (traced db) (get_table (traced db) id)).
Proof.
  intros [[w tr] log] res st' H. exists [Table_lookup id]. unfold op in H. simpl in H.
  destruct (get_table db id w) as [r w']. inversion H; subst.
  split; [reflexivity|]. simpl. now rewrite app_nil_r.
Qed.

Lemma tracked_get_base (id : string) :
  tracked db (op (traced db) (get_base (traced db) id)).
Proof.
  intros [[w tr] log] res st' H. exists [Base_lookup id]. unfold op in H. simpl in H.
  destruct (get_base db id w) as [r w']. inversion H; subst.
  split; [reflexivity|]. simpl. now rewrite app_nil_r.
Qed.

Lemma tracked_get_tables (b : Base db) :
  tracked db (op (traced db) (get_tables (traced db) b)).
Proof.
  intros [[w tr] log] res st' H. exists [Tables_listing]. unfold op in H. simpl in H.
  destruct (get_tables db b w) as [r w']. inversion H; subst.
  split; [reflexivity|]. simpl. now rewrite app_nil_r.
Qed.

Lemma tracked_get_records_loop (fuel : nat) (self : Table) (all : bool)
    (params : dict param) (records : list Rec) :
  tracked db (get_records_loop (traced db) fuel self all params records).
Proof.
  revert params records. induction fuel as [|fuel IH]; intros params records.
  - intros st res st' H. discriminate.
  - simpl. apply tracked_bind; [apply tracked_call|]. intros r.
    apply tracked_bind; [apply tracked_lift|]. intros p.
    destruct (snd p); [apply tracked_ret|].
    destruct (negb all); [apply tracked_ret|].
    apply tracked_bind; [apply tracked_lift|]. intros params'. apply IH.
Qed.

Lemma tracked_get_records (fuel : nat) (self : Table) (ps : option (dict param)) :
  tracked db (Table_get_records (traced db) fuel self ps).
Proof.
  unfold Table_get_records.
  destruct (dict_mem "offset" _ || dict_mem "limit" _);
    apply tracked_get_records_loop.
Qed.

Lemma tracked_get_records_by_id (fuel : nat) (self : Table) (ids : list json) :
  tracked db (Table_get_records_by_id (traced db) fuel self ids).
Proof. apply tracked_get_records. Qed.

Lemma tracked_linked_table_of (self : Rec) (column : Column) :
  tracked db (linked_table_of (traced db) self column).
Proof.
  unfold linked_table_of. destruct (linked_table_id column) as [id|].
  - apply tracked_get_table.
  - apply tracked_bind; [apply tracked_get_base|]. intros b.
    apply tracked_bind; [apply tracked_get_tables|]. intros ts.
    destruct (find_table (column_title column) ts); [apply tracked_ret|].
    destruct (endswith_s (column_title column)); [|apply tracked_raise].
    apply tracked_bind; [apply tracked_get_tables|]. intros ts'.
    destruct (find_table _ ts'); [apply tracked_ret|apply tracked_raise].
Qed.

Lemma tracked_recovery (fuel : nat) (self : Rec) (column : Column) (e : exn) :
  tracked db (linked_records_recovery (traced db) fuel self column e).
Proof.
  unfold linked_records_recovery. destruct (foreign_key self column) as [v|].
  - apply tracked_bind; [apply tracked_get_base|]. intros b.
    apply tracked_bind; [apply tracked_get_tables|]. intros ts.
    destruct (find_table (column_title column) ts);
      [apply tracked_get_records_by_id|apply tracked_raise].
  - apply tracked_raise.
Qed.

(** The body of the outer [try] starts with the request to the link
    endpoint. *)
Lemma main_performs (fuel : nat) (self : Rec) (column : Column)
    (st st' : State (traced db)) (res : result (list Rec)) :
  linked_records_main (traced db) fuel self column st = Some (res, st') ->
  exists evs, performs db st st' (Sent (links_request self column) :: evs).
Proof.
  unfold linked_records_main. unfold bind at 1.
  destruct (call (traced db) (links_request self column) st) as [[[r|e] s1]|] eqn:Hc;
    [| |discriminate]; apply call_performs in Hc.
  - intros H.
    assert (exists evs, performs db s1 st' evs) as (evs & He).
    { revert H. generalize s1 res st'. change (tracked db
        match gather_record_ids r self column with
        | Some record_ids =>
            bind (traced db) (lift (coerce_ids record_ids))
              (fun record_ids0 =>
                 match record_ids0 with
                 | [] => ret []
                 | _ :: _ =>
                     bind (traced db) (linked_table_of (traced db) self column)
                       (fun linked_table =>
                          Table_get_records_by_id (traced db) fuel linked_table
                            (map JInt record_ids0))
                 end)
        | None => ret []
        end).
      destruct (gather_record_ids r self column) as [ids|]; [|apply tracked_ret].
      apply tracked_bind; [apply tracked_lift|]. intros zs.
      destruct zs; [apply tracked_ret|].
      apply tracked_bind; [apply tracked_linked_table_of|]. intros t.
      apply tracked_get_records_by_id. }
    exists evs. apply (performs_trans st s1 st' [Sent _] evs Hc He).
  - intros H. inversion H; subst. exists []. exact Hc.
Qed.

Lemma get_linked_records_performs (fuel : nat) (self : Rec) (column : Column)
    (st st' : State (traced db)) (res : result (list Rec)) :
  Record_get_linked_records (traced db) fuel self column st = Some (res, st') ->
  exists evs, performs db st st' (Sent (links_request self column) :: evs).
Proof.
  unfold Record_get_linked_records, try_except.
  destruct (linked_records_main (traced db) fuel self column st)
    as [[[recs|e] s1]|] eqn:Hm; [| |discriminate].
  - intros H. inversion H; subst. now apply main_performs in Hm.
  - intros H. apply main_performs in Hm as (evs1 & H1).
    apply tracked_recovery in H as (evs2 & H2).
    exists (evs1 ++ evs2)%list.
    apply (performs_trans st s1 st' (Sent _ :: evs1) evs2 H1 H2).
Qed.

Lemma reads_requests (evs : list Event) :
  Forall (fun q => exists t, is_listing t q) (requests_of evs) -> Forall reads evs.
Proof.
  induction evs as [|e evs IH]; intros H; [constructor|].
  destruct e as [q| | |]; simpl in H.
  - inversion H; subst. constructor; [assumption|now apply IH].
  - constructor; [exact I|now apply IH].
  - constructor; [exact I|now apply IH].
  - constructor; [exact I|now apply IH].
Qed.
End Observed.

(** X13.  [get_linked_records] only reads.  Of all that it asks of the
    connection, requests and lookups alike, the first is the GET on the link
    endpoint, and everything after it is a lookup of a table, of the base or
    of the tables of the base, or a GET without body on the records of a
    table; this holds whenever the call ends, with records or with an
    exception. *)
Theorem get_linked_records_reads_only :
  forall (db : NocoDB) (fuel : nat) (self : Rec) (column : Column)
         (w : world db) (trace : list Event) (log : list Request)
         (st' : State (traced db)) (res : result (list Rec)),
    Record_get_linked_records (traced db) fuel self column ((w, trace), log)
    = Some (res, st') ->
    exists evs,
      snd (fst st') = (trace ++ Sent (links_request self column) :: evs)%list
      /\ method (links_request self column) = GET
      /\ Forall reads evs
      /\ snd st' = (log ++ links_request self column :: requests_of evs)%list.
Proof.
  intros db fuel self column w trace log st' res H.
  pose proof (get_linked_records_inv (traced db) fuel self column _ _ _ H)
    as (more & Hl & Hm & _).
  apply get_linked_records_performs in H as (evs & Ht & Hr).
  exists evs. simpl in Ht, Hr, Hl. split; [exact Ht|]. split; [reflexivity|].
  split; [|exact Hr].
  apply reads_requests. rewrite Hr in Hl. apply app_inv_head in Hl.
  inversion Hl; subst. exact Hm.
Qed.

Lemma get_linked_records_reads_only_witness :
  exists evs,
    [Sent (links_request book author_link); Table_lookup "t2";
     Sent (by_id_request authors [JInt 7]); Base_lookup "b1"; Tables_listing;
     Sent (by_id_request people [JInt 9])]
    = ([] ++ Sent (links_request book author_link) :: evs)%list
    /\ method (links_request book author_link) = GET
    /\ Forall reads evs
    /\ [links_request book author_link; by_id_request authors [JInt 7];
        by_id_request people [JInt 9]]
       = ([] ++ links_request book author_link :: requests_of evs)%list.
Proof.
  apply (get_linked_records_reads_only scripted 1 book author_link flaky [] []
           (({| answers := []; tables := library |},
             [Sent (links_request book author_link); Table_lookup "t2";
              Sent (by_id_request authors [JInt 7]); Base_lookup "b1"; Tables_listing;
              Sent (by_id_request people [JInt 9])]),
            [links_request book author_link; by_id_request authors [JInt 7];
             by_id_request people [JInt 9]])
           (Ok [record_of people 9])).
  reflexivity.
Defined.

(** X14.  The records that [get_linked_records] returns all belong to
    one table, and the [record_id] of each is the ["Id"] of its
    attributes. *)
Theorem get_linked_records_one_table :
  forall (db : NocoDB) (fuel : nat) (self : Rec) (column : Column)
         (st st' : State db) (recs : list Rec),
    Record_get_linked_records db fuel self column st = Some (Ok recs, st') ->
    exists t, Forall (owned_by t) recs.
Proof.
  intros db fuel self column st st' recs H.
  apply get_linked_records_inv in H as (_ & _ & _ & Hr). now apply Hr.
Qed.

Lemma get_linked_records_one_table_witness :
  exists t, Forall (owned_by t) [record_of people 9].
Proof.
  apply (get_linked_records_one_table scripted 1 book author_link (flaky, [])
           ({| answers := []; tables := library |},
            [links_request book author_link; by_id_request authors [JInt 7];
             by_id_request people [JInt 9]])).
  reflexivity.
Defined.

(** ** More on [Table.get_duplicates] *)

Lemma string_length_app (a b : string) :
  String.length (a ++ b) = (String.length a + String.length b)%nat.
Proof. induction a as [|c a IH]; simpl; [reflexivity|now rewrite IH]. Qed.

Lemma re_match_copy_longer (self_title s : string) :
  re_match_copy self_title s = true -> s <> self_title.
Proof.
  intros H E. apply re_match_copy_split in H as (rest & Hs & _).
  rewrite E in Hs. apply (f_equal String.length) in Hs.
  rewrite string_length_app in Hs. simpl in Hs. lia.
Qed.

Lemma sorted_keys_NoDup {A} (key : A -> Z) (l : list A) :
  StronglySorted (fun x y => key y < key x) l -> NoDup l.
Proof.
  induction 1 as [|a l Hs IH Ha]; constructor; [|assumption].
  intros Hin. rewrite Forall_forall in Ha. specialize (Ha a Hin). lia.
Qed.

(** X15.  For a title that the pattern reads literally, [get_duplicates]
    asks the connection for the base of the table and then for the tables
    of that base, once each, and asks nothing else of it.  From that listing
    it returns only tables of the listing, never a table titled like the
    table itself, and no table twice. *)
Theorem get_duplicates_distinct :
  forall (db : NocoDB) (self : Table) (w w1 w2 : world db) (trace : list Event)
         (log : list Request) (b : Base db) (ts : list Table),
    re_literal (title self) = true ->
    get_base db (base_id self) w = (Ok b, w1) ->
    get_tables db b w1 = (Ok ts, w2) ->
    exists res,
      Table_get_duplicates (traced db) self ((w, trace), log)
      = Some (Ok res,
              ((w2, (trace ++ [Base_lookup (base_id self); Tables_listing])%list), log))
      /\ NoDup res
      /\ (forall t, In t res -> In t ts /\ title t <> title self)
      /\ (List.length res <= List.length ts)%nat.
Proof.
  intros db self w w1 w2 trace log b ts _ Hb Ht.
  exists (duplicates_of (title self) ts). split.
  { replace (trace ++ [Base_lookup (base_id self); Tables_listing])%list
      with ((trace ++ [Base_lookup (base_id self)]) ++ [Tables_listing])%list
      by now rewrite <- app_assoc.
    apply (Table_get_duplicates_run (traced db)) with
      (b := b) (w1 := (w1, (trace ++ [Base_lookup (base_id self)])%list)).
    - simpl. now rewrite Hb.
    - simpl. now rewrite Ht. }
  assert (NoDup (duplicates_of (title self) ts)) as Hnd
      by (apply (sorted_keys_NoDup (fun t => duplicate_key (title t))),
          duplicates_of_sorted).
  assert (forall t, In t (duplicates_of (title self) ts) ->
                    In t ts /\ title t <> title self) as Hin.
  { intros t Hin. apply duplicates_of_In in Hin as (n & Hn).
    apply last_with_Some in Hn as (Hin & Hm & _).
    split; [assumption|now apply re_match_copy_longer]. }
  split; [assumption|]. split; [assumption|].
  apply NoDup_incl_length; [assumption|]. intros t Ht'. now apply Hin.
Qed.

Lemma get_duplicates_distinct_witness :
  exists res,
    Table_get_duplicates (traced scripted) (mk_table "0" "Orders")
      ((orders_base, []), [])
    = Some (Ok res, ((orders_base, ([] ++ [Base_lookup "b1"; Tables_listing])%list), []))
    /\ NoDup res
    /\ (forall t, In t res -> In t (tables orders_base) /\ title t <> "Orders")
    /\ (List.length res <= 3)%nat.
Proof.
  apply (get_duplicates_distinct scripted (mk_table "0" "Orders")
           orders_base orders_base orders_base [] [] "b1" (tables orders_base));
    reflexivity.
Defined.

(** ** What [link_record] and [link_records] send *)

(** X16.  [link_record] and [link_records] always end after one POST to
    the path that [get_linked_records] reads with GET; [link_records]
    sends one [{"Id": ...}] object for each record, in the order given,
    and [link_record] that object alone.  Both return the answer of the
    service as it is, whatever kind of value it is. *)
Theorem link_one_post :
  forall (db : NocoDB) (self : Rec) (column : Column) (one : Rec) (links : list Rec)
         (st : State db),
    (exists res w',
        Record_link_record db self column one st
        = Some (res, (w', (snd st ++ [link_request self column
                                        (JDict [("Id", record_id one)])])%list)))
    /\ (exists res w',
           Record_link_records db self column links st
           = Some (res, (w', (snd st ++ [link_request self column
                                           (ids_body (map record_id links))])%list)))
    /\ (forall body,
           path (link_request self column body) = path (links_request self column)
           /\ method (link_request self column body) = POST
           /\ method (links_request self column) = GET)
    /\ echoed_ids (Body (ids_body (map record_id links))) = Ok (map record_id links)
    /\ (forall j w',
           call_noco db (link_request self column (JDict [("Id", record_id one)]))
             (fst st) = (Ok (Body j), w') ->
           Record_link_record db self column one st
           = Some (Ok j, (w', (snd st ++ [link_request self column
                                            (JDict [("Id", record_id one)])])%list)))
    /\ (forall j w',
           call_noco db (link_request self column (ids_body (map record_id links)))
             (fst st) = (Ok (Body j), w') ->
           Record_link_records db self column links st
           = Some (Ok j, (w', (snd st ++ [link_request self column
                                            (ids_body (map record_id links))])%list))).
Proof.
  intros db self column one links st. repeat split.
  - unfold Record_link_record, bind, call, lift.
    destruct (call_noco db _ (fst st)) as [[r|e] w']; eauto.
  - unfold Record_link_records, bind, call, lift.
    destruct (call_noco db _ (fst st)) as [[r|e] w']; eauto.
  - apply echoed_ids_body.
  - intros j w' Hc. unfold Record_link_record, bind, call, lift. now rewrite Hc.
  - intros j w' Hc. unfold Record_link_records, bind, call, lift. now rewrite Hc.
Qed.

Lemma link_one_post_witness :
  Record_link_records scripted book author_link
    [record_of authors 4; record_of authors 5] (flaky, [])
  = Some (Ok (JDict [("Id", JInt 7)]),
          ({| answers := [Raise (TransportError "timeout");
                          Ok (Body (last_page [row 9]))];
              tables := library |},
           ([] ++ [link_request book author_link
                     (ids_body (map record_id [record_of authors 4;
                                               record_of authors 5]))])%list)).
Proof.
  apply (proj2 (proj2 (proj2 (proj2 (proj2
           (link_one_post scripted book author_link (record_of authors 4)
              [record_of authors 4; record_of authors 5] (flaky, []))))))).
  reflexivity.
Defined.

(** * The methods on one record *)

Section OneRecord.
Context (c : Connection).

Lemma get_record_answer (self : Table) (i : json) (st : State' c) :
  Table_get_record c self i st
  = let (a, w') := call_noco' c (record_request self i None) (fst st) in
    Some (match a with
          | Ok r => bindR (Response_json r) (new_Record self)
          | Raise e => Raise e
          end, (w', (snd st ++ [record_request self i None])%list)).
Proof.
  unfold Table_get_record, bind', call', lift'.
  destruct (call_noco' c _ (fst st)) as [[r|e] w']; [|reflexivity].
  now destruct (Response_json r).
Qed.

Lemma get_record_inv (self : Table) (i : json) (st : State' c) :
  exists res w',
    Table_get_record c self i st
    = Some (res, (w', (snd st ++ [record_request self i None])%list))
    /\ (forall r, res = Ok r -> owned_by self r).
Proof.
  rewrite get_record_answer.
  destruct (call_noco' c _ (fst st)) as [[r|e] w'].
  - eexists. exists w'. split; [reflexivity|]. intros r0 H.
    destruct (Response_json r) as [j|e]; [|discriminate]. simpl in H.
    now apply new_Record_owned in H.
  - exists (Raise e), w'. split; [reflexivity|discriminate].
Qed.

(** A write on the records of a table, followed by the read of the record
    that the echo names. *)
Lemma write_then_get (t : Table) (m : Method) (body : json) (st : State' c) :
  exists res w' more,
    bind' c (call' c (widen (write_request t m body)))
      (fun r => bind' c (lift' (Response_json r))
                  (fun j => bind' c (lift' (getitem j "Id"))
                              (fun i => Table_get_record c t i))) st
    = Some (res, (w', (snd st ++ widen (write_request t m body) :: more)%list))
    /\ (more = [] \/ exists i, more = [record_request t i None])
    /\ (forall r, res = Ok r -> owned_by t r).
Proof.
  unfold bind' at 1, call'.
  destruct (call_noco' c (widen (write_request t m body)) (fst st)) as [[r|e] w1].
  2:{ exists (Raise e), w1, []. split; [reflexivity|]. split; [now left|discriminate]. }
  unfold bind' at 1, lift' at 1. destruct (Response_json r) as [j|e].
  2:{ exists (Raise e), w1, []. split; [reflexivity|]. split; [now left|discriminate]. }
  unfold bind' at 1, lift' at 1. destruct (getitem j "Id") as [i|e].
  2:{ exists (Raise e), w1, []. split; [reflexivity|]. split; [now left|discriminate]. }
  destruct (get_record_inv t i (w1, (snd st ++ [widen (write_request t m body)])%list))
    as (res & w' & E & Ho).
  exists res, w', [record_request t i None]. rewrite E. simpl snd.
  rewrite <- app_assoc. split; [reflexivity|]. split; [right; now exists i|exact Ho].
Qed.

Lemma write_then_get_echo (t : Table) (m : Method) (body : json) (st : State' c)
    (j i : json) (w1 : state c) :
  call_noco' c (widen (write_request t m body)) (fst st) = (Ok (Body j), w1) ->
  getitem j "Id" = Ok i ->
  bind' c (call' c (widen (write_request t m body)))
    (fun r => bind' c (lift' (Response_json r))
                (fun j => bind' c (lift' (getitem j "Id"))
                            (fun i => Table_get_record c t i))) st
  = Table_get_record c t i (w1, (snd st ++ [widen (write_request t m body)])%list).
Proof.
  intros Hc Hi. unfold bind' at 1, call'. rewrite Hc.
  unfold bind' at 1, lift' at 1. simpl Response_json. cbv iota.
  unfold bind' at 1, lift' at 1. now rewrite Hi.
Qed.
End OneRecord.

(** X18.  [Record.update] always sends the identifier of the record
    itself: the body of its PATCH maps ["Id"] to [record_id], whatever the
    keywords say, and leaves every other keyword as given.  The PATCH comes
    first; at most one read follows, of the record that the echo of the
    service names, and the Record returned belongs to the same table. *)
Theorem update_sends_own_id :
  forall (c : Connection) (self : Rec) (kwargs : dict json) (st : State' c),
    dict_mem "self" kwargs = false ->
    dict_get (dict_set kwargs "Id" (record_id self)) "Id" = Some (record_id self)
    /\ (forall k, k <> "Id" ->
                  dict_get (dict_set kwargs "Id" (record_id self)) k = dict_get kwargs k)
    /\ (exists res w' more,
           Record_update c self kwargs st
           = Some (res,
                   (w', (snd st
                         ++ widen (write_request (table self) PATCH
                                     (JDict (dict_set kwargs "Id" (record_id self))))
                         :: more)%list))
           /\ (more = [] \/ exists i, more = [record_request (table self) i None])
           /\ (forall r, res = Ok r -> owned_by (table self) r))
    /\ (forall j i w1,
           call_noco' c (widen (write_request (table self) PATCH
                                  (JDict (dict_set kwargs "Id" (record_id self)))))
             (fst st) = (Ok (Body j), w1) ->
           getitem j "Id" = Ok i ->
           Record_update c self kwargs st
           = Table_get_record c (table self) i
               (w1, (snd st
                     ++ [widen (write_request (table self) PATCH
                                  (JDict (dict_set kwargs "Id" (record_id self))))])%list)).
Proof.
  intros c self kwargs st Hs. split; [apply dict_get_set_eq|]. split.
  { intros k Hk. apply dict_get_set_neq. congruence. }
  unfold Record_update. rewrite Hs. split.
  - apply write_then_get.
  - intros j i w1. apply write_then_get_echo.
Qed.

(** X19.  With no keyword named [self], [create_record] sends its POST
    first and then at most one read, of the record that the echo names;
    a POST that raises ends the call with that exception and nothing
    follows it, nor an echo that cannot be parsed or that has no ["Id"];
    and the Record returned belongs to the table. *)
Theorem create_record_then_get :
  forall (c : Connection) (self : Table) (kwargs : dict json) (st : State' c),
    dict_mem "self" kwargs = false ->
    (exists res w' more,
        Table_create_record c self kwargs st
        = Some (res,
                (w', (snd st ++ widen (write_request self POST (JDict kwargs))
                             :: more)%list))
        /\ (more = [] \/ exists i, more = [record_request self i None])
        /\ (forall r, res = Ok r -> owned_by self r))
    /\ (forall j w1,
           call_noco' c (widen (write_request self POST (JDict kwargs))) (fst st)
           = (Ok (Body j), w1) ->
           (forall i, getitem j "Id" = Ok i ->
                      Table_create_record c self kwargs st
                      = Table_get_record c self i
                          (w1, (snd st ++ [widen (write_request self POST
                                                    (JDict kwargs))])%list))
           /\ (forall e, getitem j "Id" = Raise e ->
                         Table_create_record c self kwargs st
                         = Some (Raise e,
                                 (w1, (snd st ++ [widen (write_request self POST
                                                           (JDict kwargs))])%list))))
    /\ (forall e w1,
           call_noco' c (widen (write_request self POST (JDict kwargs))) (fst st)
           = (Raise e, w1) ->
           Table_create_record c self kwargs st
           = Some (Raise e,
                   (w1, (snd st ++ [widen (write_request self POST
                                             (JDict kwargs))])%list)))
    /\ (forall w1,
           call_noco' c (widen (write_request self POST (JDict kwargs))) (fst st)
           = (Ok Unparseable, w1) ->
           Table_create_record c self kwargs st
           = Some (Raise JSONDecodeError,
                   (w1, (snd st ++ [widen (write_request self POST
                                             (JDict kwargs))])%list))).
Proof.
  intros c self kwargs st Hs. unfold Table_create_record. rewrite Hs.
  split; [apply write_then_get|]. split; [|split].
  - intros j w1 Hc. split.
    + intros i Hi. now apply write_then_get_echo with (j := j).
    + intros e He. unfold bind' at 1, call'. rewrite Hc.
      unfold bind' at 1, lift' at 1. simpl Response_json. cbv iota.
      unfold bind' at 1, lift' at 1. now rewrite He.
  - intros e w1 Hc. unfold bind' at 1, call'. now rewrite Hc.
  - intros w1 Hc. unfold bind' at 1, call'. rewrite Hc.
    unfold bind' at 1, lift' at 1. reflexivity.
Qed.

(** ** The fields of [Record.get_values] *)

Lemma user_fields_titles (fields : option (list string)) (cols : list string) :
  Forall (fun f => In f cols) (user_fields fields cols).
Proof.
  apply Forall_forall. intros f Hf. unfold user_fields in Hf.
  destruct fields as [[|x xs]|]; try assumption.
  apply filter_In in Hf as [_ Hf]. apply existsb_exists in Hf as (y & Hy & E).
  apply String.eqb_eq in E. now subst.
Qed.

Lemma user_fields_requested (f : string) (fs cols : list string) :
  incl (user_fields (Some (f :: fs)) cols) (f :: fs).
Proof. intros x Hx. unfold user_fields in Hx. now apply filter_In in Hx as [Hx _]. Qed.

Lemma user_fields_nothing (f : string) (fs cols : list string) :
  (forall x, In x (f :: fs) -> ~ In x cols) ->
  user_fields (Some (f :: fs)) cols = [].
Proof.
  intros H. unfold user_fields.
  destruct (filter _ (f :: fs)) as [|y ys] eqn:E; [reflexivity|].
  assert (In y (filter (fun x => existsb (String.eqb x) cols) (f :: fs))) as Hy
      by (rewrite E; now left).
  apply filter_In in Hy as [Hin Hy]. apply existsb_exists in Hy as (z & Hz & Ez).
  apply String.eqb_eq in Ez. subst z. now apply H in Hin.
Qed.

Section Values.
Context (c : Connection).

Lemma values_call (self : Rec) (fields : option (list string)) (st : State' c) :
  bind' c (call' c (values_request self fields)) (fun r => lift' (Response_json r)) st
  = let (a, w') := call_noco' c (values_request self fields) (fst st) in
    Some (match a with
          | Ok r => Response_json r
          | Raise e => Raise e
          end, (w', (snd st ++ [values_request self fields])%list)).
Proof.
  unfold bind', call', lift'.
  now destruct (call_noco' c _ (fst st)) as [[r|e] w'].
Qed.

Lemma get_values_all (self : Rec) (fields : option (list string)) (st : State' c) :
  Record_get_values c self fields true st
  = let (a, w') := call_noco' c (values_request self fields) (fst st) in
    Some (match a with
          | Ok r => Response_json r
          | Raise e => Raise e
          end, (w', (snd st ++ [values_request self fields])%list)).
Proof.
  unfold Record_get_values. simpl negb. cbv iota.
  unfold bind' at 1, ret'. apply values_call.
Qed.

Lemma get_values_user (self : Rec) (fields : option (list string)) (st : State' c)
    (r0 : Response) (w0 : state c) (cols : list Column) :
  call_noco' c (widen (columns_request (table self))) (fst st) = (Ok r0, w0) ->
  read_columns (narrow c) r0 = Ok cols ->
  Record_get_values c self fields false st
  = bind' c (call' c (values_request self
                        (Some (user_fields fields
                                 (map column_title
                                    (filter (fun x => negb (system x)) cols))))))
      (fun r => lift' (Response_json r))
      (w0, (snd st ++ [widen (columns_request (table self))])%list).
Proof.
  intros Hc Hr. unfold Record_get_values. simpl negb. cbv iota.
  unfold bind' at 1. unfold bind' at 1, earlier.
  rewrite (get_columns_answer (narrow c)). simpl fst.
  change (call_noco (narrow c) (columns_request (table self)) (fst st))
    with (call_noco' c (widen (columns_request (table self))) (fst st)).
  rewrite Hc, Hr. reflexivity.
Qed.
End Values.

(** X20.  [get_values] with [include_system] false lists the columns
    first and then sends one request for the record.  When no field is
    requested it asks for the titles of all columns that are not system
    columns, in the order of the listing; when fields are requested it asks
    for exactly those of them that are such titles, in the order given.
    When fields are requested and none of them is such a title, the
    request carries the empty field list, the one sent when no field is
    asked for.  The result is the parsed answer to that request. *)
Theorem get_values_user_fields :
  forall (c : Connection) (self : Rec) (fields : option (list string))
         (st : State' c) (r0 : Response) (w0 : state c) (cols : list Column),
    call_noco' c (widen (columns_request (table self))) (fst st) = (Ok r0, w0) ->
    read_columns (narrow c) r0 = Ok cols ->
    exists asked res w',
      Record_get_values c self fields false st
      = Some (res,
              (w', (snd st ++ [widen (columns_request (table self));
                               values_request self (Some asked)])%list))
      /\ (fields = None \/ fields = Some [] ->
          asked = map column_title (filter (fun col => negb (system col)) cols))
      /\ (forall f fs,
             fields = Some (f :: fs) ->
             asked = filter (fun x => existsb (String.eqb x)
                                        (map column_title
                                           (filter (fun col => negb (system col)) cols)))
                            (f :: fs)
             /\ (forall x,
                    In x asked <->
                    In x (f :: fs)
                    /\ exists col, In col cols /\ system col = false
                                   /\ column_title col = x))
      /\ (forall f fs,
             fields = Some (f :: fs) ->
             (forall x col, In x (f :: fs) -> In col cols -> column_title col = x ->
                            system col = true) ->
             field_str (Some asked) = field_str None)
      /\ (forall a w1,
             call_noco' c (values_request self (Some asked)) w0 = (a, w1) ->
             w' = w1
             /\ res = match a with
                      | Ok r => Response_json r
                      | Raise e => Raise e
                      end).
Proof.
  intros c self fields st r0 w0 cols Hc Hr.
  set (titles := map column_title (filter (fun x => negb (system x)) cols)).
  exists (user_fields fields titles).
  rewrite (get_values_user c self fields st r0 w0 cols Hc Hr). fold titles.
  rewrite values_call. simpl fst. simpl snd.
  destruct (call_noco' c (values_request self (Some (user_fields fields titles))) w0)
    as [a w'].
  eexists. exists w'. split; [rewrite <- app_assoc; reflexivity|].
  assert (forall f, In f titles <->
                    exists col, In col cols /\ system col = false
                                /\ column_title col = f) as Ht.
  { intros f. unfold titles. rewrite in_map_iff. split.
    - intros (col & Hcol & Hin). apply filter_In in Hin as [Hin Hs].
      apply negb_true_iff in Hs. now exists col.
    - intros (col & Hin & Hs & Hcol). exists col. split; [assumption|].
      apply filter_In. split; [assumption|]. now rewrite Hs. }
  split; [|split; [|split]].
  - intros [->| ->]; reflexivity.
  - intros f fs ->. split; [reflexivity|]. intros x.
    unfold user_fields. rewrite filter_In, <- Ht. split.
    + intros [Hx Hex]. split; [assumption|].
      apply existsb_exists in Hex as (y & Hy & E). apply String.eqb_eq in E. now subst.
    + intros [Hx Hin]. split; [assumption|].
      apply existsb_exists. exists x. split; [assumption|apply String.eqb_refl].
  - intros f fs -> Hsys. rewrite user_fields_nothing; [reflexivity|].
    intros x Hx Hin. apply Ht in Hin as (col & Hcol & Hs & Hcx).
    rewrite (Hsys x col Hx Hcol Hcx) in Hs. discriminate.
  - intros a' w1 E. inversion E; subst. split; reflexivity.
Qed.

(** X21.  [get_value] sends one request for the record with that one
    field, returns the entry of the answer under the name of the field, and
    raises [KeyError] when the answer is an object without it;
    [get_column_value] does the same under the title of the column. *)
Theorem get_value_of_answer :
  forall (c : Connection) (self : Rec) (field : string) (column : Column)
         (st : State' c),
    field_str (Some [field]) = field
    /\ (exists res w',
           Record_get_value c self field st
           = Some (res, (w', (snd st ++ [values_request self (Some [field])])%list)))
    /\ (forall d w',
           call_noco' c (values_request self (Some [field])) (fst st)
           = (Ok (Body (JDict d)), w') ->
           Record_get_value c self field st
           = Some (match dict_get d field with
                   | Some v => Ok v
                   | None => Raise (KeyError field)
                   end, (w', (snd st ++ [values_request self (Some [field])])%list)))
    /\ Record_get_column_value c self column st
       = Record_get_value c self (column_title column) st.
Proof.
  intros c self field column st. split; [reflexivity|]. split; [|split].
  - unfold Record_get_value, bind' at 1. rewrite get_values_all.
    destruct (call_noco' c _ (fst st)) as [[r|e] w']; [|eauto].
    destruct (Response_json r) as [j|e]; [|eauto].
    unfold lift'. eauto.
  - intros d w' Hc. unfold Record_get_value, bind' at 1. rewrite get_values_all, Hc.
    simpl. unfold lift'. now destruct (dict_get d field).
  - reflexivity.
Qed.

(** ** Attachments *)

Section Attachments.
Context (c : Connection).

(** Fetching the files moves the connection, not the request log. *)
Lemma fetch_files (encoding : string) (l : list json) (st : State' c) :
  exists res w',
    mapM' c (fun p => bind' c (lift' (getitem p "signedUrl"))
                        (fun url => op' c (get_file c url encoding))) l st
    = Some (res, (w', snd st))
    /\ (forall files,
           res = Ok files ->
           Forall2 (fun p f => exists url w1 w2,
                                 getitem p "signedUrl" = Ok url
                                 /\ get_file c url encoding w1 = (Ok f, w2))
             l files).
Proof.
  revert st. induction l as [|p l IH]; intros st.
  - exists (Ok []), (fst st). simpl. unfold ret'. destruct st; simpl.
    split; [reflexivity|]. intros files H. injection H as <-. constructor.
  - simpl. unfold bind' at 1. unfold bind' at 1, lift' at 1.
    destruct (getitem p "signedUrl") as [url|e] eqn:Hu.
    2:{ exists (Raise e), (fst st). destruct st; simpl.
        split; [reflexivity|discriminate]. }
    unfold op' at 1. destruct (get_file c url encoding (fst st)) as [[f|e] w1] eqn:Hf.
    2:{ exists (Raise e), w1. split; [reflexivity|discriminate]. }
    destruct (IH (w1, snd st)) as (res & w' & E & Hres).
    unfold bind' at 1. rewrite E. simpl snd.
    destruct res as [fs|e].
    + exists (Ok (f :: fs)), w'. split; [reflexivity|].
      intros files H. injection H as <-. constructor; [|now apply Hres].
      now exists url, (fst st), w1.
    + exists (Raise e), w'. split; [reflexivity|discriminate].
Qed.

Lemma get_value_answer (self : Rec) (field : string) (st : State' c) :
  Record_get_value c self field st
  = let (a, w') := call_noco' c (values_request self (Some [field])) (fst st) in
    Some (match a with
          | Ok r => bindR (Response_json r) (fun j => getitem j field)
          | Raise e => Raise e
          end, (w', (snd st ++ [values_request self (Some [field])])%list)).
Proof.
  unfold Record_get_value, bind' at 1. rewrite get_values_all.
  destruct (call_noco' c _ (fst st)) as [[r|e] w']; [|reflexivity].
  now destruct (Response_json r).
Qed.

Lemma get_value_present (self : Rec) (field : string) (st : State' c)
    (d : dict json) (v : json) (w1 : state c) :
  call_noco' c (values_request self (Some [field])) (fst st)
  = (Ok (Body (JDict d)), w1) ->
  dict_get d field = Some v ->
  Record_get_value c self field st
  = Some (Ok v, (w1, (snd st ++ [values_request self (Some [field])])%list)).
Proof.
  intros Hc Hd. rewrite get_value_answer, Hc. simpl. now rewrite Hd.
Qed.
End Attachments.

(** X22.  [get_attachments] sends one request, for the field.  A value
    that is not a list raises ["Invalid field value"] with no file read;
    for a list, the files come back one per attachment and in order, each
    read from the ["signedUrl"] of its attachment. *)
Theorem get_attachments_one_file_each :
  forall (c : Connection) (self : Rec) (field encoding : string) (st : State' c)
         (d : dict json) (v : json) (w1 : state c),
    call_noco' c (values_request self (Some [field])) (fst st)
    = (Ok (Body (JDict d)), w1) ->
    dict_get d field = Some v ->
    ((forall l, v <> JList l) ->
     Record_get_attachments c self field encoding st
     = Some (Raise (Exception "Invalid field value"),
             (w1, (snd st ++ [values_request self (Some [field])])%list)))
    /\ (forall l,
           v = JList l ->
           exists res w',
             Record_get_attachments c self field encoding st
             = Some (res, (w', (snd st ++ [values_request self (Some [field])])%list))
             /\ (forall files,
                    res = Ok files ->
                    Forall2 (fun p f => exists url w2 w3,
                                          getitem p "signedUrl" = Ok url
                                          /\ get_file c url encoding w2 = (Ok f, w3))
                      l files)).
Proof.
  intros c self field encoding st d v w1 Hc Hd.
  pose proof (get_value_present c self field st d v w1 Hc Hd) as Hv0. split.
  - intros Hv. unfold Record_get_attachments, bind' at 1. rewrite Hv0.
    destruct v; try reflexivity. now destruct (Hv l).
  - intros l ->. unfold Record_get_attachments, bind' at 1. rewrite Hv0.
    destruct (fetch_files c encoding l
                (w1, (snd st ++ [values_request self (Some [field])])%list))
      as (res & w' & E & H).
    exists res, w'. split; [|exact H]. etransitivity; [exact E|reflexivity].
Qed.

(** X23.  [upload_attachment] reads the field, and a value that is
    neither empty nor a list raises [AttributeError] before anything is
    uploaded or written.  Otherwise the file is uploaded and the PATCH that
    follows sets the field to the attachments read, in order, with the
    uploaded one last (an empty value counts as no attachment), next to the
    identifier of the record. *)
Theorem upload_attachment_appends :
  forall (c : Connection) (self : Rec) (field filepath mimetype : string)
         (st : State' c) (d : dict json) (v : json) (w1 : state c),
    call_noco' c (values_request self (Some [field])) (fst st)
    = (Ok (Body (JDict d)), w1) ->
    dict_get d field = Some v ->
    (truthy v = true -> (forall l, v <> JList l) ->
     Record_upload_attachment c self field filepath mimetype st
     = Some (Raise AttributeError,
             (w1, (snd st ++ [values_request self (Some [field])])%list)))
    /\ (forall l f w2,
           (if truthy v then v else JList []) = JList l ->
           upload_file c filepath mimetype w1 = (Ok f, w2) ->
           field <> "self" ->
           exists res w' more,
             Record_upload_attachment c self field filepath mimetype st
             = Some (res,
                     (w', (snd st
                           ++ values_request self (Some [field])
                           :: widen (write_request (table self) PATCH
                                       (JDict (dict_set [(field, JList (l ++ [f])%list)]
                                                 "Id" (record_id self))))
                           :: more)%list))
             /\ (more = [] \/ exists i, more = [record_request (table self) i None])
             /\ (forall r, res = Ok r -> owned_by (table self) r)).
Proof.
  intros c self field filepath mimetype st d v w1 Hc Hd.
  pose proof (get_value_present c self field st d v w1 Hc Hd) as Hv0. split.
  - intros Ht Hv. unfold Record_upload_attachment, bind' at 1. rewrite Hv0, Ht.
    destruct v; try reflexivity. now destruct (Hv l).
  - intros l f w2 Hl Hu Hf. unfold Record_upload_attachment, bind' at 1.
    rewrite Hv0, Hl.
    unfold bind' at 1, op'. simpl fst. rewrite Hu. simpl snd.
    unfold Record_update.
    assert (dict_mem "self" [(field, JList (l ++ [f])%list)] = false) as ->.
    { unfold dict_mem. cbn [dict_get].
      destruct (String.eqb_spec "self" field) as [E|E]; [|reflexivity].
      now destruct Hf. }
    destruct (write_then_get c (table self) PATCH
                (JDict (dict_set [(field, JList (l ++ [f])%list)] "Id" (record_id self)))
                (w2, (snd st ++ [values_request self (Some [field])])%list))
      as (res & w' & more & E & Hm & Ho).
    exists res, w', more. rewrite E. simpl snd. rewrite <- app_assoc.
    split; [reflexivity|]. split; assumption.
Qed.

Lemma update_sends_own_id_witness :
  Record_update scripted' plain_book [("Title", JStr "Dune")] (written, [])
  = Table_get_record scripted' books (JInt 1)
      (answering [Ok (Body dune)],
       ([] ++ [widen (write_request books PATCH
                        (JDict (dict_set [("Title", JStr "Dune")] "Id" (JInt 1))))])%list).
Proof.
  apply (proj2 (proj2 (proj2 (update_sends_own_id scripted' plain_book
                                [("Title", JStr "Dune")] (written, []) eq_refl)))
           (row 1) (JInt 1) (answering [Ok (Body dune)])); reflexivity.
Defined.

Lemma create_record_then_get_witness :
  Table_create_record scripted' books [("Title", JStr "Dune")] (written, [])
  = Table_get_record scripted' books (JInt 1)
      (answering [Ok (Body dune)],
       ([] ++ [widen (write_request books POST (JDict [("Title", JStr "Dune")]))])%list).
Proof.
  apply (proj1 (proj1 (proj2 (create_record_then_get scripted' books
                                [("Title", JStr "Dune")] (written, []) eq_refl))
                  (row 1) (answering [Ok (Body dune)]) eq_refl) (JInt 1)).
  reflexivity.
Defined.

Lemma get_values_user_fields_witness :
  exists asked res w',
    Record_get_values scripted' plain_book (Some ["Title"; "CreatedAt"]) false
      (with_timestamp, [])
    = Some (res,
            (w', ([] ++ [widen (columns_request books);
                         values_request plain_book (Some asked)])%list))
    /\ asked = ["Title"].
Proof.
  destruct (get_values_user_fields scripted' plain_book (Some ["Title"; "CreatedAt"])
              (with_timestamp, [])
              (Body (JDict [("columns", JList [column_json "c1" "Title" false;
                                               column_json "c2" "CreatedAt" true])]))
              (answering [Ok (Body (JDict [("Title", JStr "Dune")]))])
              [{| column_id := "c1"; column_title := "Title"; system := false;
                  linked_table_id := None |};
               {| column_id := "c2"; column_title := "CreatedAt"; system := true;
                  linked_table_id := None |}]
              eq_refl eq_refl)
    as (asked & res & w' & E & _ & H & _).
  exists asked, res, w'. split; [exact E|].
  exact (proj1 (H "Title" ["CreatedAt"] eq_refl)).
Defined.

Lemma get_value_of_answer_witness :
  Record_get_value scripted' plain_book "Title"
    (answering [Ok (Body dune)], [])
  = Some (Ok (JStr "Dune"),
          (answering [], ([] ++ [values_request plain_book (Some ["Title"])])%list)).
Proof.
  apply (proj1 (proj2 (proj2 (get_value_of_answer scripted' plain_book "Title"
                                authors_column (answering [Ok (Body dune)], []))))
           [("Id", JInt 1); ("Title", JStr "Dune")] (answering [])).
  reflexivity.
Defined.

Lemma get_attachments_one_file_each_witness :
  exists res w',
    Record_get_attachments scripted' plain_book "Covers" "utf-8" (with_covers, [])
    = Some (res, (w', ([] ++ [values_request plain_book (Some ["Covers"])])%list))
    /\ (forall files,
           res = Ok files ->
           Forall2 (fun p f => exists url w2 w3,
                                 getitem p "signedUrl" = Ok url
                                 /\ get_file scripted' url "utf-8" w2 = (Ok f, w3))
             [cover "u1"; cover "u2"] files).
Proof.
  apply (proj2 (get_attachments_one_file_each scripted' plain_book "Covers" "utf-8"
                  (with_covers, [])
                  [("Covers", JList [cover "u1"; cover "u2"])]
                  (JList [cover "u1"; cover "u2"])
                  (answering [Ok (Body (row 1)); Ok (Body dune)])
                  eq_refl eq_refl)
           [cover "u1"; cover "u2"] eq_refl).
Defined.

Lemma upload_attachment_appends_witness :
  exists res w' more,
    Record_upload_attachment scripted' plain_book "Covers" "u3.png" "image/png"
      (with_covers, [])
    = Some (res,
            (w', ([] ++ values_request plain_book (Some ["Covers"])
                     :: widen (write_request books PATCH
                                 (JDict (dict_set
                                           [("Covers",
                                             JList ([cover "u1"; cover "u2"]
                                                    ++ [JDict [("path", JStr "u3.png")]])%list)]
                                           "Id" (JInt 1))))
                     :: more)%list))
    /\ (more = [] \/ exists i, more = [record_request books i None])
    /\ (forall r, res = Ok r -> owned_by books r).
Proof.
  apply (proj2 (upload_attachment_appends scripted' plain_book "Covers" "u3.png"
                  "image/png" (with_covers, [])
                  [("Covers", JList [cover "u1"; cover "u2"])]
                  (JList [cover "u1"; cover "u2"])
                  (answering [Ok (Body (row 1)); Ok (Body dune)])
                  eq_refl eq_refl)
           [cover "u1"; cover "u2"] (JDict [("path", JStr "u3.png")])
           (answering [Ok (Body (row 1)); Ok (Body dune)]) eq_refl eq_refl).
  discriminate.
Defined.
